(** * JARV1S disassembler: cache orchestrator and resource cache

    A shallow embedding of [jvd/disassembler.py] and [jvd/resources.py].
    Python values read from the cache are JSON trees, exceptions are values
    of an outcome type, and the code that touches the file system is written
    in a state-and-exception monad over an explicit world. *)

From Stdlib Require Import ZArith String Ascii List Bool Lia.
From stdpp Require Import base option list gmap strings.

Open Scope Z_scope.

(* ===================================================================== *)
(** ** Python values, exceptions and outcomes *)
(* ===================================================================== *)

Module Py.

(** An exception object: its class name and [str(e)]. Every exception of
    the model is a subclass of [Exception], so [except Exception] catches
    all of them. *)
Record exn := Exn { exn_kind : string; exn_msg : string }.

Definition str_exn (e : exn) : string := exn_msg e.

Inductive outcome (A : Type) : Type :=
| Ret (a : A)
| Raise (e : exn).
Arguments Ret {A} a.
Arguments Raise {A} e.

#[global] Instance outcome_ret : MRet outcome := fun A a => Ret a.
#[global] Instance outcome_bind : MBind outcome := fun A B f m =>
  match m with
  | Ret a => f a
  | Raise e => Raise e
  end.

Definition TypeError (msg : string) : exn := Exn "TypeError" msg.
Definition KeyError (key : string) : exn := Exn "KeyError" ("'" +:+ key +:+ "'").

(** A value as [json.loads] builds it. Numbers are the integers (floats are
    outside the model); a JSON object is a Python dict, kept as an
    association list in insertion order with pairwise distinct keys. *)
#[local] Unset Elimination Schemes.
Inductive json : Type :=
| JNull
| JBool (b : bool)
| JNum (n : Z)
| JStr (s : string)
| JArr (l : list json)
| JObj (kv : list (string * json)).
#[local] Set Elimination Schemes.

(** [bool(x)] *)
Definition truthy (j : json) : bool :=
  match j with
  | JNull => false
  | JBool b => b
  | JNum n => negb (n =? 0)
  | JStr s => negb (String.eqb s "")
  | JArr l => negb (bool_decide (l = []))
  | JObj kv => negb (bool_decide (kv = []))
  end.

Fixpoint dict_get (k : string) (kv : list (string * json)) : option json :=
  match kv with
  | [] => None
  | (k', v) :: rest => if String.eqb k' k then Some v else dict_get k rest
  end.

(** [d[k] = v]: an existing key keeps its position, a new key goes last. *)
Fixpoint dict_set (k : string) (v : json) (kv : list (string * json))
  : list (string * json) :=
  match kv with
  | [] => [(k, v)]
  | (k', v') :: rest =>
      if String.eqb k' k then (k, v) :: rest else (k', v') :: dict_set k v rest
  end.

Definition is_str (k : string) (j : json) : bool :=
  match j with
  | JStr s => String.eqb s k
  | _ => false
  end.

(** [sub in s] for two strings. *)
Fixpoint is_substring (sub s : string) : bool :=
  String.prefix sub s ||
  match s with
  | EmptyString => false
  | String _ rest => is_substring sub rest
  end.

(** [k in x] for a string [k]: key test on a dict, element test on a list,
    substring test on a string, [TypeError] on anything else. *)
Definition py_in (k : string) (j : json) : outcome bool :=
  match j with
  | JObj kv => Ret (bool_decide (is_Some (dict_get k kv)))
  | JArr l => Ret (existsb (is_str k) l)
  | JStr s => Ret (is_substring k s)
  | JNull => Raise (TypeError "argument of type 'NoneType' is not iterable")
  | JBool _ => Raise (TypeError "argument of type 'bool' is not iterable")
  | JNum _ => Raise (TypeError "argument of type 'int' is not iterable")
  end.

(** [x[k]] for a string [k]. *)
Definition py_getitem (j : json) (k : string) : outcome json :=
  match j with
  | JObj kv =>
      match dict_get k kv with
      | Some v => Ret v
      | None => Raise (KeyError k)
      end
  | JArr _ => Raise (TypeError "list indices must be integers or slices, not str")
  | JStr _ => Raise (TypeError "string indices must be integers")
  | JNull => Raise (TypeError "'NoneType' object is not subscriptable")
  | JBool _ => Raise (TypeError "'bool' object is not subscriptable")
  | JNum _ => Raise (TypeError "'int' object is not subscriptable")
  end.

(** [x[k] = v] for a string [k]. *)
Definition py_setitem (j : json) (k : string) (v : json) : outcome json :=
  match j with
  | JObj kv => Ret (JObj (dict_set k v kv))
  | JArr _ => Raise (TypeError "list indices must be integers or slices, not str")
  | JStr _ => Raise (TypeError "'str' object does not support item assignment")
  | JNull => Raise (TypeError "'NoneType' object does not support item assignment")
  | JBool _ => Raise (TypeError "'bool' object does not support item assignment")
  | JNum _ => Raise (TypeError "'int' object does not support item assignment")
  end.

Fixpoint chars (s : string) : list json :=
  match s with
  | EmptyString => []
  | String c rest => JStr (String c EmptyString) :: chars rest
  end.

(** The elements a [for] loop sees: list items, dict keys, characters. *)
Definition py_iter (j : json) : outcome (list json) :=
  match j with
  | JArr l => Ret l
  | JObj kv => Ret (map (fun p => JStr (fst p)) kv)
  | JStr s => Ret (chars s)
  | JNull => Raise (TypeError "'NoneType' object is not iterable")
  | JBool _ => Raise (TypeError "'bool' object is not iterable")
  | JNum _ => Raise (TypeError "'int' object is not iterable")
  end.

(** Keys of a Python dict: the hashable JSON values, up to Python's
    equality ([True == 1], [False == 0]). *)
Inductive pykey : Type :=
| KNone
| KInt (n : Z)
| KStr (s : string).

#[global] Instance pykey_eq_dec : EqDecision pykey.
Proof. solve_decision. Defined.

#[global] Instance pykey_countable : Countable pykey.
Proof.
  refine (inj_countable'
    (fun k => match k with
              | KNone => inl ()
              | KInt n => inr (inl n)
              | KStr s => inr (inr s)
              end)
    (fun x => match x with
              | inl _ => KNone
              | inr (inl n) => KInt n
              | inr (inr s) => KStr s
              end) _).
  by intros [].
Defined.

Definition hash_key (j : json) : outcome pykey :=
  match j with
  | JNull => Ret KNone
  | JBool b => Ret (KInt (if b then 1 else 0))
  | JNum n => Ret (KInt n)
  | JStr s => Ret (KStr s)
  | JArr _ => Raise (TypeError "unhashable type: 'list'")
  | JObj _ => Raise (TypeError "unhashable type: 'dict'")
  end.

(** [enumerate(l)] *)
Fixpoint enumerate_from {A : Type} (i : nat) (l : list A) : list (nat * A) :=
  match l with
  | [] => []
  | x :: rest => (i, x) :: enumerate_from (S i) rest
  end.

Definition enumerate {A : Type} (l : list A) : list (nat * A) :=
  enumerate_from 0 l.

End Py.
Export Py.

(* ===================================================================== *)
(** ** Control-flow graph derivation ([DisassemblerAbstract._cfg]) *)
(* ===================================================================== *)

Module Cfg.

(** The dict comprehension
    [{b['addr_start']: ind for ind, b in enumerate(res['blocks'])}]:
    a later block with the same address overwrites the earlier index. *)
Fixpoint build_blk2ind (m : gmap pykey nat) (ibs : list (nat * json))
  : outcome (gmap pykey nat) :=
  match ibs with
  | [] => Ret m
  | (ind, b) :: rest =>
      a ← py_getitem b "addr_start";
      k ← hash_key a;
      build_blk2ind (<[k := ind]> m) rest
  end.

(** The inner loop [for c in b['calls'] if c in blk2ind] with the element
    expression [(blk2ind[b['addr_start']], blk2ind[c])]. *)
Fixpoint edges_of_calls (blk2ind : gmap pykey nat) (b : json) (cs : list json)
  : outcome (list (nat * nat)) :=
  match cs with
  | [] => Ret []
  | c :: rest =>
      kc ← hash_key c;
      match blk2ind !! kc with
      | None => edges_of_calls blk2ind b rest
      | Some tgt =>
          a ← py_getitem b "addr_start";
          ka ← hash_key a;
          match blk2ind !! ka with
          | None => Raise (KeyError "addr_start")
          | Some src =>
              es ← edges_of_calls blk2ind b rest;
              Ret ((src, tgt) :: es)
          end
      end
  end.

(** The outer loop [for b in res['blocks']]. *)
Fixpoint edges_of_blocks (blk2ind : gmap pykey nat) (bs : list json)
  : outcome (list (nat * nat)) :=
  match bs with
  | [] => Ret []
  | b :: rest =>
      cs ← py_getitem b "calls" ≫= py_iter;
      es ← edges_of_calls blk2ind b cs;
      es' ← edges_of_blocks blk2ind rest;
      Ret (es ++ es')
  end.

(** A pair [(i, j)] of [adj_sp] as [json.dumps] writes it and
    [read_gz_js] reads it back: a two-element array. A record holds its
    edges in this form; the pair in memory and the array are not told
    apart, so no statement compares a record just derived with one read
    from the cache file. *)
Definition edge_json (e : nat * nat) : json :=
  JArr [JNum (Z.of_nat (fst e)); JNum (Z.of_nat (snd e))].

Definition adj_sp (res : json) : outcome (list (nat * nat)) :=
  blocks ← py_getitem res "blocks" ≫= py_iter;
  blk2ind ← build_blk2ind ∅ (enumerate blocks);
  edges_of_blocks blk2ind blocks.

Definition _cfg (res : json) : outcome json :=
  es ← adj_sp res;
  py_setitem res "cfg" (JArr (map edge_json es)).

(** *** The CFG as the specification words it *)

Record Block := { addr_start : Z; calls : list Z }.

(** The position of the block that starts at [a]. *)
Fixpoint position (a : Z) (blocks : list Block) : option nat :=
  match blocks with
  | [] => None
  | b :: rest =>
      if addr_start b =? a then Some 0%nat else S <$> position a rest
  end.

(** Block-then-call order, keeping the calls that resolve to a block. *)
Definition cfg_spec (blocks : list Block) : list (nat * nat) :=
  flat_map (fun b =>
    flat_map (fun c =>
      match position (addr_start b) blocks, position c blocks with
      | Some src, Some tgt => [(src, tgt)]
      | _, _ => []
      end) (calls b)) blocks.

(** The position of the last block that starts at [a]. *)
Fixpoint last_position (a : Z) (blocks : list Block) : option nat :=
  match blocks with
  | [] => None
  | b :: rest =>
      match last_position a rest with
      | Some p => Some (S p)
      | None => if addr_start b =? a then Some 0%nat else None
      end
  end.

(** The edge list when addresses may repeat: an address stands for the
    last block that carries it. *)
Definition cfg_last (blocks : list Block) : list (nat * nat) :=
  flat_map (fun b =>
    flat_map (fun c =>
      match last_position (addr_start b) blocks, last_position c blocks with
      | Some src, Some tgt => [(src, tgt)]
      | _, _ => []
      end) (calls b)) blocks.

(** A JSON block [j] carries the data of [b] (it may have other keys). *)
Definition is_block (j : json) (b : Block) : Prop :=
  py_getitem j "addr_start" = Ret (JNum (addr_start b)) ∧
  py_getitem j "calls" = Ret (JArr (map JNum (calls b))).

Definition block_json (b : Block) : json :=
  JObj [("addr_start", JNum (addr_start b));
        ("calls", JArr (map JNum (calls b)))].

End Cfg.
Export Cfg.

(* ===================================================================== *)
(** ** Paths and the file system *)
(* ===================================================================== *)

Module OS.

(** Paths are the keys of a flat map: a directory is an entry of its own,
    the entries below it are the keys it prefixes, and the parent of a path
    is not looked at. *)

(** What a regular file holds: arbitrary bytes, or the gzip-compressed
    UTF-8 JSON text of a value (the cache file format). *)
Inductive content : Type :=
| Bytes (s : string)
| GzJson (j : json).

Inductive node : Type :=
| File (c : content)
| Dir.

Fixpoint has_slash (p : string) : bool :=
  match p with
  | EmptyString => false
  | String c rest => Ascii.eqb c "/" || has_slash rest
  end.

(** [os.path.basename]: what follows the last slash. *)
Fixpoint basename (p : string) : string :=
  match p with
  | EmptyString => EmptyString
  | String c rest =>
      if has_slash rest then basename rest
      else if Ascii.eqb c "/" then rest else p
  end.

Fixpoint ends_with_slash (p : string) : bool :=
  match p with
  | EmptyString => false
  | String c EmptyString => Ascii.eqb c "/"
  | String _ rest => ends_with_slash rest
  end.

(** [os.path.join] of two components. *)
Definition join (a b : string) : string :=
  if String.prefix "/" b then b
  else if String.eqb a "" || ends_with_slash a then a +:+ b
  else a +:+ "/" +:+ b.

Definition FileNotFoundError (p : string) : exn :=
  Exn "FileNotFoundError" ("[Errno 2] No such file or directory: '" +:+ p +:+ "'").
Definition FileExistsError (p : string) : exn :=
  Exn "FileExistsError" ("[Errno 17] File exists: '" +:+ p +:+ "'").
Definition IsADirectoryError (p : string) : exn :=
  Exn "IsADirectoryError" ("[Errno 21] Is a directory: '" +:+ p +:+ "'").
Definition NotADirectoryError (p : string) : exn :=
  Exn "NotADirectoryError" ("[Errno 20] Not a directory: '" +:+ p +:+ "'").
Definition SameFileError (p q : string) : exn :=
  Exn "SameFileError" ("'" +:+ p +:+ "' and '" +:+ q +:+ "' are the same file").

(** The entries strictly below directory [p]. *)
Definition below (p q : string) : bool := String.prefix (p +:+ "/") q.

Section FileSystem.
Context {N : Type}.
Implicit Types fs : gmap string N.

Definition path_exists fs (p : string) : bool :=
  bool_decide (is_Some (fs !! p)).

(** Remove [p] and everything below it. *)
Definition remove_tree fs (p : string) : gmap string N :=
  filter (fun kv => below p (fst kv) = false) (delete p fs).
End FileSystem.

(** [os.mkdir]: refuses a path that exists, whatever is there. *)
Definition mkdir (fs : gmap string node) (p : string)
  : outcome (gmap string node) :=
  match fs !! p with
  | Some _ => Raise (FileExistsError p)
  | None => Ret (<[p := Dir]> fs)
  end.

(** [shutil.copyfile]: the source must be a regular file other than the
    destination, the destination must not be a directory. *)
Definition copy (fs : gmap string node) (src dst : string)
  : outcome (gmap string node) :=
  if String.eqb src dst then
    match fs !! src with
    | Some _ => Raise (SameFileError src dst)
    | None => Raise (FileNotFoundError src)
    end
  else
    match fs !! src with
    | None => Raise (FileNotFoundError src)
    | Some Dir => Raise (IsADirectoryError src)
    | Some (File c) =>
        match fs !! dst with
        | Some Dir => Raise (IsADirectoryError dst)
        | _ => Ret (<[dst := File c]> fs)
        end
    end.

(** [shutil.rmtree]: removes a directory and what is below it, and
    refuses a missing path and a regular file. *)
Definition rmtree_fs (fs : gmap string node) (p : string)
  : outcome (gmap string node) :=
  match fs !! p with
  | None => Raise (FileNotFoundError p)
  | Some (File _) => Raise (NotADirectoryError p)
  | Some Dir => Ret (remove_tree fs p)
  end.

(** [os.remove]: removes a regular file, and refuses a missing path and
    a directory. *)
Definition remove_fs (fs : gmap string node) (p : string)
  : outcome (gmap string node) :=
  match fs !! p with
  | None => Raise (FileNotFoundError p)
  | Some Dir => Raise (IsADirectoryError p)
  | Some (File _) => Ret (delete p fs)
  end.

End OS.
Export OS.

(* ===================================================================== *)
(** ** State and exceptions *)
(* ===================================================================== *)

Module Eff.

(** A computation over a world [W]: it returns or raises, and leaves a new
    world either way. *)
Definition M (W A : Type) : Type := W → W * outcome A.

Section Monad.
Context {W : Type}.

Definition retM {A : Type} (a : A) : M W A := fun w => (w, Ret a).

Definition bindM {A B : Type} (m : M W A) (f : A → M W B) : M W B :=
  fun w =>
    match m w with
    | (w', Ret a) => f a w'
    | (w', Raise e) => (w', Raise e)
    end.

Definition raise {A : Type} (e : exn) : M W A := fun w => (w, Raise e).
Definition lift {A : Type} (o : outcome A) : M W A := fun w => (w, o).

(** [try: body except Exception as e: handler e] *)
Definition try_except {A : Type} (body : M W A) (handler : exn → M W A)
  : M W A :=
  fun w =>
    match body w with
    | (w', Ret a) => (w', Ret a)
    | (w', Raise e) => handler e w'
    end.

(** [try: body finally: fin]: [fin] runs on every exit of [body], and an
    exception of [fin] replaces whatever [body] returned or raised. *)
Definition try_finally {A : Type} (body : M W A) (fin : M W unit) : M W A :=
  fun w =>
    match body w with
    | (w', r) =>
        match fin w' with
        | (w'', Ret _) => (w'', r)
        | (w'', Raise e) => (w'', Raise e)
        end
    end.
End Monad.

Declare Scope eff_scope.
Delimit Scope eff_scope with eff.
Notation "x ← y ; z" := (bindM y (fun x => z))
  (at level 20, y at level 100, z at level 200, only parsing) : eff_scope.
Notation "x ;; z" := (bindM x (fun _ => z))
  (at level 100, z at level 200, only parsing, right associativity) : eff_scope.

End Eff.
Export Eff.

(* ===================================================================== *)
(** ** The disassembly cache orchestrator ([jvd/disassembler.py]) *)
(* ===================================================================== *)

Module Disassembler.

(** What the orchestrator does to the outside, in order. *)
Inductive event : Type :=
| EvProcess (new_file file_type output_file_path : string) (decompile : bool)
| EvCapa (file : string)
| EvGzWrite (path : string) (res : json)
| EvPrint (log : list string)
| EvInfoProcessing (path file_ext : string)
| EvInfoCount (files : nat)
| EvProgress (ind : nat).

Record world := World { w_fs : gmap string node; w_trace : list event }.

Definition emit (ev : event) : M world unit :=
  fun w => (World (w_fs w) (w_trace w ++ [ev]), Ret ()).

(** The backend invocations a world has seen. *)
Definition is_backend_call (ev : event) : bool :=
  match ev with
  | EvProcess _ _ _ _ => true
  | _ => false
  end.

Definition backend_calls (w : world) : list event :=
  List.filter is_backend_call (w_trace w).

(** The cache writes a world has seen. *)
Definition is_cache_write (ev : event) : bool :=
  match ev with
  | EvGzWrite _ _ => true
  | _ => false
  end.

Definition cache_writes (w : world) : list event :=
  List.filter is_cache_write (w_trace w).

(** What the batch loop shows of a run: progress and printed logs. *)
Definition is_report (ev : event) : bool :=
  match ev with
  | EvPrint _ | EvProgress _ => true
  | _ => false
  end.

Definition reports (w : world) : list event :=
  List.filter is_report (w_trace w).

(** The progress steps a world has seen. *)
Definition is_progress (ev : event) : bool :=
  match ev with
  | EvProgress _ => true
  | _ => false
  end.

Definition progress (w : world) : list event :=
  List.filter is_progress (w_trace w).

(** The events of the second block of [disassemble]. *)
Definition is_augment_event (ev : event) : bool :=
  match ev with
  | EvCapa _ | EvGzWrite _ _ | EvPrint _ => true
  | _ => false
  end.

(** A computation preserves [I] when [I] holds of the world it leaves
    whenever it holds of the world it finds, however it ends. *)
Definition preserves {A : Type} (I : world → Prop) (m : M world A) : Prop :=
  ∀ w, I w → I (fst (m w)).

(** A file-system operation: on success the new file system replaces the
    old one, on failure nothing changes. *)
Definition fs_op (op : gmap string node → outcome (gmap string node))
  : M world unit :=
  fun w =>
    match op (w_fs w) with
    | Ret fs' => (World fs' (w_trace w), Ret ())
    | Raise e => (w, Raise e)
    end.

Definition os_path_exists (p : string) : M world bool :=
  fun w => (w, Ret (path_exists (w_fs w) p)).
Definition os_mkdir (p : string) : M world unit := fs_op (fun fs => mkdir fs p).
Definition copyfile (src dst : string) : M world unit :=
  fs_op (fun fs => copy fs src dst).
Definition rmtree (p : string) : M world unit := fs_op (fun fs => rmtree_fs fs p).
Definition os_remove (p : string) : M world unit := fs_op (fun fs => remove_fs fs p).
Definition print (log : list string) : M world unit := emit (EvPrint log).

(** Modelled from the spec: [jvd.utils.read_gz_js] (ResultStore.read),
    which decompresses and parses the cache file and fails when the
    content is not valid compressed structured data. *)
Definition read_gz_js (p : string) : M world json :=
  fun w =>
    match w_fs w !! p with
    | Some (File (GzJson j)) => (w, Ret j)
    | Some (File (Bytes _)) => (w, Raise (Exn "BadGzipFile" "Not a gzipped file"))
    | Some Dir => (w, Raise (IsADirectoryError p))
    | None => (w, Raise (FileNotFoundError p))
    end.

(** [json.dumps(res).encode('utf-8')] written through
    [gzip.GzipFile(js_file, 'w')]. *)
Definition gz_write (p : string) (res : json) : M world unit :=
  (emit (EvGzWrite p res);;
   fs_op (fun fs =>
     match fs !! p with
     | Some Dir => Raise (IsADirectoryError p)
     | _ => Ret (<[p := File (GzJson res)]> fs)
     end))%eff.

(** What [disassemble] hands back first: [None], the cache path, or the
    parsed record. *)
Inductive result : Type :=
| RNone
| RPath (p : string)
| RRecord (res : json).

(** After the workspace block the function either goes on with its log or
    has already returned. *)
Inductive flow : Type :=
| Continue (log : list string)
| Return (r : result * list string).

(** Truth value of the [file_type] argument ([None] and [''] are false). *)
Definition given (file_type : option string) : option string :=
  match file_type with
  | Some t => if String.eqb t "" then None else Some t
  | None => None
  end.

(** Lines 70-72: the test looks at the top level of the record, the
    assignment goes to [res['bin']]. *)
Definition ensure_f_type (file_type : string) (res : json)
  : outcome (json * bool) :=
  present ← py_in "f_type" res;
  if present : bool then Ret (res, false)
  else
    bin ← py_getitem res "bin";
    bin' ← py_setitem bin "f_type" (JStr file_type);
    res' ← py_setitem res "bin" bin';
    Ret (res', true).

(** Lines 73-75 *)
Definition ensure_cfg (cfg : bool) (st : json * bool) : outcome (json * bool) :=
  if cfg then
    present ← py_in "cfg" (fst st);
    if present : bool then Ret st
    else res' ← _cfg (fst st); Ret (res', true)
  else Ret st.

Section Orchestrator.

(** The collaborators the orchestrator consumes. [_process] is the
    abstract backend: it may change the file system in any way, and it
    returns its log entries or raises. *)
Variable get_file_type : string → gmap string node → outcome string.
Variable _process :
  string → string → string → bool → gmap string node →
  gmap string node * outcome (list string).
Variable capa_analyze :
  json → string → Z → gmap string node → outcome json.
Variable grep_ext : string → string → gmap string node → outcome (list string).

(** The worker pool of [jvd.utils], taken as it is used: it is handed
    the per-file function and the files, and yields pairs of an index
    and that file's result. *)
Variable m_map :
  (string → M world (result * list string)) → list string →
  M world (list (nat * (result * list string))).

Local Open Scope eff_scope.

(** Line 40: the caller's file type when it is given, else the sniffed
    one. *)
Definition resolve_file_type (file_type : option string) (file : string)
    (fs : gmap string node) : outcome string :=
  match given file_type with
  | Some t => Ret t
  | None => get_file_type file fs
  end.

Definition run_process (new_file file_type out : string) (decompile : bool)
  : M world (list string) :=
  emit (EvProcess new_file file_type out decompile);;
  (fun w =>
     match _process new_file file_type out decompile (w_fs w) with
     | (fs', r) => (World fs' (w_trace w), r)
     end).

Definition run_capa (res : json) (file : string) (verbose : Z) : M world json :=
  emit (EvCapa file);;
  (fun w => (w, capa_analyze res file verbose (w_fs w))).

(** [cleanup(self, file)] *)
Definition cleanup (file : string) : M world unit :=
  let js_file := file +:+ ".asm.json.gz" in
  b ← os_path_exists js_file;
  if b : bool then os_remove js_file else retM ().

(** Lines 76-78 *)
Definition ensure_capa (capa : bool) (file : string) (verbose : Z)
    (st : json * bool) : M world (json * bool) :=
  if capa then
    present ← lift (py_in "capa" (fst st));
    if present : bool then retM st
    else
      tags ← run_capa (fst st) file verbose;
      res' ← lift (py_setitem (fst st) "capa" tags);
      retM (res', true)
  else retM st.

(** Lines 44-65: the workspace. *)
Definition workspace (file js_file file_type additional_ext : string)
    (decompile : bool) (verbose : Z) (log : list string) : M world flow :=
  let tmp_folder := file +:+ additional_ext +:+ ".tmp" in
  try_finally
    (try_except
       (os_mkdir tmp_folder;;
        let new_file := join tmp_folder (basename file) in
        let new_file_js := join tmp_folder (basename js_file) in
        copyfile file new_file;;
        out_log ← run_process new_file file_type new_file_js decompile;
        copyfile new_file_js js_file;;
        (* [log] is a list, so the branch taken is [log.extend(log)];
           [out_log] is not used *)
        retM (Continue (log ++ log)))
       (fun e =>
          let log := log ++ [str_exn e] in
          if 1 <? verbose then raise e
          else retM (Return (RNone, log))))
    (rmtree tmp_folder).

(** Lines 67-100: read the cache, augment, persist, return. *)
Definition read_and_augment (file js_file file_type : string)
    (cleanup_flag cfg no_result capa : bool) (verbose : Z)
    (log : list string) : M world (result * list string) :=
  try_finally
    (try_except
       (res ← read_gz_js js_file;
        st ← lift (ensure_f_type file_type res);
        st ← lift (ensure_cfg cfg st);
        st ← ensure_capa capa file verbose st;
        (if snd st then gz_write js_file (fst st) else retM ());;
        if no_result then
          retM (if truthy (fst st) then RPath js_file else RNone, log)
        else retM (RRecord (fst st), log))
       (fun e =>
          let log := log ++ ["Failed " +:+ file +:+ " msg: " +:+ str_exn e] in
          if 1 <? verbose then print log;; raise e
          else retM (RNone, log)))
    (try_except
       (if cleanup_flag then cleanup file else retM ())
       (fun _ => retM ())).

Definition disassemble (file : string)
    (decompile cleanup_flag cfg no_result : bool)
    (file_type : option string) (capa : bool) (verbose : Z)
    (additional_ext : string) : M world (result * list string) :=
  let js_file := file +:+ additional_ext +:+ ".asm.json.gz" in
  let log : list string := [] in
  file_type ← (fun w => (w, resolve_file_type file_type file (w_fs w)));
  cached ← os_path_exists js_file;
  fl ← (if cached : bool then
          retM (Continue (log ++ ["directly reading the generated json file"]))
        else workspace file js_file file_type additional_ext decompile verbose log);
  match fl with
  | Return r => retM r
  | Continue log =>
      read_and_augment file js_file file_type
        cleanup_flag cfg no_result capa verbose log
  end.

(** The body of the loop over [tqdm(gen(), total=len(files))]: the
    progress bar advances, and the log of an item without a result is
    printed. *)
Definition consume (item : nat * (result * list string)) : M world unit :=
  emit (EvProgress (fst item));;
  match fst (snd item) with
  | RNone => print (snd (snd item))
  | _ => retM ()
  end.

Fixpoint consume_all (items : list (nat * (result * list string)))
  : M world unit :=
  match items with
  | [] => retM ()
  | item :: rest => consume item;; consume_all rest
  end.

Section Batch.
Variables (decompile cleanup_flag cfg capa : bool) (verbose : Z).

(** The call the drivers make for one file: [no_result=True], no
    explicit file type, no suffix. *)
Definition disassemble_one (f : string) : M world (result * list string) :=
  disassemble f decompile cleanup_flag cfg true None capa verbose "".

(** [gen()] with [multiprocessing] false, interleaved with its
    consumer. *)
Fixpoint drive_sequential (ifs : list (nat * string)) : M world unit :=
  match ifs with
  | [] => retM ()
  | (ind, f) :: rest =>
      extracted ← disassemble_one f;
      consume (ind, extracted);;
      drive_sequential rest
  end.

(** [gen()] with [multiprocessing] true: everything [m_map] yields
    is consumed, then [e.map()] is called without a function. *)
Definition drive_multiprocessing (files : list string) : M world unit :=
  items ← m_map disassemble_one files;
  consume_all items;;
  raise (TypeError "map() missing 1 required positional argument: 'fn'").

Definition disassemble_all (path_or_files : string + list string)
    (multiprocessing : bool) (file_ext : string) : M world unit :=
  files ← match path_or_files with
          | inl path =>
              emit (EvInfoProcessing path file_ext);;
              (fun w => (w, grep_ext path file_ext (w_fs w)))
          | inr files => retM files
          end;
  emit (EvInfoCount (length files));;
  if multiprocessing then drive_multiprocessing files
  else drive_sequential (enumerate files).
End Batch.

End Orchestrator.

(** Modelled from the spec: [jvd.utils.m_map] is not part of the sources;
    the specification describes a pool that drives the per-file function
    over every file and yields each result tagged with its index. This
    pool runs the files in input order. *)
Fixpoint m_map_from (i : nat) (f : string → M world (result * list string))
    (files : list string) : M world (list (nat * (result * list string))) :=
  match files with
  | [] => retM []
  | x :: rest =>
      (r ← f x;
       rs ← m_map_from (S i) f rest;
       retM ((i, r) :: rs))%eff
  end.

Definition m_map_in_order := m_map_from 0.

(** A backend whose log entries are thrown away. *)
Definition mute
    (p : string → string → string → bool → gmap string node →
         gmap string node * outcome (list string))
    (new_file file_type out : string) (decompile : bool)
    (fs : gmap string node) : gmap string node * outcome (list string) :=
  match p new_file file_type out decompile fs with
  | (fs', Ret _) => (fs', Ret [])
  | (fs', Raise e) => (fs', Raise e)
  end.

End Disassembler.
Export Disassembler.

(* ===================================================================== *)
(** ** The resource acquisition cache ([jvd/resources.py]) *)
(* ===================================================================== *)

Module Resources.

(** The cache directory: an entry matters through its kind and its
    modification time (an instant, in microseconds since the epoch). *)
Inductive rnode : Type :=
| RFile (mtime : Z)
| RDir (mtime : Z).

Inductive revent : Type :=
| RvMakedirs (folder : string)
| RvInfoNewer (url_date file_time : Z)
| RvWarn (msg : string)
| RvRemove (file : string)
| RvRmtree (folder : string)
| RvDownload (url : option string) (file : string) (show_progress : bool)
| RvUnpack (with_permission : bool) (file file_unpack : string).

Record rworld := RWorld { r_fs : gmap string rnode; r_trace : list revent }.

(** The attributes [__init__] sets, with the class name. *)
Record descriptor := {
  cls_name : string;
  linux : option string;
  windows : option string;
  darwin : option string;
  default : option string;
  unpack : bool;
  check_update : bool;
  with_permission : bool
}.

(** Truth value of a URL attribute ([None] and [''] are false). *)
Definition url_truthy (u : option string) : bool :=
  match u with
  | Some s => negb (String.eqb s "")
  | None => false
  end.

Definition remit (ev : revent) : M rworld unit :=
  fun w => (RWorld (r_fs w) (r_trace w ++ [ev]), Ret ()).

Definition rfs_op (op : gmap string rnode → outcome (gmap string rnode))
  : M rworld unit :=
  fun w =>
    match op (r_fs w) with
    | Ret fs' => (RWorld fs' (r_trace w), Ret ())
    | Raise e => (w, Raise e)
    end.

Definition exists_ (p : string) : M rworld bool :=
  fun w => (w, Ret (path_exists (r_fs w) p)).

(** [os.makedirs], at instant [now] *)
Definition makedirs (now : Z) (p : string) : M rworld unit :=
  (remit (RvMakedirs p);;
   rfs_op (fun fs =>
     match fs !! p with
     | Some _ => Raise (FileExistsError p)
     | None => Ret (<[p := RDir now]> fs)
     end))%eff.

(** [os.remove] *)
Definition remove (p : string) : M rworld unit :=
  (remit (RvRemove p);;
   rfs_op (fun fs =>
     match fs !! p with
     | None => Raise (FileNotFoundError p)
     | Some (RDir _) => Raise (IsADirectoryError p)
     | Some (RFile _) => Ret (delete p fs)
     end))%eff.

(** [shutil.rmtree] *)
Definition rrmtree (p : string) : M rworld unit :=
  (remit (RvRmtree p);;
   rfs_op (fun fs =>
     match fs !! p with
     | None => Raise (FileNotFoundError p)
     | Some (RFile _) => Raise (NotADirectoryError p)
     | Some (RDir _) => Ret (remove_tree fs p)
     end))%eff.

(** [os.path.getmtime] *)
Definition getmtime (p : string) : M rworld Z :=
  fun w =>
    match r_fs w !! p with
    | Some (RFile t) => (w, Ret t)
    | Some (RDir t) => (w, Ret t)
    | None => (w, Raise (FileNotFoundError p))
    end.

(** The warning of line 82. *)
Definition update_warning (e : exn) : revent :=
  RvWarn ("Library " +:+ str_exn e +:+
          " would like to check for updates but failed").

(** Everything a computation adds to the trace satisfies [P]. *)
Definition emits {A : Type} (P : revent → Prop) (m : M rworld A) : Prop :=
  ∀ w, ∃ evs, r_trace (fst (m w)) = r_trace w ++ evs ∧ ∀ ev, ev ∈ evs → P ev.

Section Cache.

(** [online], computed once when the module is imported; the instant
    of the call; the class attribute [home]; [platform.system()];
    [str.lower]. *)
Variable online : bool.
Variable now : Z.
Variable home : string.
Variable platform_system : string.
Variable lower : string → string.

(** [jvd.utils.fn_from_url]. *)
Variable fn_from_url : option string → outcome string.
(** Lines 65-70: the metadata fetch and the parse of [Last-Modified]
    into an instant; any step of it may raise. *)
Variable last_modified : option string → outcome Z.
(** The transfer and the two extractors, as changes to the cache
    directory that may fail. *)
Variable download_file :
  option string → string → bool → gmap string rnode → outcome (gmap string rnode).
Variable unpack_archive :
  string → string → gmap string rnode → outcome (gmap string rnode).
Variable unzip_with_permission :
  string → string → gmap string rnode → outcome (gmap string rnode).

Local Open Scope eff_scope.

(** Lines 63-84: with the file present, decide whether the server has a
    newer version. *)
Definition check_for_update (d : descriptor) (url : option string)
    (file : string) (download : bool) : M rworld bool :=
  if negb download && check_update d && online then
    try_except
      (url_date ← lift (last_modified url);
       file_time ← getmtime file;
       if file_time <? url_date then
         remit (RvInfoNewer url_date file_time);;
         retM true
       else retM false)
      (fun e =>
         remit (update_warning e);;
         retM download)
  else retM download.

(** The world lines 53-54 leave behind: the folder is made, at instant
    [now], when nothing sits on its path. *)
Definition with_folder (folder : string) (w : rworld) : rworld :=
  if path_exists (r_fs w) folder then w
  else RWorld (<[folder := RDir now]> (r_fs w)) (r_trace w ++ [RvMakedirs folder]).

(** Lines 55-56: the file name, from the URL unless one is given. *)
Definition file_name (url file_arg : option string) : outcome string :=
  match file_arg with
  | Some f => if String.eqb f "" then fn_from_url url else Ret f
  | None => fn_from_url url
  end.

(** Lines 87-91: delete what is there, then transfer. *)
Definition fetch (url : option string) (file file_unpack : string)
    (show_progress : bool) : M rworld unit :=
  file_exists ← exists_ file;
  (if file_exists : bool then remove file else retM ());;
  unpack_exists ← exists_ file_unpack;
  (if unpack_exists : bool then rrmtree file_unpack else retM ());;
  remit (RvDownload url file show_progress);;
  rfs_op (download_file url file show_progress).

(** Lines 93-101: unpack when asked and not yet done, and pick the path to
    return. *)
Definition unpack_or_file (d : descriptor) (file file_unpack : string)
    (unpack_if_needed : bool) : M rworld string :=
  if unpack d && unpack_if_needed then
    unpack_exists ← exists_ file_unpack;
    (if unpack_exists : bool then retM ()
     else
       remit (RvUnpack (with_permission d) file file_unpack);;
       if with_permission d then rfs_op (unzip_with_permission file file_unpack)
       else rfs_op (unpack_archive file file_unpack));;
    retM file_unpack
  else retM file.

Definition _download (d : descriptor) (url : option string)
    (show_progress unpack_if_needed : bool)
    (home_arg file_arg : option string) : M rworld string :=
  let home := match home_arg with None => home | Some h => h end in
  let folder := join home (lower (cls_name d)) in
  folder_exists ← exists_ folder;
  (if folder_exists : bool then retM () else makedirs now folder);;
  file ← lift (file_name url file_arg);
  let file := join folder file in
  let file_unpack := file +:+ "_unpacked" in
  file_exists ← exists_ file;
  download ← check_for_update d url file (negb file_exists);
  (if download : bool then fetch url file file_unpack show_progress
   else retM ());;
  unpack_or_file d file file_unpack unpack_if_needed.

(** [getattr(self, platform.system().lower())] *)
Definition getattr_url (d : descriptor) (name : string)
  : outcome (option string) :=
  if String.eqb name "linux" then Ret (linux d)
  else if String.eqb name "windows" then Ret (windows d)
  else if String.eqb name "darwin" then Ret (darwin d)
  else if String.eqb name "default" then Ret (default d)
  else Raise (Exn "AttributeError"
                  ("object has no attribute '" +:+ name +:+ "'")).

Definition get (d : descriptor) : M rworld string :=
  url ← lift (getattr_url d (lower platform_system));
  let url := if url_truthy url then url else default d in
  _download d url true true None None.

(** The URL [cache] settles on (lines 104-110). *)
Definition cache_url (d : descriptor) : option string :=
  let url := default d in
  let url := if url_truthy (linux d) then linux d else url in
  let url := if url_truthy (darwin d) then darwin d else url in
  let url := if url_truthy (windows d) then windows d else url in
  url.

Definition cache (d : descriptor) (root : option string) : M rworld unit :=
  _download d (cache_url d) true false root None;;
  retM ().


(** [require]: [Some path] is the value of [res.get()], [None] is the
    [None] a Python function returns when it runs off its end. *)
Fixpoint require (subclasses : list descriptor) (library : string)
  : M rworld (option string) :=
  match subclasses with
  | [] => retM None
  | res :: rest =>
      if String.eqb (lower (cls_name res)) (lower library) then
        path ← get res;
        retM (Some path)
      else require rest library
  end.

End Cache.

(** What [_download] may add to the trace. *)
Definition download_event (fn_from_url : option string → outcome string)
    (d : descriptor) (url : option string)
    (show_progress unpack_if_needed : bool) (folder : string)
    (file_arg : option string) (ev : revent) : Prop :=
  match ev with
  | RvMakedirs p => p = folder
  | RvInfoNewer _ _ | RvWarn _ => True
  | RvRemove f =>
      ∃ name, file_name fn_from_url url file_arg = Ret name ∧ f = join folder name
  | RvRmtree f =>
      ∃ name, file_name fn_from_url url file_arg = Ret name ∧
              f = join folder name +:+ "_unpacked"
  | RvDownload u f sp =>
      u = url ∧ sp = show_progress ∧
      ∃ name, file_name fn_from_url url file_arg = Ret name ∧ f = join folder name
  | RvUnpack _ _ _ => unpack d && unpack_if_needed = true
  end.

(** Modelled from the spec: the selection as "later non-null values
    override earlier ones", in the order default, linux, darwin, windows. *)
Definition nonnull_precedence (d : descriptor) : option string :=
  fold_left (fun url u => match u with Some _ => u | None => url end)
            [linux d; darwin d; windows d] (default d).

(** The same with Python's truth value in place of "non-null". *)
Definition truthy_precedence (d : descriptor) : option string :=
  fold_left (fun url u => if url_truthy u then u else url)
            [linux d; darwin d; windows d] (default d).

(** [str.lower] on ASCII letters. *)
Definition lower_ascii (c : ascii) : ascii :=
  let n := nat_of_ascii c in
  if (65 <=? n)%nat && (n <=? 90)%nat then ascii_of_nat (n + 32) else c.

Fixpoint ascii_lower (s : string) : string :=
  match s with
  | EmptyString => EmptyString
  | String c rest => String (lower_ascii c) (ascii_lower rest)
  end.

End Resources.
Export Resources.

(* ===================================================================== *)
(** ** Concrete records, collaborators and worlds *)
(* ===================================================================== *)

Module Examples.

(** The record of the specification's CFG example. *)
Definition example_blocks : list Block :=
  [ {| addr_start := 10; calls := [20] |};
    {| addr_start := 20; calls := [999] |} ].

Definition example_record : json :=
  JObj [("bin", JObj []); ("blocks", JArr (map block_json example_blocks))].

(** Two blocks that start at the same address. *)
Definition twin_blocks : list Block :=
  [ {| addr_start := 10; calls := [10] |};
    {| addr_start := 10; calls := [] |} ].

Definition twin_record : json :=
  JObj [("blocks", JArr (map block_json twin_blocks))].

(** A file-type sniffer that answers for every regular file. *)
Definition sniff (file : string) (fs : gmap string node) : outcome string :=
  match fs !! file with
  | Some (File _) => Ret "elf"
  | _ => Raise (FileNotFoundError file)
  end.

(** A backend that writes [example_record] to its output path and reports
    one log entry. *)
Definition backend_ok (new_file file_type out : string) (decompile : bool)
    (fs : gmap string node) : gmap string node * outcome (list string) :=
  (<[out := File (GzJson example_record)]> fs, Ret ["backend: 2 blocks"]).

(** A backend that crashes on [bad.bin] and works on everything else. *)
Definition backend_picky (new_file file_type out : string) (decompile : bool)
    (fs : gmap string node) : gmap string node * outcome (list string) :=
  if String.eqb (basename new_file) "bad.bin"
  then (fs, Raise (Exn "RuntimeError" "backend crashed"))
  else backend_ok new_file file_type out decompile fs.

Definition no_capa (res : json) (file : string) (verbose : Z)
    (fs : gmap string node) : outcome json :=
  Ret (JObj []).

(** A directory listing that finds nothing. *)
Definition no_grep (path file_ext : string) (fs : gmap string node)
  : outcome (list string) :=
  Ret [].

(** A record as a complete earlier call leaves it in the cache: the file
    type sits on the binary metadata. *)
Definition cached_record : json :=
  JObj [("bin", JObj [("f_type", JStr "elf")]); ("blocks", JArr [])].

(** What the cache holds after a first call with [backend_ok]. *)
Definition processed_record : json :=
  JObj [("bin", JObj [("f_type", JStr "elf")]);
        ("blocks", JArr (map block_json example_blocks))].

(** A backend that always crashes. *)
Definition backend_crash (new_file file_type out : string) (decompile : bool)
    (fs : gmap string node) : gmap string node * outcome (list string) :=
  (fs, Raise (Exn "RuntimeError" "backend crashed")).

(** A record with the file type at its top level and a stored CFG. *)
Definition settled_record : json :=
  JObj [("f_type", JStr "elf"); ("bin", JObj []);
        ("blocks", JArr (map block_json example_blocks));
        ("cfg", JArr [JArr [JNum 0; JNum 1]])].

(** The same record before its CFG was derived. *)
Definition unsettled_record : json :=
  JObj [("f_type", JStr "elf"); ("bin", JObj []);
        ("blocks", JArr (map block_json example_blocks))].

(** A record without binary metadata. *)
Definition bare_record : json := JObj [("blocks", JArr [])].

Definition world_with (cached : json) : world :=
  World (<["a.bin" := File (Bytes "MZ")]>
         (<["a.bin.asm.json.gz" := File (GzJson cached)]> ∅)) [].

(** An input file next to a workspace directory left behind, with a file
    in it. *)
Definition world_stale : world :=
  World (<["a.bin" := File (Bytes "MZ")]>
         (<["a.bin.tmp" := Dir]>
          (<["a.bin.tmp/a.bin" := File (Bytes "MZ")]> ∅))) [].

(** An input file next to its cache file. *)
Definition world_cached : world :=
  World (<["a.bin" := File (Bytes "MZ")]>
         (<["a.bin.asm.json.gz" := File (GzJson cached_record)]> ∅)) [].

(** An input file without a cache file. *)
Definition world_fresh : world :=
  World (<["a.bin" := File (Bytes "MZ")]> ∅) [].

(** An input file whose workspace path is taken by a regular file. *)
Definition world_blocked : world :=
  World (<["a.bin" := File (Bytes "MZ")]>
         (<["a.bin.tmp" := File (Bytes "")]> ∅)) [].

(** Two input files for a batch. *)
Definition world_batch : world :=
  World (<["bad.bin" := File (Bytes "MZ")]>
         (<["good.bin" := File (Bytes "MZ")]> ∅)) [].

(** Collaborators of the resource cache. *)
Definition url_basename (url : option string) : outcome string :=
  match url with
  | Some u => Ret (basename u)
  | None => Raise (TypeError "expected string or bytes-like object")
  end.

Definition server_at (t : Z) (url : option string) : outcome Z := Ret t.

Definition transfer (url : option string) (file : string) (show_progress : bool)
    (fs : gmap string rnode) : outcome (gmap string rnode) :=
  Ret (<[file := RFile 5000]> fs).

Definition extract (file file_unpack : string) (fs : gmap string rnode)
  : outcome (gmap string rnode) :=
  Ret (<[file_unpack := RDir 5000]> fs).

(** A resource kind with a default URL only. *)
Definition Ghidra : descriptor :=
  {| cls_name := "Ghidra";
     linux := None; windows := None; darwin := None;
     default := Some "https://example.org/dist/ghidra.zip";
     unpack := false; check_update := true; with_permission := false |}.

(** A resource kind whose [linux] attribute is the empty string. *)
Definition CapaRules : descriptor :=
  {| cls_name := "CapaRules";
     linux := Some ""; windows := None; darwin := None;
     default := Some "https://example.org/dist/rules.zip";
     unpack := false; check_update := false; with_permission := false |}.

(** A cache root that holds the Ghidra archive, downloaded at instant 1000. *)
Definition world_downloaded : rworld :=
  RWorld (<["/deps/ghidra" := RDir 1000]>
          (<["/deps/ghidra/ghidra.zip" := RFile 1000]> ∅)) [].

(** The same cache root with a regular file on the path of the unpacked
    archive. *)
Definition world_unpack_blocked : rworld :=
  RWorld (<["/deps/ghidra" := RDir 1000]>
          (<["/deps/ghidra/ghidra.zip" := RFile 1000]>
           (<["/deps/ghidra/ghidra.zip_unpacked" := RFile 1000]> ∅))) [].

(** A cache root without the archive, where a regular file sits on the
    path of the unpacked archive. *)
Definition world_prefetch_blocked : rworld :=
  RWorld (<["/deps/ghidra" := RDir 1000]>
          (<["/deps/ghidra/ghidra.zip_unpacked" := RFile 1000]> ∅)) [].

(** The same cache root with the archive unpacked earlier. *)
Definition world_unpacked : rworld :=
  RWorld (<["/deps/ghidra" := RDir 1000]>
          (<["/deps/ghidra/ghidra.zip_unpacked" := RDir 1000]>
           (<["/deps/ghidra/ghidra.zip_unpacked/README" := RFile 1000]> ∅))) [].

End Examples.
Export Examples.

(* ===================================================================== *)
(** ** Properties of the CFG derivation *)
(* ===================================================================== *)

Section CfgFacts.

Lemma dict_get_set_eq k v kv : dict_get k (dict_set k v kv) = Some v.
Proof.
  induction kv as [|[k' v'] kv IH]; simpl.
  - by rewrite String.eqb_refl.
  - destruct (String.eqb k' k) eqn:E; simpl.
    + by rewrite String.eqb_refl.
    + by rewrite E.
Qed.

Lemma dict_get_set_ne k k' v kv :
  k ≠ k' → dict_get k' (dict_set k v kv) = dict_get k' kv.
Proof.
  intros Hne. induction kv as [|[k0 v0] kv IH]; simpl.
  - destruct (String.eqb_spec k k'); [done|done].
  - destruct (String.eqb_spec k0 k) as [->|Hk0]; simpl.
    + destruct (String.eqb_spec k k'); [done|done].
    + destruct (String.eqb_spec k0 k'); [done|apply IH].
Qed.

Lemma position_None a blocks :
  a ∉ map addr_start blocks → position a blocks = None.
Proof.
  induction blocks as [|b blocks IH]; simpl; [done|].
  intros Hnotin. apply not_elem_of_cons in Hnotin as [Hne Hnotin].
  destruct (Z.eqb_spec (addr_start b) a); [congruence|].
  by rewrite IH.
Qed.

Lemma position_Some_elem a blocks p :
  position a blocks = Some p → a ∈ map addr_start blocks.
Proof.
  revert p. induction blocks as [|b blocks IH]; simpl; intros p; [done|].
  destruct (Z.eqb_spec (addr_start b) a) as [->|Hne].
  - intros _. apply list_elem_of_here.
  - destruct (position a blocks) eqn:E; [|done].
    intros _. apply list_elem_of_further. by eapply IH.
Qed.

Lemma position_elem a blocks :
  a ∈ map addr_start blocks → is_Some (position a blocks).
Proof.
  induction blocks as [|b blocks IH]; simpl.
  - intros H. by apply elem_of_nil in H.
  - intros H. destruct (Z.eqb_spec (addr_start b) a); [by eexists|].
    apply elem_of_cons in H as [Heq|Hin]; [congruence|].
    destruct (IH Hin) as [p ->]. by eexists.
Qed.

(** With pairwise distinct addresses the position of a block's address is
    the block's own index. *)
Lemma position_of_block blocks i b :
  NoDup (map addr_start blocks) →
  blocks !! i = Some b → position (addr_start b) blocks = Some i.
Proof.
  revert i. induction blocks as [|b0 blocks IH]; intros i Hnd Hi; [done|].
  apply NoDup_cons in Hnd as [Hfresh Hnd]. simpl.
  destruct i as [|i]; simpl in Hi.
  - injection Hi as ->. by rewrite Z.eqb_refl.
  - destruct (Z.eqb_spec (addr_start b0) (addr_start b)) as [Heq|Hne].
    + exfalso. apply Hfresh. rewrite Heq.
      apply list_elem_of_fmap_2. by eapply list_elem_of_lookup_2.
    + by rewrite (IH i Hnd Hi).
Qed.

(** With pairwise distinct addresses the dict built by the comprehension
    sends an address to the position of its block. *)
Lemma build_blk2ind_lookup js blocks :
  Forall2 is_block js blocks →
  NoDup (map addr_start blocks) →
  ∀ (m : gmap pykey nat) (i : nat),
  ∃ m', build_blk2ind m (enumerate_from i js) = Ret m' ∧
        ∀ a, m' !! KInt a =
             match position a blocks with
             | Some p => Some (i + p)%nat
             | None => m !! KInt a
             end.
Proof.
  induction 1 as [|j b js blocks [Haddr _] _ IH]; intros Hnd m i; simpl.
  - by exists m.
  - apply NoDup_cons in Hnd as [Hfresh Hnd].
    rewrite Haddr. simpl.
    destruct (IH Hnd (<[KInt (addr_start b) := i]> m) (S i)) as (m' & -> & Hm').
    exists m'. split; [done|]. intros a. rewrite Hm'.
    destruct (Z.eqb_spec (addr_start b) a) as [<-|Hne].
    + rewrite position_None by done.
      rewrite lookup_insert_eq. f_equal. lia.
    + destruct (position a blocks) as [p|]; simpl.
      * f_equal. lia.
      * rewrite lookup_insert_ne; [done|congruence].
Qed.

Lemma edges_of_calls_resolved (blk2ind : gmap pykey nat) j b src cs :
  py_getitem j "addr_start" = Ret (JNum (addr_start b)) →
  blk2ind !! KInt (addr_start b) = Some src →
  edges_of_calls blk2ind j (map JNum cs) =
  Ret (flat_map (fun c => match blk2ind !! KInt c with
                          | Some tgt => [(src, tgt)]
                          | None => []
                          end) cs).
Proof.
  intros Haddr Hsrc. induction cs as [|c cs IH]; simpl; [done|].
  destruct (blk2ind !! KInt c) as [tgt|]; [|done].
  rewrite Haddr. simpl. rewrite Hsrc, IH. done.
Qed.

Lemma edges_of_blocks_resolved (blk2ind : gmap pykey nat) all js blocks :
  (∀ a, blk2ind !! KInt a = position a all) →
  Forall2 is_block js blocks →
  (∀ b, b ∈ blocks → addr_start b ∈ map addr_start all) →
  edges_of_blocks blk2ind js =
  Ret (flat_map (fun b =>
         flat_map (fun c =>
           match position (addr_start b) all, position c all with
           | Some src, Some tgt => [(src, tgt)]
           | _, _ => []
           end) (calls b)) blocks).
Proof.
  intros Hmap. induction 1 as [|j b js blocks [Haddr Hcalls] _ IH];
    intros Hin; simpl; [done|].
  rewrite Hcalls. simpl.
  destruct (position_elem (addr_start b) all) as [src Hsrc].
  { apply Hin, list_elem_of_here. }
  rewrite (edges_of_calls_resolved blk2ind j b src); [|done|by rewrite Hmap].
  simpl. rewrite IH.
  2:{ intros b' Hb'. by apply Hin, list_elem_of_further. }
  simpl. rewrite Hsrc. do 2 f_equal.
  apply flat_map_ext. intros c. by rewrite Hmap.
Qed.

(** C5. For a record whose blocks have pairwise distinct [addr_start],
    the edge list [_cfg] derives is the list of (source position, target
    position) pairs, in block-then-call order, of exactly the calls whose
    target is the address of a block; it is stored under ['cfg'] and no
    call to an unknown address raises. *)
Theorem cfg_of_unique_blocks (res : json) (js : list json) (blocks : list Block) :
  py_getitem res "blocks" = Ret (JArr js) →
  Forall2 is_block js blocks →
  NoDup (map addr_start blocks) →
  adj_sp res = Ret (cfg_spec blocks) ∧
  ∃ res', _cfg res = Ret res' ∧
          py_getitem res' "cfg" = Ret (JArr (map edge_json (cfg_spec blocks))) ∧
          ∀ k, k ≠ "cfg" → py_getitem res' k = py_getitem res k.
Proof.
  intros Hblocks Hjs Hnd.
  assert (Hadj : adj_sp res = Ret (cfg_spec blocks)).
  { unfold adj_sp. rewrite Hblocks. simpl.
    destruct (build_blk2ind_lookup js blocks Hjs Hnd ∅ 0%nat) as (m' & Hm' & Hlook).
    unfold enumerate. rewrite Hm'. simpl.
    apply edges_of_blocks_resolved; [|done|].
    - intros a. rewrite Hlook, lookup_empty. by destruct (position a blocks).
    - intros b Hb. by apply list_elem_of_fmap_2. }
  split; [done|].
  unfold _cfg. rewrite Hadj. simpl.
  destruct res as [| | | | |kv]; try discriminate Hblocks.
  eexists. split; [done|]. simpl. split.
  - by rewrite dict_get_set_eq.
  - intros k Hk. by rewrite dict_get_set_ne.
Qed.

Lemma cfg_of_unique_blocks_witness :
  adj_sp example_record = Ret [(0%nat, 1%nat)] ∧
  ∃ res', _cfg example_record = Ret res' ∧
          py_getitem res' "cfg" = Ret (JArr [JArr [JNum 0; JNum 1]]) ∧
          ∀ k, k ≠ "cfg" → py_getitem res' k = py_getitem example_record k.
Proof.
  apply (cfg_of_unique_blocks example_record
           (map block_json example_blocks) example_blocks).
  - reflexivity.
  - repeat constructor.
  - apply NoDup_cons_2; [|apply NoDup_singleton].
    intros Hin. apply list_elem_of_singleton in Hin. discriminate Hin.
Defined.

End CfgFacts.

(* ===================================================================== *)
(** ** Facts about paths *)
(* ===================================================================== *)

Section PathFacts.

Lemma length_append (a b : string) :
  String.length (a +:+ b) = (String.length a + String.length b)%nat.
Proof. induction a as [|c a IH]; simpl; [done|]. by rewrite IH. Qed.

Lemma append_assoc (a b c : string) : (a +:+ b) +:+ c = a +:+ (b +:+ c).
Proof.
  induction a as [|x a IH]; [done|].
  change (String x ((a +:+ b) +:+ c) = String x (a +:+ (b +:+ c))).
  by rewrite IH.
Qed.

Lemma append_self_inv (a b : string) : a +:+ b = b → a = "".
Proof.
  intros Heq. apply (f_equal String.length) in Heq.
  rewrite length_append in Heq. destruct a; [done|]. simpl in Heq. lia.
Qed.

Lemma prefix_append (a b c : string) :
  String.prefix (a +:+ b) (a +:+ c) = String.prefix b c.
Proof.
  induction a as [|x a IH]; simpl; [done|].
  destruct (ascii_dec x x); [apply IH|done].
Qed.

(** A suffixed cache path is not the path [cleanup] removes. *)
Lemma suffixed_cache_path_ne (file ext : string) :
  ext ≠ "" → file +:+ ext +:+ ".asm.json.gz" ≠ file +:+ ".asm.json.gz".
Proof.
  intros Hext Heq. apply (inj (String.append file)) in Heq.
  by apply append_self_inv in Heq.
Qed.

(** The cache path is neither the workspace nor inside it. *)
Lemma cache_path_ne_workspace (file ext : string) :
  file +:+ ext +:+ ".asm.json.gz" ≠ file +:+ ext +:+ ".tmp".
Proof.
  intros Heq. apply (inj (String.append file)) in Heq.
  apply (inj (String.append ext)) in Heq. discriminate Heq.
Qed.

Lemma cache_path_not_below_workspace (file ext : string) :
  below (file +:+ ext +:+ ".tmp") (file +:+ ext +:+ ".asm.json.gz") = false.
Proof.
  unfold below. rewrite !append_assoc, !prefix_append. reflexivity.
Qed.

End PathFacts.

(* ===================================================================== *)
(** ** Properties of the orchestrator *)
(* ===================================================================== *)

Section Invariants.

Context {A B : Type} (I : world → Prop).

Lemma preserves_ret (a : A) : preserves I (retM a).
Proof. by intros w. Qed.

Lemma preserves_raise (e : exn) : preserves I (@raise world A e).
Proof. by intros w. Qed.

Lemma preserves_lift (o : outcome A) : preserves I (@lift world A o).
Proof. by intros w. Qed.

Lemma preserves_bind (m : M world A) (f : A → M world B) :
  preserves I m → (∀ a, preserves I (f a)) → preserves I (bindM m f).
Proof.
  intros Hm Hf w Hw. unfold bindM. specialize (Hm w Hw).
  destruct (m w) as [w' [a|e]]; simpl in *; [|done].
  by apply Hf.
Qed.

Lemma preserves_try_except (m : M world A) (h : exn → M world A) :
  preserves I m → (∀ e, preserves I (h e)) → preserves I (try_except m h).
Proof.
  intros Hm Hh w Hw. unfold try_except. specialize (Hm w Hw).
  destruct (m w) as [w' [a|e]]; simpl in *; [done|].
  by apply Hh.
Qed.

Lemma preserves_try_finally (m : M world A) (fin : M world unit) :
  preserves I m → preserves I fin → preserves I (try_finally m fin).
Proof.
  intros Hm Hfin w Hw. unfold try_finally. specialize (Hm w Hw).
  destruct (m w) as [w' r]; simpl in *. specialize (Hfin w' Hm).
  by destruct (fin w') as [w'' [[]|e]].
Qed.



End Invariants.

Section CacheHit.

Variable get_file_type : string → gmap string node → outcome string.
Variable capa_analyze : json → string → Z → gmap string node → outcome json.

(** What reading and augmenting may do to the world: add its own events,
    write the cache file, and remove the file that [cleanup] names. An
    invariant stable under the three is preserved. *)
Lemma preserves_read_and_augment (I : world → Prop) file js_file file_type
    cleanup_flag cfg no_result capa verbose log :
  (∀ w ev, is_augment_event ev = true → I w →
           I (World (w_fs w) (w_trace w ++ [ev]))) →
  (∀ w res, I w →
            I (World (<[js_file := File (GzJson res)]> (w_fs w)) (w_trace w))) →
  (∀ w, I w →
        I (World (delete (file +:+ ".asm.json.gz") (w_fs w)) (w_trace w))) →
  preserves I (read_and_augment capa_analyze file js_file file_type
                 cleanup_flag cfg no_result capa verbose log).
Proof.
  intros Hev Hwrite Hdel.
  assert (Hemit : ∀ ev, is_augment_event ev = true → preserves I (emit ev)).
  { intros ev Hnb w Hw. by apply Hev. }
  assert (Hgz : ∀ res, preserves I (gz_write js_file res)).
  { intros res. apply preserves_bind; [by apply Hemit|]. intros _ w Hw.
    unfold fs_op. destruct (w_fs w !! js_file) as [[c|]|]; simpl; auto. }
  assert (Hcleanup : preserves I (cleanup file)).
  { apply preserves_bind; [by intros w|]. intros [|]; [|by intros w].
    intros w Hw. unfold os_remove, fs_op, remove_fs.
    destruct (w_fs w !! (file +:+ ".asm.json.gz")) as [[c|]|]; simpl; auto. }
  unfold read_and_augment. apply preserves_try_finally.
  - apply preserves_try_except.
    + apply preserves_bind.
      { intros w Hw. unfold read_gz_js.
        by destruct (w_fs w !! js_file) as [[[]|]|]. }
      intros res. apply preserves_bind; [apply preserves_lift|]. intros st.
      apply preserves_bind; [apply preserves_lift|]. intros st'.
      apply preserves_bind.
      { unfold ensure_capa. destruct capa; [|apply preserves_ret].
        apply preserves_bind; [apply preserves_lift|].
        intros [|]; [apply preserves_ret|].
        apply preserves_bind.
        { apply preserves_bind; [by apply Hemit|]. by intros _ w. }
        intros tags. apply preserves_bind; [apply preserves_lift|].
        intros res'. apply preserves_ret. }
      intros st''. apply preserves_bind.
      * destruct (snd st''); [apply Hgz|apply preserves_ret].
      * intros _. destruct no_result; apply preserves_ret.
    + intros e. simpl. destruct (1 <? verbose); [|apply preserves_ret].
      apply preserves_bind; [by apply Hemit|]. intros _. apply preserves_raise.
  - apply preserves_try_except; [|intros _; apply preserves_ret].
    destruct cleanup_flag; [apply Hcleanup|apply preserves_ret].
Qed.

(** On a cache hit the call is the reading-and-augmenting block, entered
    with the one-line log, unless the file type cannot be found out. *)
Lemma disassemble_on_hit
    (_process : string → string → string → bool → gmap string node →
                gmap string node * outcome (list string))
    file decompile cleanup_flag cfg no_result file_type capa verbose ext w :
  path_exists (w_fs w) (file +:+ ext +:+ ".asm.json.gz") = true →
  disassemble get_file_type _process capa_analyze file decompile cleanup_flag
    cfg no_result file_type capa verbose ext w =
  match resolve_file_type get_file_type file_type file (w_fs w) with
  | Ret t =>
      read_and_augment capa_analyze file (file +:+ ext +:+ ".asm.json.gz") t
        cleanup_flag cfg no_result capa verbose
        ["directly reading the generated json file"] w
  | Raise e => (w, Raise e)
  end.
Proof.
  intros Hexists. unfold disassemble, bindM, os_path_exists.
  destruct (resolve_file_type get_file_type file_type file (w_fs w)); [|done].
  by rewrite Hexists.
Qed.

(** C2. When the cache file [file + suffix + ".asm.json.gz"] exists at the
    call, [disassemble] does not invoke the backend: the list of backend
    invocations is what it was, and the whole outcome is the same for any
    other backend. Nothing is asked of the cached content. *)
Theorem cache_hit_skips_backend
    (_process : string → string → string → bool → gmap string node →
                gmap string node * outcome (list string))
    (file : string) (decompile cleanup_flag cfg no_result : bool)
    (file_type : option string) (capa : bool) (verbose : Z)
    (additional_ext : string) (w : world) :
  path_exists (w_fs w) (file +:+ additional_ext +:+ ".asm.json.gz") = true →
  backend_calls
    (fst (disassemble get_file_type _process capa_analyze file decompile
            cleanup_flag cfg no_result file_type capa verbose additional_ext w))
  = backend_calls w ∧
  ∀ other_backend,
    disassemble get_file_type other_backend capa_analyze file decompile
      cleanup_flag cfg no_result file_type capa verbose additional_ext w
    = disassemble get_file_type _process capa_analyze file decompile
        cleanup_flag cfg no_result file_type capa verbose additional_ext w.
Proof.
  intros Hexists. split.
  - rewrite disassemble_on_hit by done.
    destruct (resolve_file_type _ _ _ _) as [t|e]; [|done].
    apply (preserves_read_and_augment (fun w' => backend_calls w' = backend_calls w));
      [| | |done]; try done.
    intros w' ev Hev Hw'. unfold backend_calls in *. simpl.
    rewrite List.filter_app. simpl.
    destruct ev; try discriminate Hev; by rewrite app_nil_r.
  - intros other. by rewrite !disassemble_on_hit.
Qed.

End CacheHit.

Lemma cache_hit_skips_backend_witness :
  backend_calls
    (fst (disassemble sniff backend_ok no_capa "a.bin" false false true false
            None false (-1) "" world_cached))
  = backend_calls world_cached ∧
  ∀ other_backend,
    disassemble sniff other_backend no_capa "a.bin" false false true false
      None false (-1) "" world_cached
    = disassemble sniff backend_ok no_capa "a.bin" false false true false
        None false (-1) "" world_cached.
Proof.
  apply (cache_hit_skips_backend sniff no_capa backend_ok "a.bin" false false
           true false None false (-1) "" world_cached).
  vm_compute. reflexivity.
Defined.

Section Augmentation.

Variable get_file_type : string → gmap string node → outcome string.
Variable _process :
  string → string → string → bool → gmap string node →
  gmap string node * outcome (list string).
Variable capa_analyze : json → string → Z → gmap string node → outcome json.

Lemma dict_set_nonempty k v kv : dict_set k v kv ≠ [].
Proof. destruct kv as [|[k' v'] kv]; simpl; [done|]. by destruct (String.eqb k' k). Qed.

(** The test of line 70 never finds a file type that sits on the binary
    metadata: whatever [res['bin']] already holds, the record is marked as
    changed. *)
Lemma ensure_f_type_ignores_bin (file_type : string) kv bin :
  dict_get "f_type" kv = None →
  dict_get "bin" kv = Some (JObj bin) →
  ensure_f_type file_type (JObj kv) =
  Ret (JObj (dict_set "bin" (JObj (dict_set "f_type" (JStr file_type) bin)) kv),
       true).
Proof.
  intros Htop Hbin. unfold ensure_f_type. simpl.
  rewrite Htop. simpl. rewrite Hbin. reflexivity.
Qed.

Lemma ensure_cfg_present cfg kv changed :
  (cfg = true → is_Some (dict_get "cfg" kv)) →
  ensure_cfg cfg (JObj kv, changed) = Ret (JObj kv, changed).
Proof.
  intros Hcfg. unfold ensure_cfg. destruct cfg; [|done]. simpl.
  by rewrite bool_decide_eq_true_2 by auto.
Qed.

Lemma ensure_capa_present capa file verbose kv changed w :
  (capa = true → is_Some (dict_get "capa" kv)) →
  ensure_capa capa_analyze capa file verbose (JObj kv, changed) w
  = (w, Ret (JObj kv, changed)).
Proof.
  intros Hcapa. unfold ensure_capa. destruct capa; [|done].
  unfold bindM, lift. simpl. by rewrite bool_decide_eq_true_2 by auto.
Qed.

Lemma gz_write_file p res w c :
  w_fs w !! p = Some (File c) →
  gz_write p res w
  = (World (<[p := File (GzJson res)]> (w_fs w)) (w_trace w ++ [EvGzWrite p res]),
     Ret ()).
Proof.
  intros Hp. unfold gz_write, bindM, emit, fs_op. simpl. by rewrite Hp.
Qed.

(** The [finally] clause of the second block changes files at most. *)
Lemma cleanup_finally cleanup_flag file w :
  ∃ fs', try_except (if cleanup_flag : bool then cleanup file else retM ())
                    (fun _ => retM ()) w
         = (World fs' (w_trace w), Ret ()).
Proof.
  destruct w as [fs tr].
  destruct cleanup_flag; [|by exists fs].
  unfold try_except, cleanup, bindM, os_path_exists, os_remove, fs_op, retM.
  cbv beta zeta. cbn [w_fs w_trace].
  match goal with |- context [path_exists ?a ?b] =>
    destruct (path_exists a b) end; [|by exists fs].
  cbn [w_fs w_trace].
  match goal with |- context [remove_fs ?a ?b] =>
    destruct (remove_fs a b) as [fs'|e] end; by eexists.
Qed.

(** C1. A cache file that holds everything the flags ask for is still
    marked as changed and written again. Whenever the cached record has
    its file type (or anything else) under ['bin'] and no top-level
    ['f_type'] key, and has ['cfg'] and ['capa'] where they are asked for,
    the call performs exactly one cache write (and no backend call) and
    returns normally: it is not a pure cache read. *)
Theorem cache_hit_rewrites_complete_record
    (file : string) (decompile cleanup_flag cfg no_result : bool)
    (file_type : option string) (capa : bool) (verbose : Z)
    (additional_ext : string) (w : world)
    (t : string) (kv bin : list (string * json)) :
  let js_file := file +:+ additional_ext +:+ ".asm.json.gz" in
  let res' := JObj (dict_set "bin" (JObj (dict_set "f_type" (JStr t) bin)) kv) in
  let r := disassemble get_file_type _process capa_analyze file decompile
             cleanup_flag cfg no_result file_type capa verbose additional_ext w in
  resolve_file_type get_file_type file_type file (w_fs w) = Ret t →
  w_fs w !! js_file = Some (File (GzJson (JObj kv))) →
  dict_get "f_type" kv = None →
  dict_get "bin" kv = Some (JObj bin) →
  (cfg = true → is_Some (dict_get "cfg" kv)) →
  (capa = true → is_Some (dict_get "capa" kv)) →
  cache_writes (fst r) = cache_writes w ++ [EvGzWrite js_file res'] ∧
  backend_calls (fst r) = backend_calls w ∧
  snd r = Ret (if no_result then RPath js_file else RRecord res',
               ["directly reading the generated json file"]).
Proof.
  intros js_file res' r Ht Hfile Htop Hbin Hcfg Hcapa.
  assert (Hexists : path_exists (w_fs w) js_file = true).
  { unfold path_exists. rewrite Hfile. by apply bool_decide_eq_true_2. }
  unfold r. rewrite disassemble_on_hit by exact Hexists. rewrite Ht.
  fold js_file. unfold read_and_augment, try_finally.
  match goal with |- context [try_except ?b ?h w] =>
    assert (Hbody : try_except b h w =
      (World (<[js_file := File (GzJson res')]> (w_fs w))
             (w_trace w ++ [EvGzWrite js_file res']),
       Ret (if no_result then RPath js_file else RRecord res',
            ["directly reading the generated json file"]))) end.
  { unfold try_except, bindM at 1, read_gz_js. rewrite Hfile.
    unfold bindM at 1, lift. rewrite (ensure_f_type_ignores_bin t kv bin) by done.
    unfold bindM at 1. rewrite ensure_cfg_present.
    2:{ intros Hc. rewrite dict_get_set_ne by done. auto. }
    unfold bindM at 1. rewrite ensure_capa_present.
    2:{ intros Hc. rewrite dict_get_set_ne by done. auto. }
    unfold bindM at 1. cbn [fst snd].
    rewrite (gz_write_file js_file _ w _ Hfile).
    unfold res', truthy. rewrite bool_decide_eq_false_2 by apply dict_set_nonempty.
    by destruct no_result. }
  rewrite Hbody.
  match goal with |- context [try_except ?b ?h ?w1] =>
    destruct (cleanup_finally cleanup_flag file w1) as [fs' ->] end.
  cbn [fst snd w_trace]. unfold cache_writes, backend_calls. cbn [w_trace].
  rewrite !List.filter_app. simpl. by rewrite app_nil_r.
Qed.

End Augmentation.

Lemma cache_hit_rewrites_complete_record_witness :
  let r := disassemble sniff backend_ok no_capa "a.bin" false false false
             false None false (-1) "" world_cached in
  cache_writes (fst r) =
    cache_writes world_cached ++ [EvGzWrite "a.bin.asm.json.gz" cached_record] ∧
  backend_calls (fst r) = backend_calls world_cached ∧
  snd r = Ret (RRecord cached_record,
               ["directly reading the generated json file"]).
Proof.
  apply (cache_hit_rewrites_complete_record sniff backend_ok no_capa "a.bin"
           false false false false None false (-1) "" world_cached "elf"
           [("bin", JObj [("f_type", JStr "elf")]); ("blocks", JArr [])]
           [("f_type", JStr "elf")]).
  - reflexivity.
  - reflexivity.
  - reflexivity.
  - reflexivity.
  - intros Hcfg. discriminate Hcfg.
  - intros Hcapa. discriminate Hcapa.
Defined.

(** The same happens on the call that follows a complete first call. *)
Lemma second_call_rewrites_cache :
  let first := disassemble sniff backend_ok no_capa "a.bin" false false false
                 false None false (-1) "" world_fresh in
  let second := disassemble sniff backend_ok no_capa "a.bin" false false false
                  false None false (-1) "" (fst first) in
  length (cache_writes (fst first)) = 1%nat ∧
  length (cache_writes (fst second)) = 2%nat ∧
  length (backend_calls (fst second)) = 1%nat.
Proof. vm_compute. repeat split; reflexivity. Qed.

(** The rewrite replaces the cached file type by the caller's. *)
Lemma cache_hit_overwrites_f_type :
  let r := disassemble sniff backend_ok no_capa "a.bin" false false false
             false (Some "pe") false (-1) "" world_cached in
  w_fs (fst r) !! "a.bin.asm.json.gz" =
  Some (File (GzJson (JObj [("bin", JObj [("f_type", JStr "pe")]);
                            ("blocks", JArr [])]))).
Proof. vm_compute. reflexivity. Qed.

Section Workspace.

Variable get_file_type : string → gmap string node → outcome string.
Variable _process :
  string → string → string → bool → gmap string node →
  gmap string node * outcome (list string).
Variable capa_analyze : json → string → Z → gmap string node → outcome json.

Lemma copy_destination fs src dst fs' :
  copy fs src dst = Ret fs' → ∃ c, fs' !! dst = Some (File c).
Proof.
  unfold copy. destruct (String.eqb src dst).
  { by destruct (fs !! src). }
  destruct (fs !! src) as [[c|]|]; try done.
  destruct (fs !! dst) as [[c'|]|]; try done;
    intros [= <-]; exists c; apply lookup_insert_eq.
Qed.

(** How the workspace block can end. When it goes on, the log is the old
    log extended with itself and the cache file is in place; when it
    returns, it returns [None]. *)
Lemma workspace_outcome file ext t decompile verbose log w :
  match workspace _process file (file +:+ ext +:+ ".asm.json.gz") t ext
          decompile verbose log w with
  | (w', Ret (Continue log')) =>
      log' = log ++ log ∧
      path_exists (w_fs w') (file +:+ ext +:+ ".asm.json.gz") = true
  | (w', Ret (Return r)) => fst r = RNone
  | (w', Raise e) => True
  end.
Proof.
  unfold workspace, try_finally, try_except.
  set (js := file +:+ ext +:+ ".asm.json.gz").
  set (tmp := file +:+ ext +:+ ".tmp").
  (* the handler never goes on *)
  assert (Hhandler : ∀ e w0,
    match (let log0 := log ++ [str_exn e] in
           if 1 <? verbose then @raise world flow e
           else retM (Return (RNone, log0))) w0 with
    | (w1, Ret (Continue _)) => False
    | (w1, Ret (Return r)) => fst r = RNone
    | (w1, Raise _) => True
    end).
  { intros e w0. cbv zeta. by destruct (1 <? verbose). }
  (* every exit through the handler, followed by [rmtree] *)
  assert (Hexit : ∀ e w0,
    match (let (w1, r) :=
             (let log0 := log ++ [str_exn e] in
              if 1 <? verbose then @raise world flow e
              else retM (Return (RNone, log0))) w0 in
           match rmtree tmp w1 with
           | (w2, Ret _) => (w2, r)
           | (w2, Raise e') => (w2, Raise e')
           end) with
    | (w', Ret (Continue log')) =>
        log' = log ++ log ∧ path_exists (w_fs w') js = true
    | (w', Ret (Return r)) => fst r = RNone
    | (w', Raise _) => True
    end).
  { intros e w0. specialize (Hhandler e w0).
    destruct (_ w0) as [w1 [[l|r]|e1]]; [done| |];
      by destruct (rmtree tmp w1) as [w2 [[]|e2]]. }
  unfold bindM.
  destruct (os_mkdir tmp w) as [w1 [[]|e]]; [|apply Hexit].
  destruct (copyfile file _ w1) as [w2 [[]|e]]; [|apply Hexit].
  destruct (run_process _ _ _ _ _ w2) as [w3 [out_log|e]]; [|apply Hexit].
  destruct (copyfile _ js w3) as [w4 [[]|e]] eqn:Hcopy; [|apply Hexit].
  unfold retM. unfold rmtree, fs_op, rmtree_fs.
  destruct (w_fs w4 !! tmp) as [[c|]|] eqn:Htmp; cbn [fst snd w_fs]; try done.
  split; [done|].
  unfold copyfile, fs_op in Hcopy.
  destruct (copy (w_fs w3) _ js) as [fs4|e] eqn:Hcp; [|done].
  injection Hcopy as <-. apply copy_destination in Hcp as [c Hc].
  cbn [w_fs] in *. unfold path_exists, remove_tree.
  apply bool_decide_eq_true_2. exists (File c).
  apply map_lookup_filter_Some. split.
  - rewrite lookup_delete_ne; [done|]. intros Heq.
    by apply (cache_path_ne_workspace file ext).
  - apply cache_path_not_below_workspace.
Qed.



(** What the second block returns besides [None] carries the log it was
    entered with. *)
Lemma read_and_augment_log file js_file t cleanup_flag cfg no_result capa
    verbose log w res log' :
  snd (read_and_augment capa_analyze file js_file t cleanup_flag cfg no_result
         capa verbose log w) = Ret (res, log') →
  res ≠ RNone → log' = log.
Proof.
  unfold read_and_augment, try_finally. intros Hret Hres.
  match type of Hret with context [try_except ?b ?h w] =>
    assert (Hbody : match try_except b h w with
                    | (_, Ret r) => fst r = RNone ∨ snd r = log
                    | (_, Raise _) => True
                    end) end.
  { unfold try_except, bindM.
    destruct (read_gz_js js_file w) as [w1 [res0|e]].
    2:{ cbv zeta. destruct (1 <? verbose); [|by left].
        unfold print, emit, raise. done. }
    destruct (lift (ensure_f_type t res0) w1) as [w2 [st|e]].
    2:{ cbv zeta. destruct (1 <? verbose); [|by left].
        unfold print, emit, raise. done. }
    destruct (lift (ensure_cfg cfg st) w2) as [w3 [st'|e]].
    2:{ cbv zeta. destruct (1 <? verbose); [|by left].
        unfold print, emit, raise. done. }
    destruct (ensure_capa capa_analyze capa file verbose st' w3) as [w4 [st''|e]].
    2:{ cbv zeta. destruct (1 <? verbose); [|by left].
        unfold print, emit, raise. done. }
    destruct ((if snd st'' then gz_write js_file (fst st'') else retM ()) w4)
      as [w5 [[]|e]].
    2:{ cbv zeta. destruct (1 <? verbose); [|by left].
        unfold print, emit, raise. done. }
    destruct no_result; by right. }
  match type of Hret with context [try_except ?b ?h w] =>
    destruct (try_except b h w) as [w1 [r|e]] end.
  - destruct (cleanup_finally cleanup_flag file w1) as [fs' Hfin].
    rewrite Hfin in Hret. cbn [snd] in Hret. injection Hret as ->.
    by destruct Hbody.
  - destruct (cleanup_finally cleanup_flag file w1) as [fs' Hfin].
    rewrite Hfin in Hret. discriminate Hret.
Qed.

(** C3. With a non-empty suffix the cache file survives [cleanup=True]:
    whenever the cache file was there before the call, or the call hands
    back a result, the file [file + suffix + ".asm.json.gz"] exists after
    the call, because [cleanup] removes [file + ".asm.json.gz"]. *)
Theorem cleanup_leaves_suffixed_cache
    (file : string) (decompile cfg no_result : bool)
    (file_type : option string) (capa : bool) (verbose : Z)
    (additional_ext : string) (w : world) :
  let js_file := file +:+ additional_ext +:+ ".asm.json.gz" in
  let r := disassemble get_file_type _process capa_analyze file decompile true
             cfg no_result file_type capa verbose additional_ext w in
  additional_ext ≠ "" →
  (path_exists (w_fs w) js_file = true ∨
   ∃ res log, snd r = Ret (res, log) ∧ res ≠ RNone) →
  path_exists (w_fs (fst r)) js_file = true.
Proof.
  intros js_file r Hext Hcases.
  assert (Hkeep : ∀ t log,
    preserves (fun w' => path_exists (w_fs w') js_file = true)
      (read_and_augment capa_analyze file js_file t true cfg no_result capa
         verbose log)).
  { intros t log. apply preserves_read_and_augment.
    - by intros w' ev _ Hw'.
    - intros w' res _. unfold path_exists. cbn [w_fs].
      rewrite lookup_insert_eq. by apply bool_decide_eq_true_2.
    - intros w' Hw'. unfold path_exists in *. cbn [w_fs].
      rewrite lookup_delete_ne; [done|].
      intros Heq. by apply (suffixed_cache_path_ne file additional_ext). }
  destruct (path_exists (w_fs w) js_file) eqn:Hbefore.
  - unfold r. rewrite disassemble_on_hit by exact Hbefore.
    destruct (resolve_file_type _ _ _ _) as [t|e]; [|done].
    by apply Hkeep.
  - destruct Hcases as [Hhit|(res & log & Hret & Hres)]; [done|].
    unfold r in *. unfold disassemble, bindM, os_path_exists in *.
    destruct (resolve_file_type _ _ _ _) as [t|e]; [|done].
    fold js_file in Hret |- *. rewrite Hbefore in Hret |- *.
    pose proof (workspace_outcome file additional_ext t decompile verbose [] w)
      as Hws.
    fold js_file in Hws.
    destruct (workspace _ _ _ _ _ _ _ _ w) as [w1 [[log1|r1]|e]].
    + destruct Hws as [_ Hthere]. by apply Hkeep.
    + unfold retM in Hret. cbn [snd] in Hret. injection Hret as ->.
      by cbn [fst] in Hws.
    + discriminate Hret.
Qed.

(** C9. The log entries the backend returns do not reach the caller:
    whenever a cache-miss call hands back a result, the log it returns is
    empty, whatever the backend reported. *)
Theorem backend_log_is_dropped
    (file : string) (decompile cleanup_flag cfg no_result : bool)
    (file_type : option string) (capa : bool) (verbose : Z)
    (additional_ext : string) (w : world) (res : result) (log : list string) :
  path_exists (w_fs w) (file +:+ additional_ext +:+ ".asm.json.gz") = false →
  snd (disassemble get_file_type _process capa_analyze file decompile
         cleanup_flag cfg no_result file_type capa verbose additional_ext w)
  = Ret (res, log) →
  res ≠ RNone →
  log = [].
Proof.
  intros Hmiss Hret Hres.
  unfold disassemble, bindM, os_path_exists in Hret.
  destruct (resolve_file_type _ _ _ _) as [t|e]; [|done].
  rewrite Hmiss in Hret.
  pose proof (workspace_outcome file additional_ext t decompile verbose [] w)
    as Hws.
  destruct (workspace _ _ _ _ _ _ _ _ w) as [w1 [[log1|r1]|e]].
  - destruct Hws as [-> _].
    by apply read_and_augment_log in Hret.
  - unfold retM in Hret. cbn [snd] in Hret. injection Hret as ->.
    by cbn [fst] in Hws.
  - discriminate Hret.
Qed.

(** Whatever the backend reports, [disassemble] behaves as with the muted
    backend. *)
Lemma backend_log_never_used file decompile cleanup_flag cfg no_result
    file_type capa verbose ext w :
  disassemble get_file_type _process capa_analyze file decompile cleanup_flag
    cfg no_result file_type capa verbose ext w
  = disassemble get_file_type (mute _process) capa_analyze file decompile
      cleanup_flag cfg no_result file_type capa verbose ext w.
Proof.
  unfold disassemble, bindM.
  destruct (resolve_file_type _ _ _ _) as [t|e]; [|done].
  destruct (os_path_exists (file +:+ ext +:+ ".asm.json.gz") w)
    as [w1 [[|]|e]]; [done| |done].
  assert (Hws : ∀ js log,
    workspace _process file js t ext decompile verbose log w1 =
    workspace (mute _process) file js t ext decompile verbose log w1).
  { intros js log. unfold workspace, try_finally, try_except, bindM.
    destruct (os_mkdir _ w1) as [w2 [[]|e]]; [|done].
    destruct (copyfile _ _ w2) as [w3 [[]|e]]; [|done].
    unfold run_process, bindM, mute. simpl.
    destruct (_process _ _ _ _ _) as [fs' [l|e]]; done. }
  by rewrite Hws.
Qed.

(** C7. An exception of the workspace block is not always turned into
    [(None, log)]: when the workspace path is taken by a regular file,
    [os.mkdir] fails, and the [rmtree] of the [finally] clause fails in
    turn; that second exception leaves [disassemble] at every verbosity. *)
Theorem workspace_removal_error_escapes
    (file : string) (decompile cleanup_flag cfg no_result : bool)
    (file_type : option string) (capa : bool) (verbose : Z)
    (additional_ext : string) (w : world) (t : string) (c : content) :
  let tmp_folder := file +:+ additional_ext +:+ ".tmp" in
  resolve_file_type get_file_type file_type file (w_fs w) = Ret t →
  path_exists (w_fs w) (file +:+ additional_ext +:+ ".asm.json.gz") = false →
  w_fs w !! tmp_folder = Some (File c) →
  disassemble get_file_type _process capa_analyze file decompile cleanup_flag
    cfg no_result file_type capa verbose additional_ext w
  = (w, Raise (NotADirectoryError tmp_folder)).
Proof.
  intros tmp_folder Ht Hmiss Htmp.
  unfold disassemble, bindM at 1 2 3, os_path_exists. rewrite Ht, Hmiss.
  unfold workspace, try_finally, try_except, bindM at 1.
  fold tmp_folder. unfold os_mkdir, fs_op at 1, mkdir. rewrite Htmp.
  cbv zeta. unfold rmtree, fs_op, rmtree_fs.
  destruct (1 <? verbose); unfold raise, retM; cbn [w_fs]; by rewrite Htmp.
Qed.

(** The second block does swallow: at [verbose <= 1] reading and
    augmenting the cache never raises, whatever the world holds. *)
Lemma read_and_augment_swallows file js_file t cleanup_flag cfg no_result capa
    verbose log w :
  verbose ≤ 1 →
  ∃ r, snd (read_and_augment capa_analyze file js_file t cleanup_flag cfg
              no_result capa verbose log w) = Ret r.
Proof.
  intros Hv. apply Z.ltb_ge in Hv.
  unfold read_and_augment, try_finally.
  match goal with |- context [try_except ?b ?h w] =>
    assert (Hbody : ∃ r, snd (try_except b h w) = Ret r) end.
  { unfold try_except.
    match goal with |- context [match ?m w with _ => _ end] =>
      destruct (m w) as [w' [a|e]] end; simpl; [by eexists|].
    rewrite Hv. by eexists. }
  destruct Hbody as [r Hr].
  match goal with |- context [try_except ?b ?h w] =>
    destruct (try_except b h w) as [w1 o] end.
  simpl in Hr. subst o.
  destruct (cleanup_finally cleanup_flag file w1) as [fs' ->]. by eexists.
Qed.

(** X11. Where the workspace can be removed, a crash of the backend is
    turned into [(None, log)] with the error message as the only log entry
    at [verbose <= 1], and re-raised above that, whether the file type was
    given or sniffed. The backend was invoked once, on the private copy,
    and the workspace is gone with whatever the backend left in it. *)
Lemma backend_failure_is_logged file decompile cleanup_flag cfg no_result
    file_type t capa verbose ext w fs1 fs2 fs3 e :
  let js_file := file +:+ ext +:+ ".asm.json.gz" in
  let tmp_folder := file +:+ ext +:+ ".tmp" in
  let new_file := join tmp_folder (basename file) in
  let new_file_js := join tmp_folder (basename js_file) in
  resolve_file_type get_file_type file_type file (w_fs w) = Ret t →
  path_exists (w_fs w) js_file = false →
  mkdir (w_fs w) tmp_folder = Ret fs1 →
  copy fs1 file new_file = Ret fs2 →
  _process new_file t new_file_js decompile fs2 = (fs3, Raise e) →
  fs3 !! tmp_folder = Some Dir →
  disassemble get_file_type _process capa_analyze file decompile
    cleanup_flag cfg no_result file_type capa verbose ext w
  = (World (remove_tree fs3 tmp_folder)
           (w_trace w ++ [EvProcess new_file t new_file_js decompile]),
     if 1 <? verbose then Raise e else Ret (RNone, [str_exn e])).
Proof.
  intros js_file tmp_folder new_file new_file_js Ht Hjs Hmk Hcp Hproc Htmp.
  unfold disassemble. unfold bindM at 1. rewrite Ht.
  unfold workspace, try_finally, try_except, run_process, os_path_exists,
    os_mkdir, copyfile, rmtree, emit, fs_op, bindM, retM, rmtree_fs.
  cbn [w_fs w_trace]. fold js_file tmp_folder. fold new_file new_file_js.
  rewrite Hjs, Hmk. cbn [w_fs w_trace]. rewrite Hcp. cbn [w_fs w_trace].
  rewrite Hproc. cbn [w_fs w_trace].
  destruct (1 <? verbose); unfold raise; cbn [w_fs w_trace];
    rewrite Htmp; reflexivity.
Qed.

End Workspace.

Lemma cleanup_leaves_suffixed_cache_witness :
  path_exists
    (w_fs (fst (disassemble sniff backend_ok no_capa "a.bin" false true false
                  false None false (-1) ".v2" world_fresh)))
    ("a.bin" +:+ ".v2" +:+ ".asm.json.gz") = true.
Proof.
  apply (cleanup_leaves_suffixed_cache sniff backend_ok no_capa "a.bin" false
           false false None false (-1) ".v2" world_fresh).
  - discriminate.
  - right. exists (RRecord processed_record), [].
    split; [vm_compute; reflexivity|discriminate].
Defined.

(** Without a suffix the same call does remove the cache file, and the
    input file is as it was in both cases. *)
Lemma cleanup_removes_plain_cache :
  let plain := disassemble sniff backend_ok no_capa "a.bin" false true false
                 false None false (-1) "" world_fresh in
  let suffixed := disassemble sniff backend_ok no_capa "a.bin" false true false
                    false None false (-1) ".v2" world_fresh in
  path_exists (w_fs (fst plain)) ("a.bin" +:+ "" +:+ ".asm.json.gz") = false ∧
  w_fs (fst plain) !! "a.bin" = w_fs world_fresh !! "a.bin" ∧
  w_fs (fst suffixed) !! "a.bin" = w_fs world_fresh !! "a.bin".
Proof. vm_compute. repeat split; reflexivity. Qed.

Lemma workspace_removal_error_escapes_witness :
  disassemble sniff backend_ok no_capa "a.bin" false false false false None
    false (-1) "" world_blocked
  = (world_blocked, Raise (NotADirectoryError ("a.bin" +:+ "" +:+ ".tmp"))).
Proof.
  apply (workspace_removal_error_escapes sniff backend_ok no_capa "a.bin" false
           false false false None false (-1) "" world_blocked "elf" (Bytes ""));
    reflexivity.
Defined.

Lemma backend_log_is_dropped_witness :
  snd (backend_ok "a.bin.tmp/a.bin" "elf" "a.bin.tmp/a.bin.asm.json.gz" false ∅)
  = Ret ["backend: 2 blocks"] ∧
  ∃ res log,
    snd (disassemble sniff backend_ok no_capa "a.bin" false false false false
           None false (-1) "" world_fresh) = Ret (res, log) ∧
    res ≠ RNone ∧ log = [].
Proof.
  split; [reflexivity|].
  assert (Hrun : snd (disassemble sniff backend_ok no_capa "a.bin" false false
                        false false None false (-1) "" world_fresh)
                 = Ret (RRecord processed_record, [])).
  { vm_compute. reflexivity. }
  exists (RRecord processed_record), []. split; [exact Hrun|].
  split; [discriminate|].
  apply (backend_log_is_dropped sniff backend_ok no_capa "a.bin" false false
           false false None false (-1) "" world_fresh
           (RRecord processed_record) []).
  - reflexivity.
  - exact Hrun.
  - discriminate.
Defined.

(** The backend is invoked once on that call, on the private copy. *)
Lemma backend_invoked_once_on_miss :
  backend_calls
    (fst (disassemble sniff backend_ok no_capa "a.bin" false false false false
            None false (-1) "" world_fresh))
  = [EvProcess "a.bin.tmp/a.bin" "elf" "a.bin.tmp/a.bin.asm.json.gz" false].
Proof. vm_compute. reflexivity. Qed.

Section BatchDrivers.

(** Whatever the pool does, the multiprocessing driver ends by raising. *)
Lemma multiprocessing_driver_raises get_file_type _process capa_analyze
    grep_ext m_map decompile cleanup_flag cfg capa verbose path_or_files
    file_ext w :
  ∃ e, snd (disassemble_all get_file_type _process capa_analyze grep_ext m_map
              decompile cleanup_flag cfg capa verbose path_or_files true
              file_ext w) = Raise e.
Proof.
  unfold disassemble_all, drive_multiprocessing, bindM.
  destruct path_or_files as [path|files]; simpl.
  - destruct (grep_ext path file_ext (w_fs w)) as [files|e]; simpl;
      [|by eexists].
    destruct (m_map _ _ _) as [w1 [items|e]]; [|by eexists].
    destruct (consume_all items w1) as [w2 [[]|e]]; by eexists.
  - destruct (m_map _ _ _) as [w1 [items|e]]; [|by eexists].
    destruct (consume_all items w1) as [w2 [[]|e]]; by eexists.
Qed.

(** The loop body never raises, and shows one progress step per item. *)
Lemma consume_reports item w :
  ∃ w', consume item w = (w', Ret ()) ∧
        progress w' = progress w ++ [EvProgress (fst item)].
Proof.
  destruct item as [ind [res log]].
  unfold consume, bindM, emit, print, emit, retM, progress. cbn [fst snd].
  destruct res; cbn [w_fs w_trace]; eexists; (split; [reflexivity|]);
    cbn [w_trace]; rewrite !List.filter_app; simpl;
    by rewrite ?app_nil_r.
Qed.

Lemma consume_all_reports items w :
  ∃ w', consume_all items w = (w', Ret ()) ∧
        progress w' = progress w ++ map (fun item => EvProgress (fst item)) items.
Proof.
  revert w. induction items as [|item items IH]; intros w.
  - exists w. by rewrite app_nil_r.
  - cbn [consume_all]. unfold bindM.
    destruct (consume_reports item w) as (w1 & -> & Hw1).
    destruct (IH w1) as (w' & -> & Hw').
    exists w'. split; [done|].
    rewrite Hw', Hw1. by rewrite <- app_assoc.
Qed.

(** When the pool yields its items, every one of them is shown and then
    the call raises. *)
Lemma multiprocessing_driver_consumes get_file_type _process capa_analyze
    grep_ext m_map decompile cleanup_flag cfg capa verbose files file_ext w
    w1 items :
  m_map (disassemble_one get_file_type _process capa_analyze decompile
           cleanup_flag cfg capa verbose) files
        (World (w_fs w) (w_trace w ++ [EvInfoCount (length files)]))
  = (w1, Ret items) →
  let r := disassemble_all get_file_type _process capa_analyze grep_ext m_map
             decompile cleanup_flag cfg capa verbose (inr files) true
             file_ext w in
  snd r = Raise (TypeError "map() missing 1 required positional argument: 'fn'") ∧
  progress (fst r)
  = progress w1 ++ map (fun item => EvProgress (fst item)) items.
Proof.
  intros Hpool. unfold disassemble_all, drive_multiprocessing, bindM, retM, emit.
  cbn [w_fs w_trace]. rewrite Hpool.
  destruct (consume_all_reports items w1) as (w2 & -> & Hw2).
  by unfold raise.
Qed.


(** C8. In the multiprocessing driver the batch call does not end
    normally. For every pool, backend and file list it ends by raising;
    on a list with one file whose backend crashes, run with an in-order
    pool, both files are processed and the log of the failing one is
    printed, and then the call raises [TypeError]. The sequential driver
    on the same input returns. *)
Theorem batch_multiprocessing_raises :
  (∀ get_file_type _process capa_analyze grep_ext m_map decompile cleanup_flag
     cfg capa verbose path_or_files file_ext w,
     ∃ e, snd (disassemble_all get_file_type _process capa_analyze grep_ext
                 m_map decompile cleanup_flag cfg capa verbose path_or_files
                 true file_ext w) = Raise e) ∧
  let batch := disassemble_all sniff backend_picky no_capa no_grep
                 m_map_in_order false false false false (-1)
                 (inr ["bad.bin"; "good.bin"]) in
  let par := batch true ".bin" world_batch in
  let seq := batch false ".bin" world_batch in
  snd par = Raise (TypeError "map() missing 1 required positional argument: 'fn'") ∧
  reports (fst par) = [EvProgress 0; EvPrint ["backend crashed"]; EvProgress 1] ∧
  snd seq = Ret () ∧
  reports (fst seq) = [EvProgress 0; EvPrint ["backend crashed"]; EvProgress 1].
Proof.
  split.
  - intros. apply multiprocessing_driver_raises.
  - vm_compute. repeat split; reflexivity.
Qed.

End BatchDrivers.

(* ===================================================================== *)
(** ** Properties of the resource cache *)
(* ===================================================================== *)

Section TraceOfEffects.

Lemma emits_weaken {A} (P Q : revent → Prop) (m : M rworld A) :
  (∀ ev, P ev → Q ev) → emits P m → emits Q m.
Proof.
  intros HPQ Hm w. destruct (Hm w) as (evs & Htrace & Hevs).
  exists evs. split; [done|]. intros ev Hev. by apply HPQ, Hevs.
Qed.

Lemma emits_ret {A} P (a : A) : emits P (retM a).
Proof.
  intros w. exists []. split; [by rewrite app_nil_r|].
  intros ev Hev. by apply elem_of_nil in Hev.
Qed.

Lemma emits_lift {A} P (o : outcome A) : emits P (lift o).
Proof.
  intros w. exists []. split; [by rewrite app_nil_r|].
  intros ev Hev. by apply elem_of_nil in Hev.
Qed.

Lemma emits_exists P p : emits P (exists_ p).
Proof.
  intros w. exists []. split; [by rewrite app_nil_r|].
  intros ev Hev. by apply elem_of_nil in Hev.
Qed.

Lemma emits_getmtime P p : emits P (getmtime p).
Proof.
  intros w. exists []. split.
  - unfold getmtime. destruct (r_fs w !! p) as [[t|t]|]; by rewrite app_nil_r.
  - intros ev Hev. by apply elem_of_nil in Hev.
Qed.

Lemma emits_rfs_op P op : emits P (rfs_op op).
Proof.
  intros w. exists []. split.
  - unfold rfs_op. destruct (op (r_fs w)); by rewrite app_nil_r.
  - intros ev Hev. by apply elem_of_nil in Hev.
Qed.

Lemma emits_remit (P : revent → Prop) ev : P ev → emits P (remit ev).
Proof.
  intros HP w. exists [ev]. split; [done|].
  intros ev' Hev'. apply list_elem_of_singleton in Hev'. by subst.
Qed.

Lemma emits_bind {A B} P (m : M rworld A) (f : A → M rworld B) :
  emits P m →
  (∀ a w, snd (m w) = Ret a → emits P (f a)) →
  emits P (bindM m f).
Proof.
  intros Hm Hf w. unfold bindM.
  destruct (Hm w) as (evs & Htrace & Hevs).
  specialize (Hf) with (w := w).
  destruct (m w) as [w1 [a|e]]; simpl in *.
  - destruct (Hf a eq_refl w1) as (evs' & Htrace' & Hevs').
    exists (evs ++ evs'). split.
    + by rewrite Htrace', Htrace, app_assoc.
    + intros ev Hev. apply elem_of_app in Hev as [Hev|Hev]; auto.
  - by exists evs.
Qed.

Lemma emits_try_except {A} P (m : M rworld A) (h : exn → M rworld A) :
  emits P m → (∀ e, emits P (h e)) → emits P (try_except m h).
Proof.
  intros Hm Hh w. unfold try_except.
  destruct (Hm w) as (evs & Htrace & Hevs).
  destruct (m w) as [w1 [a|e]]; simpl in *.
  - by exists evs.
  - destruct (Hh e w1) as (evs' & Htrace' & Hevs').
    exists (evs ++ evs'). split.
    + by rewrite Htrace', Htrace, app_assoc.
    + intros ev Hev. apply elem_of_app in Hev as [Hev|Hev]; auto.
Qed.

End TraceOfEffects.

Section Transfers.

Variable now : Z.
Variable download_file :
  option string → string → bool → gmap string rnode → outcome (gmap string rnode).

Lemma unpacked_path_ne (file : string) : file +:+ "_unpacked" ≠ file.
Proof.
  intros Heq. apply (f_equal String.length) in Heq.
  rewrite length_append in Heq. simpl in Heq. lia.
Qed.

(** Lines 53-54, run: what follows goes on in [with_folder]. *)
Lemma folder_made {A} folder (k : M rworld A) w :
  bindM (exists_ folder)
        (fun b => bindM (if b : bool then retM () else makedirs now folder)
                        (fun _ => k)) w
  = k (with_folder now folder w).
Proof.
  unfold with_folder, bindM, exists_, path_exists.
  destruct (r_fs w !! folder) as [n|] eqn:Hfolder.
  - by rewrite bool_decide_eq_true_2 by eauto.
  - rewrite bool_decide_eq_false_2 by (by intros [? ?]).
    unfold makedirs, bindM, remit, rfs_op. cbn [r_fs r_trace].
    by rewrite Hfolder.
Qed.

Lemma with_folder_lookup folder w p :
  p ≠ folder → r_fs (with_folder now folder w) !! p = r_fs w !! p.
Proof.
  intros Hp. unfold with_folder. destruct (path_exists (r_fs w) folder); [done|].
  cbn [r_fs]. by rewrite lookup_insert_ne.
Qed.

(** Lines 87-91, run. The file is removed when it is there; a directory on
    the unpack path is removed with what is below it, a regular file there
    stops the call; only then does the transfer start. *)
Lemma fetch_run url file show_progress w :
  let file_unpack := file +:+ "_unpacked" in
  let fs1 := delete file (r_fs w) in
  let tr1 := r_trace w ++
             (if path_exists (r_fs w) file then [RvRemove file] else []) in
  (∀ t, r_fs w !! file ≠ Some (RDir t)) →
  fetch download_file url file file_unpack show_progress w =
  match r_fs w !! file_unpack with
  | Some (RFile _) =>
      (RWorld fs1 (tr1 ++ [RvRmtree file_unpack]),
       Raise (NotADirectoryError file_unpack))
  | Some (RDir _) =>
      rfs_op (download_file url file show_progress)
        (RWorld (remove_tree fs1 file_unpack)
                (tr1 ++ [RvRmtree file_unpack; RvDownload url file show_progress]))
  | None =>
      rfs_op (download_file url file show_progress)
        (RWorld fs1 (tr1 ++ [RvDownload url file show_progress]))
  end.
Proof.
  intros file_unpack fs1 tr1 Hnodir.
  assert (Hun : fs1 !! file_unpack = r_fs w !! file_unpack).
  { unfold fs1. rewrite lookup_delete_ne; [done|].
    intros Heq. by apply (unpacked_path_ne file). }
  assert (Hrest : ∀ tr,
    bindM (exists_ file_unpack)
      (fun b => bindM (if b : bool then rrmtree file_unpack else retM ())
         (fun _ => bindM (remit (RvDownload url file show_progress))
            (fun _ => rfs_op (download_file url file show_progress))))
      (RWorld fs1 tr)
    = match r_fs w !! file_unpack with
      | Some (RFile _) =>
          (RWorld fs1 (tr ++ [RvRmtree file_unpack]),
           Raise (NotADirectoryError file_unpack))
      | Some (RDir _) =>
          rfs_op (download_file url file show_progress)
            (RWorld (remove_tree fs1 file_unpack)
                    (tr ++ [RvRmtree file_unpack; RvDownload url file show_progress]))
      | None =>
          rfs_op (download_file url file show_progress)
            (RWorld fs1 (tr ++ [RvDownload url file show_progress]))
      end).
  { intros tr. unfold bindM at 1, exists_, path_exists. cbn [r_fs]. rewrite Hun.
    destruct (r_fs w !! file_unpack) as [[t|t]|] eqn:Hlook.
    - rewrite bool_decide_eq_true_2 by eauto.
      unfold rrmtree, bindM, remit, rfs_op. cbn [r_fs r_trace].
      by rewrite Hun.
    - rewrite bool_decide_eq_true_2 by eauto.
      unfold rrmtree, bindM, remit, rfs_op. cbn [r_fs r_trace].
      rewrite Hun. cbn [r_fs r_trace]. by rewrite <- app_assoc.
    - rewrite bool_decide_eq_false_2 by (by intros [? ?]).
      unfold bindM, retM, remit, rfs_op. by cbn [r_fs r_trace]. }
  unfold fetch. unfold bindM at 1, exists_ at 1. unfold tr1, path_exists.
  destruct (r_fs w !! file) as [[t|t]|] eqn:Hfile.
  - rewrite bool_decide_eq_true_2 by eauto.
    unfold bindM at 1, remove, remit, rfs_op. unfold bindM at 1.
    cbn [r_fs r_trace]. rewrite Hfile. apply Hrest.
  - by destruct (Hnodir t).
  - rewrite bool_decide_eq_false_2 by (by intros [? ?]).
    unfold bindM at 1, retM. rewrite app_nil_r.
    assert (Hsame : w = RWorld fs1 (r_trace w)).
    { unfold fs1. rewrite delete_id by done. by destruct w. }
    rewrite Hsame at 1. apply Hrest.
Qed.

End Transfers.

Section Registry.

Variables (online : bool) (now : Z) (home platform_system : string).
Variable lower : string → string.
Variable fn_from_url : option string → outcome string.
Variable last_modified : option string → outcome Z.
Variable download_file :
  option string → string → bool → gmap string rnode → outcome (gmap string rnode).
Variables unpack_archive unzip_with_permission :
  string → string → gmap string rnode → outcome (gmap string rnode).

(** C4, as the code has it. [require] looks the name up against the lower
    case class names in registry order. With no match it returns [None]
    and leaves the world alone; with a match it returns what [get()] of the
    first matching kind returns (or raises what it raises). *)
Theorem require_first_match_or_none (subclasses : list descriptor)
    (library : string) (w : rworld) :
  match List.find (fun res => String.eqb (lower (cls_name res)) (lower library))
                  subclasses with
  | None =>
      require online now home platform_system lower fn_from_url last_modified
        download_file unpack_archive unzip_with_permission subclasses library w
      = (w, Ret None)
  | Some res =>
      require online now home platform_system lower fn_from_url last_modified
        download_file unpack_archive unzip_with_permission subclasses library w
      = bindM (get online now home platform_system lower fn_from_url
                 last_modified download_file unpack_archive
                 unzip_with_permission res)
              (fun path => retM (Some path)) w
  end.
Proof.
  induction subclasses as [|res rest IH]; simpl; [done|].
  destruct (String.eqb (lower (cls_name res)) (lower library)); [done|].
  apply IH.
Qed.

End Registry.

(** C4, as stated, fails: no kind is called ["radare2"], and [require]
    returns [None] instead of raising. *)
Lemma require_unknown_does_not_raise :
  let registry := [Ghidra; CapaRules] in
  let r := require true 5000 "/deps" "Linux" ascii_lower url_basename
             (server_at 2000) transfer extract extract registry "radare2"
             world_downloaded in
  List.find (fun res => String.eqb (ascii_lower (cls_name res))
                                   (ascii_lower "radare2")) registry = None ∧
  r = (world_downloaded, Ret None) ∧
  ¬ ∃ e, snd r = Raise e.
Proof.
  split; [reflexivity|]. split; [reflexivity|].
  intros [e He]. discriminate He.
Qed.

Section Prefetch.

Variables (online : bool) (now : Z) (home : string).
Variable lower : string → string.
Variable fn_from_url : option string → outcome string.
Variable last_modified : option string → outcome Z.
Variable download_file :
  option string → string → bool → gmap string rnode → outcome (gmap string rnode).
Variables unpack_archive unzip_with_permission :
  string → string → gmap string rnode → outcome (gmap string rnode).

Lemma cache_url_precedence d : cache_url d = truthy_precedence d.
Proof. reflexivity. Qed.

Lemma emits_check_for_update P d url file download :
  (∀ t t', P (RvInfoNewer t t')) → (∀ e, P (update_warning e)) →
  emits P (check_for_update online last_modified d url file download).
Proof.
  intros Hinfo Hwarn. unfold check_for_update.
  destruct (negb download && check_update d && online); [|apply emits_ret].
  apply emits_try_except.
  - apply emits_bind; [apply emits_lift|]. intros t _ _.
    apply emits_bind; [apply emits_getmtime|]. intros t' _ _.
    destruct (t' <? t); [|apply emits_ret].
    apply emits_bind; [by apply emits_remit|]. intros _ _ _. apply emits_ret.
  - intros e. apply emits_bind; [by apply emits_remit|].
    intros _ _ _. apply emits_ret.
Qed.

Lemma emits_fetch (P : revent → Prop) url file file_unpack show_progress :
  P (RvRemove file) → P (RvRmtree file_unpack) →
  P (RvDownload url file show_progress) →
  emits P (fetch download_file url file file_unpack show_progress).
Proof.
  intros Hrm Hrt Hdl. unfold fetch.
  apply emits_bind; [apply emits_exists|]. intros b _ _.
  apply emits_bind.
  { destruct b; [|apply emits_ret]. unfold remove.
    apply emits_bind; [by apply emits_remit|]. intros _ _ _. apply emits_rfs_op. }
  intros _ _ _. apply emits_bind; [apply emits_exists|]. intros b' _ _.
  apply emits_bind.
  { destruct b'; [|apply emits_ret]. unfold rrmtree.
    apply emits_bind; [by apply emits_remit|]. intros _ _ _. apply emits_rfs_op. }
  intros _ _ _. apply emits_bind; [by apply emits_remit|].
  intros _ _ _. apply emits_rfs_op.
Qed.

Lemma emits_unpack_or_file (P : revent → Prop) d file file_unpack unpack_if_needed :
  (unpack d && unpack_if_needed = true →
   P (RvUnpack (with_permission d) file file_unpack)) →
  emits P (unpack_or_file unpack_archive unzip_with_permission d file
             file_unpack unpack_if_needed).
Proof.
  intros HP. unfold unpack_or_file.
  destruct (unpack d && unpack_if_needed); [|apply emits_ret].
  apply emits_bind; [apply emits_exists|]. intros b _ _.
  apply emits_bind; [|intros _ _ _; apply emits_ret].
  destruct b; [apply emits_ret|].
  apply emits_bind; [by apply emits_remit; apply HP|]. intros _ _ _.
  destruct (with_permission d); apply emits_rfs_op.
Qed.

Lemma emits_download d url show_progress unpack_if_needed home_arg file_arg :
  emits (download_event fn_from_url d url show_progress unpack_if_needed
           (join (match home_arg with None => home | Some h => h end)
                 (lower (cls_name d))) file_arg)
        (_download online now home lower fn_from_url last_modified download_file
           unpack_archive unzip_with_permission d url show_progress
           unpack_if_needed home_arg file_arg).
Proof.
  unfold _download.
  apply emits_bind; [apply emits_exists|]. intros b _ _.
  apply emits_bind.
  { destruct b; [apply emits_ret|]. unfold makedirs.
    apply emits_bind; [by apply emits_remit|]. intros _ _ _. apply emits_rfs_op. }
  intros _ _ _. apply emits_bind; [apply emits_lift|]. intros name w Hname.
  simpl in Hname.
  apply emits_bind; [apply emits_exists|]. intros b' _ _.
  apply emits_bind; [by apply emits_check_for_update|]. intros dl _ _.
  apply emits_bind.
  { destruct dl; [|apply emits_ret].
    apply emits_fetch; simpl; eauto. }
  intros _ _ _. by apply emits_unpack_or_file.
Qed.

(** A first download, run: with the target file absent the update check
    is skipped and the call goes straight to lines 87-91. *)
Lemma download_absent d url show_progress unpack_if_needed home_arg file_arg
    name w :
  let folder := join (match home_arg with None => home | Some h => h end)
                     (lower (cls_name d)) in
  let file := join folder name in
  let file_unpack := file +:+ "_unpacked" in
  let w0 := with_folder now folder w in
  let transfer_and_finish :=
    bindM (rfs_op (download_file url file show_progress))
          (fun _ => unpack_or_file unpack_archive unzip_with_permission d file
                      file_unpack unpack_if_needed) in
  file_name fn_from_url url file_arg = Ret name →
  r_fs w0 !! file = None →
  _download online now home lower fn_from_url last_modified download_file
    unpack_archive unzip_with_permission d url show_progress unpack_if_needed
    home_arg file_arg w
  = match r_fs w0 !! file_unpack with
    | Some (RFile _) =>
        (RWorld (r_fs w0) (r_trace w0 ++ [RvRmtree file_unpack]),
         Raise (NotADirectoryError file_unpack))
    | Some (RDir _) =>
        transfer_and_finish
          (RWorld (remove_tree (r_fs w0) file_unpack)
             (r_trace w0 ++ [RvRmtree file_unpack;
                             RvDownload url file show_progress]))
    | None =>
        transfer_and_finish
          (RWorld (r_fs w0) (r_trace w0 ++ [RvDownload url file show_progress]))
    end.
Proof.
  intros folder file file_unpack w0 transfer_and_finish Hname Hfile.
  unfold _download. fold folder. rewrite folder_made. fold w0.
  unfold bindM at 1, lift. rewrite Hname. fold file. fold file_unpack.
  unfold bindM at 1, exists_, path_exists. rewrite Hfile.
  rewrite bool_decide_eq_false_2 by (by intros [? ?]).
  unfold bindM at 1, check_for_update. cbn [negb andb]. unfold retM at 1.
  unfold bindM at 1. unfold file_unpack.
  rewrite fetch_run by (intros t; rewrite Hfile; discriminate).
  fold file_unpack. unfold path_exists. rewrite Hfile.
  rewrite bool_decide_eq_false_2 by (by intros [? ?]).
  rewrite app_nil_r, delete_id by exact Hfile.
  by destruct (r_fs w0 !! file_unpack) as [[t|t]|].
Qed.

(** Without [unpack_if_needed] the extractors are not consulted. *)
Lemma cache_ignores_extractors d root w other_unpack other_unzip :
  cache online now home lower fn_from_url last_modified download_file
    other_unpack other_unzip d root w
  = cache online now home lower fn_from_url last_modified download_file
      unpack_archive unzip_with_permission d root w.
Proof.
  unfold cache, _download, unpack_or_file. by rewrite andb_false_r.
Qed.

Lemma precedence_of_urls d :
  linux d ≠ Some "" → darwin d ≠ Some "" → windows d ≠ Some "" →
  cache_url d = nonnull_precedence d.
Proof.
  unfold cache_url, nonnull_precedence. cbn [fold_left].
  intros Hl Hd Hw.
  assert (Htruthy : ∀ u : option string, u ≠ Some "" →
            url_truthy u = match u with Some _ => true | None => false end).
  { intros [s|] Hu; [|done]. simpl. destruct (String.eqb_spec s ""); [|done].
    by subst. }
  rewrite !Htruthy by done.
  by destruct (linux d), (darwin d), (windows d).
Qed.

(** C10, as the code has it. [cache(root)] settles on its URL by the
    fixed precedence default, linux, darwin, windows, each later value that
    is set overriding the earlier ones (the test is a truth test: for
    attributes that are URLs or null it is the test for non-null), and the
    running platform is not looked at. The extractors are never
    consulted. The kind's folder is made under [root] when it is missing;
    when the target [root/<kind>/<file name>] is not there, a directory on
    the unpack path is removed and [download_file] is run with that URL
    and that target, unless a regular file sits on the unpack path, where
    the call raises [NotADirectoryError] and transfers nothing. Whatever
    the call transfers in any world goes to that target. *)
Theorem cache_prefetches_by_precedence (d : descriptor) (root : option string)
    (w : rworld) :
  let url := cache_url d in
  let folder := join (match root with None => home | Some h => h end)
                     (lower (cls_name d)) in
  let run := cache online now home lower fn_from_url last_modified
               download_file unpack_archive unzip_with_permission d root w in
  let w0 := with_folder now folder w in
  url = truthy_precedence d ∧
  (linux d ≠ Some "" → darwin d ≠ Some "" → windows d ≠ Some "" →
   url = nonnull_precedence d) ∧
  (∀ other_unpack other_unzip,
     cache online now home lower fn_from_url last_modified download_file
       other_unpack other_unzip d root w = run) ∧
  (∃ evs,
     r_trace (fst run) = r_trace w ++ evs ∧
     (∀ with_perm file file_unpack, RvUnpack with_perm file file_unpack ∉ evs) ∧
     (∀ u file show_progress,
        RvDownload u file show_progress ∈ evs →
        u = url ∧
        ∃ name, file_name fn_from_url url None = Ret name ∧
                file = join folder name)) ∧
  (∀ name,
     file_name fn_from_url url None = Ret name →
     let file := join folder name in
     let file_unpack := file +:+ "_unpacked" in
     let transferred := fun fs tr =>
       match download_file url file true fs with
       | Ret fs' => (RWorld fs' tr, Ret ())
       | Raise e => (RWorld fs tr, Raise e)
       end in
     r_fs w0 !! file = None →
     match r_fs w0 !! file_unpack with
     | Some (RFile _) =>
         run = (RWorld (r_fs w0) (r_trace w0 ++ [RvRmtree file_unpack]),
                Raise (NotADirectoryError file_unpack))
     | Some (RDir _) =>
         run = transferred (remove_tree (r_fs w0) file_unpack)
                 (r_trace w0 ++ [RvRmtree file_unpack; RvDownload url file true])
     | None =>
         run = transferred (r_fs w0) (r_trace w0 ++ [RvDownload url file true])
     end).
Proof.
  intros url folder run w0.
  split; [reflexivity|]. split; [apply precedence_of_urls|].
  split; [intros; apply cache_ignores_extractors|]. split.
  - assert (Hcache : emits
              (download_event fn_from_url d (cache_url d) true false folder None)
              (cache online now home lower fn_from_url last_modified
                 download_file unpack_archive unzip_with_permission d root)).
    { unfold cache. apply emits_bind; [apply emits_download|].
      intros _ _ _. apply emits_ret. }
    destruct (Hcache w) as (evs & Htrace & Hevs).
    exists evs. split; [done|]. split.
    + intros wp f fu Hin. apply Hevs in Hin. simpl in Hin.
      rewrite andb_false_r in Hin. discriminate Hin.
    + intros u file sp Hin. apply Hevs in Hin. simpl in Hin.
      destruct Hin as (-> & _ & name & Hname & ->). eauto.
  - intros name Hname file file_unpack transferred Hfile.
    pose proof (download_absent d (cache_url d) true false root None name w
                  Hname Hfile) as Hd.
    cbv zeta in Hd. fold folder in Hd. fold w0 in Hd. fold file in Hd.
    fold file_unpack in Hd.
    assert (Hrun : run =
      match _download online now home lower fn_from_url last_modified
              download_file unpack_archive unzip_with_permission d (cache_url d)
              true false root None w with
      | (w', Ret _) => (w', Ret ())
      | (w', Raise e) => (w', Raise e)
      end) by reflexivity.
    rewrite Hd in Hrun. clearbody run.
    unfold unpack_or_file in Hrun. rewrite andb_false_r in Hrun.
    destruct (r_fs w0 !! file_unpack) as [[t|t]|]; [exact Hrun| |];
      unfold bindM, rfs_op, retM in Hrun; cbn [r_fs r_trace] in Hrun;
      unfold transferred, url;
      by destruct (download_file (cache_url d) file true _).
Qed.

End Prefetch.

Lemma cache_prefetches_by_precedence_witness :
  cache true 5000 "/home/jv-dependencies" ascii_lower url_basename
    (server_at 2000) transfer extract extract Ghidra (Some "/deps") (RWorld ∅ [])
  = (RWorld (<["/deps/ghidra/ghidra.zip" := RFile 5000]>
               (<["/deps/ghidra" := RDir 5000]> ∅))
            [RvMakedirs "/deps/ghidra";
             RvDownload (default Ghidra) "/deps/ghidra/ghidra.zip" true],
     Ret ()).
Proof.
  destruct (cache_prefetches_by_precedence true 5000 "/home/jv-dependencies"
              ascii_lower url_basename (server_at 2000) transfer extract extract
              Ghidra (Some "/deps") (RWorld ∅ []))
    as (_ & _ & _ & _ & Hfirst).
  exact (Hfirst "ghidra.zip" eq_refl eq_refl).
Defined.

(** C10, as stated, fails: the archive is not in the root, yet [cache]
    transfers nothing into it; the call raises [NotADirectoryError],
    because a regular file sits on the unpack path. *)
Lemma cache_blocked_downloads_nothing :
  let file := "/deps/ghidra/ghidra.zip" in
  let run := cache true 5000 "/home/jv-dependencies" ascii_lower url_basename
               (server_at 2000) transfer extract extract Ghidra (Some "/deps")
               world_prefetch_blocked in
  r_fs world_prefetch_blocked !! file = None ∧
  run = (RWorld (r_fs world_prefetch_blocked) [RvRmtree (file +:+ "_unpacked")],
         Raise (NotADirectoryError (file +:+ "_unpacked"))) ∧
  r_fs (fst run) !! file = None ∧
  RvDownload (cache_url Ghidra) file true ∉ r_trace (fst run).
Proof.
  split; [reflexivity|]. split; [vm_compute; reflexivity|].
  split; [vm_compute; reflexivity|].
  vm_compute. intros Hin.
  repeat (apply elem_of_cons in Hin as [Hin|Hin]; [discriminate Hin|]).
  by apply elem_of_nil in Hin.
Qed.

(** The truth test and the test for non-null part on the empty string
    only: the [linux] attribute of [CapaRules] is not null, yet it does not
    override the default URL. *)
Lemma cache_keeps_default_over_empty_linux :
  linux CapaRules ≠ None ∧
  nonnull_precedence CapaRules = linux CapaRules ∧
  cache_url CapaRules = default CapaRules ∧
  cache_url CapaRules ≠ nonnull_precedence CapaRules.
Proof. repeat split; discriminate. Qed.

Section UpdateCheck.

Variables (online : bool) (now : Z) (home : string).
Variable lower : string → string.
Variable fn_from_url : option string → outcome string.
Variable last_modified : option string → outcome Z.
Variable download_file :
  option string → string → bool → gmap string rnode → outcome (gmap string rnode).
Variables unpack_archive unzip_with_permission :
  string → string → gmap string rnode → outcome (gmap string rnode).

(** The three ways the check can end when the file is there. *)
Lemma check_for_update_present d url file mtime w :
  r_fs w !! file = Some (RFile mtime) →
  check_for_update online last_modified d url file false w =
  if check_update d && online then
    match last_modified url with
    | Ret t =>
        if mtime <? t
        then (RWorld (r_fs w) (r_trace w ++ [RvInfoNewer t mtime]), Ret true)
        else (w, Ret false)
    | Raise e => (RWorld (r_fs w) (r_trace w ++ [update_warning e]), Ret false)
    end
  else (w, Ret false).
Proof.
  intros Hfile. unfold check_for_update. simpl.
  destruct (check_update d && online); [|done].
  unfold try_except, bindM, lift, getmtime. simpl.
  destruct (last_modified url) as [t|e]; [|done].
  rewrite Hfile. by destruct (mtime <? t).
Qed.

(** The check itself never raises. *)
Lemma check_for_update_total d url file download w :
  ∃ b, snd (check_for_update online last_modified d url file download w) = Ret b.
Proof.
  unfold check_for_update.
  destruct (negb download && check_update d && online); [|by eexists].
  unfold try_except, bindM, lift, getmtime. simpl.
  destruct (last_modified url) as [t|e]; [|by eexists].
  destruct (r_fs w !! file) as [[t'|t']|]; try (by eexists);
    destruct (t' <? t); by eexists.
Qed.

(** [fetch] begins by deleting the file, and reaches the transfer unless a
    regular file sits on the unpack path. *)
Lemma fetch_present url file file_unpack show_progress mtime w :
  r_fs w !! file = Some (RFile mtime) →
  ∃ evs,
    r_trace (fst (fetch download_file url file file_unpack show_progress w))
    = r_trace w ++ RvRemove file :: evs ∧
    ((∀ t, r_fs w !! file_unpack ≠ Some (RFile t)) →
     RvDownload url file show_progress ∈ evs).
Proof.
  intros Hfile. unfold fetch, bindM, exists_, path_exists. simpl.
  rewrite Hfile. rewrite bool_decide_eq_true_2 by eauto.
  unfold remove, bindM, remit, rfs_op. simpl. rewrite Hfile. simpl.
  destruct (bool_decide (is_Some (delete file (r_fs w) !! file_unpack))) eqn:Hun.
  - apply bool_decide_eq_true_1 in Hun as [n Hn].
    unfold rrmtree, bindM, remit, rfs_op. simpl. rewrite Hn.
    destruct n as [t|t]; simpl.
    + exists [RvRmtree file_unpack]. split; [by rewrite <- app_assoc|].
      intros Hnot. exfalso. apply (Hnot t).
      apply lookup_delete_Some in Hn. tauto.
    + destruct (download_file _ _ _ _); simpl;
        (eexists [RvRmtree file_unpack; RvDownload url file show_progress];
         split; [by rewrite <- !app_assoc|intros _; set_solver]).
  - simpl. destruct (download_file _ _ _ _); simpl;
      (eexists [RvDownload url file show_progress];
       split; [by rewrite <- !app_assoc|intros _; set_solver]).
Qed.

(** What the call adds to the trace when the local file exists: the
    removal of the file is there exactly when the server is newer, and a
    transfer only then. *)
Lemma redownload_events (d : descriptor) (url : option string)
    (show_progress unpack_if_needed : bool) (home_arg file_arg : option string)
    (name : string) (mtime : Z) (w : rworld) :
  let folder := join (match home_arg with None => home | Some h => h end)
                     (lower (cls_name d)) in
  let file := join folder name in
  let file_unpack := file +:+ "_unpacked" in
  let newer := check_update d = true ∧ online = true ∧
               ∃ t, last_modified url = Ret t ∧ mtime < t in
  let run := _download online now home lower fn_from_url last_modified
               download_file unpack_archive unzip_with_permission d url
               show_progress unpack_if_needed home_arg file_arg w in
  file_name fn_from_url url file_arg = Ret name →
  path_exists (r_fs w) folder = true →
  r_fs w !! file = Some (RFile mtime) →
  ∃ evs,
    r_trace (fst run) = r_trace w ++ evs ∧
    (RvRemove file ∈ evs ↔ newer) ∧
    (RvDownload url file show_progress ∈ evs → newer) ∧
    (newer → (∀ t, r_fs w !! file_unpack ≠ Some (RFile t)) →
     RvDownload url file show_progress ∈ evs) ∧
    (∀ e, check_update d = true → online = true →
          last_modified url = Raise e →
          update_warning e ∈ evs ∧
          run = unpack_or_file unpack_archive unzip_with_permission d file
                  file_unpack unpack_if_needed
                  (RWorld (r_fs w) (r_trace w ++ [update_warning e]))).
Proof.
  intros folder file file_unpack newer run Hname Hfolder Hfile.
  assert (Hrun : run =
    bindM (check_for_update online last_modified d url file false)
      (fun download =>
         bindM (if download : bool
                then fetch download_file url file file_unpack show_progress
                else retM ())
               (fun _ => unpack_or_file unpack_archive unzip_with_permission d
                           file file_unpack unpack_if_needed)) w).
  { unfold run, _download, bindM at 1 2 3 4, exists_, lift. simpl.
    fold folder. rewrite Hfolder. simpl. rewrite Hname.
    fold file. unfold path_exists. rewrite Hfile.
    rewrite bool_decide_eq_true_2 by eauto. reflexivity. }
  assert (Hunpack : ∀ w0, ∃ evs,
    r_trace (fst (unpack_or_file unpack_archive unzip_with_permission d file
                    file_unpack unpack_if_needed w0)) = r_trace w0 ++ evs ∧
    ∀ ev, ev ∈ evs → ∃ wp f fu, ev = RvUnpack wp f fu).
  { intros w0. apply (emits_unpack_or_file unpack_archive unzip_with_permission
      (fun ev => ∃ wp f fu, ev = RvUnpack wp f fu)). eauto. }
  clearbody run. unfold bindM at 1 in Hrun.
  rewrite (check_for_update_present d url file mtime w Hfile) in Hrun.
  destruct (check_update d) eqn:Hcu; simpl in Hrun;
    [destruct online eqn:Hon; simpl in Hrun;
       [destruct (last_modified url) as [t|e] eqn:Hlm;
          [destruct (mtime <? t) eqn:Hlt|]|]|];
    subst run.
  - (* the server is newer *)
    apply Z.ltb_lt in Hlt.
    assert (Hnewer : newer) by (unfold newer; eauto).
    set (w1 := RWorld (r_fs w) (r_trace w ++ [RvInfoNewer t mtime])).
    destruct (fetch_present url file file_unpack show_progress mtime w1 Hfile)
      as (evs1 & Htrace1 & Hdl).
    unfold bindM.
    destruct (fetch download_file url file file_unpack show_progress w1)
      as [w2 [[]|e]]; simpl in *.
    + destruct (Hunpack w2) as (evs2 & Htrace2 & _).
      exists (RvInfoNewer t mtime :: RvRemove file :: evs1 ++ evs2).
      split; [by rewrite Htrace2, Htrace1, <- !app_assoc|].
      split; [split; [done|intros _; set_solver]|].
      split; [done|]. split; [intros _ Hfree; specialize (Hdl Hfree); set_solver|].
      intros e _ _ He. discriminate He.
    + exists (RvInfoNewer t mtime :: RvRemove file :: evs1).
      split; [by rewrite Htrace1, <- !app_assoc|].
      split; [split; [done|intros _; set_solver]|].
      split; [done|]. split; [intros _ Hfree; specialize (Hdl Hfree); set_solver|].
      intros e' _ _ He. discriminate He.
  - (* the server is not newer *)
    apply Z.ltb_ge in Hlt.
    assert (Hnot : ¬ newer).
    { intros (_ & _ & t' & Ht' & Hlt'). injection Ht' as <-. lia. }
    unfold bindM, retM.
    destruct (Hunpack w) as (evs2 & Htrace2 & Hevs2).
    exists evs2. split; [done|].
    split; [split; [|done]|].
    { intros Hin. destruct (Hevs2 _ Hin) as (? & ? & ? & ?). discriminate. }
    split.
    { intros Hin. destruct (Hevs2 _ Hin) as (? & ? & ? & ?). discriminate. }
    split; [done|]. intros e _ _ He. discriminate He.
  - (* the metadata check raises *)
    assert (Hnot : ¬ newer).
    { intros (_ & _ & t' & Ht' & _). discriminate Ht'. }
    unfold bindM, retM.
    set (w1 := RWorld (r_fs w) (r_trace w ++ [update_warning e])).
    destruct (Hunpack w1) as (evs2 & Htrace2 & Hevs2).
    exists (update_warning e :: evs2).
    split; [by rewrite Htrace2; simpl; rewrite <- app_assoc|].
    split; [split; [|done]|].
    { intros Hin. apply elem_of_cons in Hin as [Hin|Hin]; [discriminate Hin|].
      destruct (Hevs2 _ Hin) as (? & ? & ? & ?). discriminate. }
    split.
    { intros Hin. apply elem_of_cons in Hin as [Hin|Hin]; [discriminate Hin|].
      destruct (Hevs2 _ Hin) as (? & ? & ? & ?). discriminate. }
    split; [done|]. intros e' _ _ He. injection He as <-.
    split; [set_solver|done].
  - (* offline *)
    assert (Hnot : ¬ newer) by (intros (_ & Hon' & _); discriminate Hon').
    unfold bindM, retM.
    destruct (Hunpack w) as (evs2 & Htrace2 & Hevs2).
    exists evs2. split; [done|].
    split; [split; [|done]|].
    { intros Hin. destruct (Hevs2 _ Hin) as (? & ? & ? & ?). discriminate. }
    split.
    { intros Hin. destruct (Hevs2 _ Hin) as (? & ? & ? & ?). discriminate. }
    split; [done|]. intros e _ Hon' _. discriminate Hon'.
  - (* no update check asked for *)
    assert (Hnot : ¬ newer) by (intros (Hcu' & _); discriminate Hcu').
    unfold bindM, retM.
    destruct (Hunpack w) as (evs2 & Htrace2 & Hevs2).
    exists evs2. split; [done|].
    split; [split; [|done]|].
    { intros Hin. destruct (Hevs2 _ Hin) as (? & ? & ? & ?). discriminate. }
    split.
    { intros Hin. destruct (Hevs2 _ Hin) as (? & ? & ? & ?). discriminate. }
    split; [done|]. intros e Hcu' _ _. discriminate Hcu'.
Qed.

(** C6, as the code has it. For a resource whose local file exists, the
    call is settled by the update check. When [check_update] is set,
    [online] holds and the server's [Last-Modified] instant is strictly
    later than the file's modification time, the file is deleted, a
    directory on the unpack path is removed, and [download_file] is run on
    what is left; but a regular file on the unpack path stops the call
    after the deletion, with [NotADirectoryError] and without a transfer.
    When the metadata check raises, the warning is logged and the call
    goes on as without an update. In every case but the first the file is
    left alone and nothing is transferred: what follows is the unpack step
    alone. *)
Theorem update_check_decides_redownload (d : descriptor) (url : option string)
    (show_progress unpack_if_needed : bool) (home_arg file_arg : option string)
    (name : string) (mtime : Z) (w : rworld) :
  let folder := join (match home_arg with None => home | Some h => h end)
                     (lower (cls_name d)) in
  let file := join folder name in
  let file_unpack := file +:+ "_unpacked" in
  let newer := check_update d = true ∧ online = true ∧
               ∃ t, last_modified url = Ret t ∧ mtime < t in
  let run := _download online now home lower fn_from_url last_modified
               download_file unpack_archive unzip_with_permission d url
               show_progress unpack_if_needed home_arg file_arg w in
  let finish := unpack_or_file unpack_archive unzip_with_permission d file
                  file_unpack unpack_if_needed in
  let transfer_and_finish :=
    bindM (rfs_op (download_file url file show_progress)) (fun _ => finish) in
  file_name fn_from_url url file_arg = Ret name →
  path_exists (r_fs w) folder = true →
  r_fs w !! file = Some (RFile mtime) →
  (∃ evs,
     r_trace (fst run) = r_trace w ++ evs ∧
     (RvRemove file ∈ evs ↔ newer) ∧
     (RvDownload url file show_progress ∈ evs → newer)) ∧
  (∀ t, check_update d = true → online = true →
        last_modified url = Ret t → mtime < t →
        let deleted := delete file (r_fs w) in
        let tr := r_trace w ++ [RvInfoNewer t mtime; RvRemove file] in
        match r_fs w !! file_unpack with
        | Some (RFile _) =>
            run = (RWorld deleted (tr ++ [RvRmtree file_unpack]),
                   Raise (NotADirectoryError file_unpack))
        | Some (RDir _) =>
            run = transfer_and_finish
                    (RWorld (remove_tree deleted file_unpack)
                       (tr ++ [RvRmtree file_unpack;
                               RvDownload url file show_progress]))
        | None =>
            run = transfer_and_finish
                    (RWorld deleted (tr ++ [RvDownload url file show_progress]))
        end) ∧
  (∀ e, check_update d = true → online = true →
        last_modified url = Raise e →
        run = finish (RWorld (r_fs w) (r_trace w ++ [update_warning e]))) ∧
  (check_update d && online = false ∨
   (∃ t, last_modified url = Ret t ∧ t ≤ mtime) →
   run = finish w).
Proof.
  intros folder file file_unpack newer run finish transfer_and_finish
    Hname Hfolder Hfile.
  split.
  { destruct (redownload_events d url show_progress unpack_if_needed home_arg
                file_arg name mtime w Hname Hfolder Hfile)
      as (evs & Htrace & Hremove & Hdownload & _).
    exists evs. split; [exact Htrace|]. split; [exact Hremove|exact Hdownload]. }
  assert (Hrun : run =
    bindM (check_for_update online last_modified d url file false)
      (fun download =>
         bindM (if download : bool
                then fetch download_file url file file_unpack show_progress
                else retM ())
               (fun _ => finish)) w).
  { unfold run, _download, bindM at 1 2 3 4, exists_, lift. simpl.
    fold folder. rewrite Hfolder. simpl. rewrite Hname.
    fold file. unfold path_exists. rewrite Hfile.
    rewrite bool_decide_eq_true_2 by eauto. reflexivity. }
  clearbody run. unfold bindM at 1 in Hrun.
  rewrite (check_for_update_present d url file mtime w Hfile) in Hrun.
  split; [|split].
  - intros t Hcu Hon Hlm Hlt deleted tr. apply Z.ltb_lt in Hlt.
    rewrite Hcu, Hon, Hlm, Hlt in Hrun. cbn [andb] in Hrun.
    unfold bindM at 1 in Hrun. unfold file_unpack in Hrun.
    rewrite fetch_run in Hrun
      by (cbn [r_fs]; intros t'; rewrite Hfile; discriminate).
    fold file_unpack in Hrun. cbn [r_fs r_trace] in Hrun.
    unfold path_exists in Hrun. rewrite Hfile in Hrun.
    rewrite bool_decide_eq_true_2 in Hrun by eauto.
    rewrite <- !app_assoc in Hrun. cbn [app] in Hrun.
    fold deleted in Hrun.
    destruct (r_fs w !! file_unpack) as [[t'|t']|];
      unfold tr; rewrite <- !app_assoc; exact Hrun.
  - intros e Hcu Hon Hlm. rewrite Hcu, Hon, Hlm in Hrun. exact Hrun.
  - intros [Hoff|(t & Hlm & Hle)].
    + rewrite Hoff in Hrun. exact Hrun.
    + apply Z.ltb_ge in Hle. rewrite Hlm, Hle in Hrun.
      by destruct (check_update d && online).
Qed.

End UpdateCheck.

Lemma update_check_decides_redownload_witness :
  _download true 5000 "/deps" ascii_lower url_basename (server_at 2000) transfer
    extract extract Ghidra (default Ghidra) true true None None world_downloaded
  = (RWorld (<["/deps/ghidra/ghidra.zip" := RFile 5000]>
               (delete "/deps/ghidra/ghidra.zip" (r_fs world_downloaded)))
            [RvInfoNewer 2000 1000; RvRemove "/deps/ghidra/ghidra.zip";
             RvDownload (default Ghidra) "/deps/ghidra/ghidra.zip" true],
     Ret "/deps/ghidra/ghidra.zip").
Proof.
  destruct (update_check_decides_redownload true 5000 "/deps" ascii_lower
              url_basename (server_at 2000) transfer extract extract Ghidra
              (default Ghidra) true true None None "ghidra.zip" 1000
              world_downloaded eq_refl eq_refl eq_refl)
    as (_ & Hnewer & _ & _).
  specialize (Hnewer 2000 eq_refl eq_refl eq_refl).
  exact (Hnewer ltac:(lia)).
Defined.

(** C6, as stated, fails: the local file exists, the update check is on
    and the server is newer, yet the file is deleted and not downloaded
    again, because a regular file sits on the unpack path. *)
Lemma blocked_unpack_path_stops_redownload :
  let file := "/deps/ghidra/ghidra.zip" in
  let run := _download true 5000 "/deps" ascii_lower url_basename
               (server_at 2000) transfer extract extract Ghidra (default Ghidra)
               true true None None world_unpack_blocked in
  (check_update Ghidra = true ∧
   server_at 2000 (default Ghidra) = Ret 2000 ∧
   r_fs world_unpack_blocked !! file = Some (RFile 1000) ∧ 1000 < 2000) ∧
  run = (RWorld (delete file (r_fs world_unpack_blocked))
           [RvInfoNewer 2000 1000; RvRemove file;
            RvRmtree (file +:+ "_unpacked")],
         Raise (NotADirectoryError (file +:+ "_unpacked"))) ∧
  r_fs (fst run) !! file = None ∧
  RvDownload (default Ghidra) file true ∉ r_trace (fst run).
Proof.
  split; [repeat split; (reflexivity || lia)|].
  split; [vm_compute; reflexivity|].
  split; [vm_compute; reflexivity|].
  vm_compute. intros Hin.
  repeat (apply elem_of_cons in Hin as [Hin|Hin]; [discriminate Hin|]).
  by apply elem_of_nil in Hin.
Qed.

(* ===================================================================== *)
(** ** Further properties of the CFG derivation *)
(* ===================================================================== *)

Section CfgEdges.

Lemma dict_set_set k v kv : dict_set k v (dict_set k v kv) = dict_set k v kv.
Proof.
  induction kv as [|[k' v'] kv IH]; simpl.
  - by rewrite String.eqb_refl.
  - destruct (String.eqb k' k) eqn:E; simpl.
    + by rewrite String.eqb_refl.
    + by rewrite E, IH.
Qed.

Lemma enumerate_from_length {A} (i : nat) (l : list A) :
  length (enumerate_from i l) = length l.
Proof. revert i. induction l as [|x l IH]; intros i; simpl; [done|]. by rewrite IH. Qed.

(** Every index the comprehension stores is the index of a block. *)
Lemma build_blk2ind_range js :
  ∀ (m m' : gmap pykey nat) (i : nat),
  build_blk2ind m (enumerate_from i js) = Ret m' →
  ∀ k v, m' !! k = Some v →
         m !! k = Some v ∨ (i ≤ v < i + length js)%nat.
Proof.
  induction js as [|j js IH]; intros m m' i Hbuild k v Hv; simpl in *.
  - injection Hbuild as <-. by left.
  - destruct (py_getitem j "addr_start") as [a|e]; [|done]. simpl in Hbuild.
    destruct (hash_key a) as [ka|e]; [|done]. simpl in Hbuild.
    destruct (IH _ _ _ Hbuild k v Hv) as [Hold|Hnew]; [|right; lia].
    destruct (decide (ka = k)) as [->|Hne].
    + rewrite lookup_insert_eq in Hold. injection Hold as <-. right. lia.
    + rewrite lookup_insert_ne in Hold by done. by left.
Qed.

Lemma edges_of_calls_range (blk2ind : gmap pykey nat) (n : nat) b cs es :
  (∀ k v, blk2ind !! k = Some v → (v < n)%nat) →
  edges_of_calls blk2ind b cs = Ret es →
  ∀ s t, (s, t) ∈ es → (s < n ∧ t < n)%nat.
Proof.
  intros Hrange. revert es. induction cs as [|c cs IH]; intros es Hes s t Hin;
    simpl in Hes.
  - injection Hes as <-. by apply elem_of_nil in Hin.
  - destruct (hash_key c) as [kc|e]; [|done]. simpl in Hes.
    destruct (blk2ind !! kc) as [tgt|] eqn:Htgt; [|by eapply IH].
    destruct (py_getitem b "addr_start") as [a|e]; [|done]. simpl in Hes.
    destruct (hash_key a) as [ka|e]; [|done]. simpl in Hes.
    destruct (blk2ind !! ka) as [src|] eqn:Hsrc; [|done].
    destruct (edges_of_calls blk2ind b cs) as [es'|e]; [|done]. simpl in Hes.
    injection Hes as <-. apply elem_of_cons in Hin as [[= -> ->]|Hin].
    + split; eauto.
    + by eapply IH.
Qed.

Lemma edges_of_blocks_range (blk2ind : gmap pykey nat) (n : nat) bs es :
  (∀ k v, blk2ind !! k = Some v → (v < n)%nat) →
  edges_of_blocks blk2ind bs = Ret es →
  ∀ s t, (s, t) ∈ es → (s < n ∧ t < n)%nat.
Proof.
  intros Hrange. revert es. induction bs as [|b bs IH]; intros es Hes s t Hin;
    simpl in Hes.
  - injection Hes as <-. by apply elem_of_nil in Hin.
  - destruct (py_getitem b "calls" ≫= py_iter) as [cs|e]; [|done]. simpl in Hes.
    destruct (edges_of_calls blk2ind b cs) as [es1|e] eqn:Hcalls; [|done].
    simpl in Hes.
    destruct (edges_of_blocks blk2ind bs) as [es2|e]; [|done]. simpl in Hes.
    injection Hes as <-. apply elem_of_app in Hin as [Hin|Hin].
    + by eapply edges_of_calls_range.
    + by eapply IH.
Qed.

(** X1. Whatever the record holds, when the derivation succeeds every edge
    is a pair of indices into the sequence of blocks: both components are
    below the number of blocks. *)
Theorem cfg_edges_in_range (res : json) (blocks : list json)
    (es : list (nat * nat)) :
  py_getitem res "blocks" ≫= py_iter = Ret blocks →
  adj_sp res = Ret es →
  ∀ s t, (s, t) ∈ es → (s < length blocks ∧ t < length blocks)%nat.
Proof.
  intros Hblocks Hadj. unfold adj_sp in Hadj. rewrite Hblocks in Hadj.
  simpl in Hadj. unfold enumerate in Hadj.
  destruct (build_blk2ind ∅ (enumerate_from 0 blocks)) as [blk2ind|e] eqn:Hbuild;
    [|done].
  simpl in Hadj. eapply edges_of_blocks_range; [|exact Hadj].
  intros k v Hv.
  destruct (build_blk2ind_range blocks ∅ blk2ind 0%nat Hbuild k v Hv) as [Hempty|Hr].
  - by rewrite lookup_empty in Hempty.
  - lia.
Qed.

Lemma cfg_edges_in_range_witness :
  (0 < length (map block_json example_blocks) ∧
   1 < length (map block_json example_blocks))%nat.
Proof.
  apply (cfg_edges_in_range example_record (map block_json example_blocks)
           [(0%nat, 1%nat)]).
  - reflexivity.
  - reflexivity.
  - apply list_elem_of_here.
Defined.

Lemma last_position_elem a blocks :
  a ∈ map addr_start blocks → is_Some (last_position a blocks).
Proof.
  induction blocks as [|b blocks IH]; simpl.
  - intros H. by apply elem_of_nil in H.
  - intros H. destruct (last_position a blocks) as [p|] eqn:Hp; [by eexists|].
    destruct (Z.eqb_spec (addr_start b) a); [by eexists|].
    apply elem_of_cons in H as [Heq|Hin]; [congruence|].
    destruct (IH Hin) as [p Hp']. discriminate Hp'.
Qed.

(** The dict built by the comprehension sends an address to its last
    position, whether or not addresses repeat. *)
Lemma build_blk2ind_last js blocks :
  Forall2 is_block js blocks →
  ∀ (m : gmap pykey nat) (i : nat),
  ∃ m', build_blk2ind m (enumerate_from i js) = Ret m' ∧
        ∀ a, m' !! KInt a =
             match last_position a blocks with
             | Some p => Some (i + p)%nat
             | None => m !! KInt a
             end.
Proof.
  induction 1 as [|j b js blocks [Haddr _] _ IH]; intros m i; simpl.
  - by exists m.
  - rewrite Haddr. simpl.
    destruct (IH (<[KInt (addr_start b) := i]> m) (S i)) as (m' & -> & Hm').
    exists m'. split; [done|]. intros a. rewrite Hm'.
    destruct (last_position a blocks) as [p|]; [f_equal; lia|].
    destruct (Z.eqb_spec (addr_start b) a) as [<-|Hne].
    + rewrite lookup_insert_eq. f_equal. lia.
    + rewrite lookup_insert_ne; [done|congruence].
Qed.

Lemma edges_of_blocks_by (pos : Z → option nat) (blk2ind : gmap pykey nat)
    js blocks :
  (∀ a, blk2ind !! KInt a = pos a) →
  Forall2 is_block js blocks →
  (∀ b, b ∈ blocks → is_Some (pos (addr_start b))) →
  edges_of_blocks blk2ind js =
  Ret (flat_map (fun b =>
         flat_map (fun c =>
           match pos (addr_start b), pos c with
           | Some src, Some tgt => [(src, tgt)]
           | _, _ => []
           end) (calls b)) blocks).
Proof.
  intros Hmap. induction 1 as [|j b js blocks [Haddr Hcalls] _ IH];
    intros Hin; simpl; [done|].
  rewrite Hcalls. simpl.
  destruct (Hin b) as [src Hsrc]; [apply list_elem_of_here|].
  rewrite (edges_of_calls_resolved blk2ind j b src); [|done|by rewrite Hmap].
  simpl. rewrite IH.
  2:{ intros b' Hb'. by apply Hin, list_elem_of_further. }
  simpl. rewrite Hsrc. do 2 f_equal.
  apply flat_map_ext. intros c. by rewrite Hmap.
Qed.

(** X2. When several blocks start at the same address, the address stands
    for the last of them, as source and as target: for every record whose
    blocks carry integer addresses and calls, the derived edge list is
    [cfg_last]. *)
Theorem cfg_last_block_wins (res : json) (js : list json) (blocks : list Block) :
  py_getitem res "blocks" = Ret (JArr js) →
  Forall2 is_block js blocks →
  adj_sp res = Ret (cfg_last blocks).
Proof.
  intros Hblocks Hjs. unfold adj_sp. rewrite Hblocks. simpl.
  destruct (build_blk2ind_last js blocks Hjs ∅ 0%nat) as (m' & Hm' & Hlook).
  unfold enumerate. rewrite Hm'. simpl.
  apply (edges_of_blocks_by (fun a => last_position a blocks)); [|done|].
  - intros a. rewrite Hlook, lookup_empty.
    by destruct (last_position a blocks).
  - intros b Hb. apply last_position_elem. by apply list_elem_of_fmap_2.
Qed.

Lemma cfg_last_block_wins_witness :
  adj_sp twin_record = Ret [(1%nat, 1%nat)].
Proof.
  apply (cfg_last_block_wins twin_record (map block_json twin_blocks) twin_blocks).
  - reflexivity.
  - repeat constructor.
Defined.

(** X3. Deriving the CFG of a record that already carries the derived CFG
    changes nothing: [_cfg] after [_cfg] is [_cfg]. *)
Theorem cfg_idempotent (res res' : json) :
  _cfg res = Ret res' → _cfg res' = Ret res'.
Proof.
  unfold _cfg. intros Hcfg.
  destruct (adj_sp res) as [es|e] eqn:Hadj; [|done]. simpl in Hcfg.
  destruct res as [| | | | |kv]; try discriminate Hcfg.
  simpl in Hcfg. injection Hcfg as <-.
  assert (Hsame : adj_sp (JObj (dict_set "cfg" (JArr (map edge_json es)) kv))
                  = Ret es).
  { unfold adj_sp in *. simpl in *. by rewrite dict_get_set_ne. }
  rewrite Hsame. simpl. by rewrite dict_set_set.
Qed.

Lemma cfg_idempotent_witness :
  ∃ res', _cfg example_record = Ret res' ∧ _cfg res' = Ret res'.
Proof.
  eexists. split; [reflexivity|].
  apply (cfg_idempotent example_record). reflexivity.
Defined.

(** X4. A block the derivation cannot read stops it: when the blocks up
    to some block are well formed, every block carries an integer address,
    and reading ['calls'] of that block raises (a missing key raises
    [KeyError]), [_cfg] raises that exception and stores no edge list. *)
Theorem cfg_unreadable_block (res : json) (pre post : list json) (j : json)
    (before : list Block) (a : Z) (e : exn) :
  py_getitem res "blocks" = Ret (JArr (pre ++ j :: post)) →
  Forall2 is_block pre before →
  py_getitem j "addr_start" = Ret (JNum a) →
  py_getitem j "calls" = Raise e →
  Forall (fun j' => ∃ a', py_getitem j' "addr_start" = Ret (JNum a')) post →
  _cfg res = Raise e.
Proof.
  intros Hblocks Hpre Haddr Hcalls Hpost.
  unfold _cfg, adj_sp. rewrite Hblocks. simpl. unfold enumerate.
  (* the dict is built: every block has a hashable address *)
  assert (Hbuild : ∀ js (m : gmap pykey nat) i,
    Forall (fun j' => ∃ a', py_getitem j' "addr_start" = Ret (JNum a')) js →
    ∃ m', build_blk2ind m (enumerate_from i js) = Ret m' ∧
          (∀ k v, m !! k = Some v → is_Some (m' !! k)) ∧
          Forall (fun j' => ∀ a', py_getitem j' "addr_start" = Ret (JNum a') →
                                  is_Some (m' !! KInt a')) js).
  { induction js as [|j0 js IH]; intros m i Hall; simpl.
    - exists m. split; [done|]. split; [eauto|constructor].
    - apply Forall_cons in Hall as [[a0 Ha0] Hall].
      rewrite Ha0. simpl.
      destruct (IH (<[KInt a0 := i]> m) (S i) Hall) as (m' & -> & Hkeep & Hjs).
      exists m'. split; [done|]. split.
      + intros k v Hk. destruct (decide (KInt a0 = k)) as [<-|Hne].
        * eapply Hkeep. apply lookup_insert_eq.
        * eapply Hkeep. by rewrite lookup_insert_ne.
      + constructor; [|done]. intros a' Ha'.
        rewrite Ha0 in Ha'. injection Ha' as <-.
        eapply Hkeep. apply lookup_insert_eq. }
  assert (Hall : Forall (fun j' => ∃ a', py_getitem j' "addr_start" = Ret (JNum a'))
                        (pre ++ j :: post)).
  { apply Forall_app. split.
    - clear -Hpre. induction Hpre as [|j0 b0 ? ? [Ha _] _ IH]; constructor; eauto.
    - constructor; eauto. }
  destruct (Hbuild _ ∅ 0%nat Hall) as (blk2ind & -> & _ & Hin). simpl.
  apply Forall_app in Hin as [Hin_pre _].
  (* the well-formed blocks before [j] yield their edges, then [j] raises *)
  assert (Hedges : ∀ js bs,
    Forall2 is_block js bs →
    Forall (fun j' => ∀ a', py_getitem j' "addr_start" = Ret (JNum a') →
                            is_Some (blk2ind !! KInt a')) js →
    edges_of_blocks blk2ind (js ++ j :: post) = Raise e).
  { induction 1 as [|j0 b0 js bs [Ha0 Hc0] _ IH]; intros Hknown; simpl.
    - by rewrite Hcalls.
    - apply Forall_cons in Hknown as [Hj0 Hknown].
      rewrite Hc0. simpl. destruct (Hj0 _ Ha0) as [src Hsrc].
      rewrite (edges_of_calls_resolved blk2ind j0 b0 src) by done.
      simpl. by rewrite IH. }
  by rewrite (Hedges pre before).
Qed.

Lemma cfg_unreadable_block_witness :
  _cfg (JObj [("blocks",
               JArr [block_json {| addr_start := 10; calls := [20] |};
                     JObj [("addr_start", JNum 20)]])])
  = Raise (KeyError "calls").
Proof.
  apply (cfg_unreadable_block _ [block_json {| addr_start := 10; calls := [20] |}]
           [] (JObj [("addr_start", JNum 20)])
           [ {| addr_start := 10; calls := [20] |} ] 20).
  - reflexivity.
  - repeat constructor.
  - reflexivity.
  - reflexivity.
  - constructor.
Defined.

End CfgEdges.

(* ===================================================================== *)
(** ** Further properties of the orchestrator *)
(* ===================================================================== *)

Section SecondBlock.

Variable get_file_type : string → gmap string node → outcome string.
Variable _process :
  string → string → string → bool → gmap string node →
  gmap string node * outcome (list string).
Variable capa_analyze : json → string → Z → gmap string node → outcome json.

Lemma is_substring_empty sub : sub ≠ "" → is_substring sub "" = false.
Proof. by destruct sub. Qed.

(** A record that passes the file-type step is never a false value. *)
Lemma ensure_f_type_truthy t res st :
  ensure_f_type t res = Ret st → truthy (fst st) = true.
Proof.
  unfold ensure_f_type. destruct res as [| | |s|l|kv]; simpl; try done.
  - destruct (is_substring "f_type" s) eqn:Hsub; simpl; [|done].
    intros [= <-]. simpl. destruct s; [discriminate Hsub|done].
  - destruct (existsb (is_str "f_type") l) eqn:Hex; simpl; [|done].
    intros [= <-]. simpl. by destruct l.
  - destruct (dict_get "f_type" kv) as [v|] eqn:Hkey; simpl.
    + intros [= <-]. simpl. by destruct kv.
    + destruct (dict_get "bin" kv) as [bin|]; [|done]. simpl.
      destruct (py_setitem bin "f_type" (JStr t)) as [bin'|e]; [|done]. simpl.
      intros [= <-]. simpl.
      rewrite bool_decide_eq_false_2; [done|]. apply dict_set_nonempty.
Qed.

Lemma cfg_truthy res res' : _cfg res = Ret res' → truthy res' = true.
Proof.
  unfold _cfg. destruct (adj_sp res) as [es|e]; [|done]. simpl.
  destruct res; simpl; try done. intros [= <-]. simpl.
  rewrite bool_decide_eq_false_2; [done|]. apply dict_set_nonempty.
Qed.

Lemma ensure_cfg_truthy cfg st st' :
  ensure_cfg cfg st = Ret st' → truthy (fst st) = true → truthy (fst st') = true.
Proof.
  unfold ensure_cfg. destruct cfg; [|by intros [= <-]].
  destruct (py_in "cfg" (fst st)) as [[|]|e]; simpl; try done.
  - by intros [= <-].
  - destruct (_cfg (fst st)) as [res'|e] eqn:Hcfg; [|done]. simpl.
    intros [= <-] _. by apply cfg_truthy in Hcfg.
Qed.

Lemma ensure_capa_truthy capa file verbose st w w' st' :
  ensure_capa capa_analyze capa file verbose st w = (w', Ret st') →
  truthy (fst st) = true → truthy (fst st') = true.
Proof.
  unfold ensure_capa. destruct capa; [|by intros [= <- <-]].
  unfold bindM, lift.
  destruct (py_in "capa" (fst st)) as [[|]|e]; try done.
  - by intros [= <- <-].
  - destruct (run_capa capa_analyze (fst st) file verbose w) as [w1 [tags|e]];
      [|done].
    destruct (py_setitem (fst st) "capa" tags) as [res'|e] eqn:Hset; [|done].
    intros [= <- <-] _. destruct (fst st); try discriminate Hset.
    simpl in Hset. injection Hset as <-. simpl.
    rewrite bool_decide_eq_false_2; [done|]. apply dict_set_nonempty.
Qed.

(** How the second block can end: with the cache path or the record and
    the log it was entered with, or in its handler. *)
Lemma read_and_augment_ends file js_file t cleanup_flag cfg no_result capa
    verbose log w :
  let r := read_and_augment capa_analyze file js_file t cleanup_flag cfg
             no_result capa verbose log w in
  (∃ res, truthy res = true ∧
          snd r = Ret (if no_result then RPath js_file else RRecord res, log)) ∨
  (∃ e, snd r = if 1 <? verbose then Raise e
                else Ret (RNone, log ++ ["Failed " +:+ file +:+ " msg: " +:+ str_exn e])).
Proof.
  cbv zeta. unfold read_and_augment, try_finally.
  match goal with |- context [try_except ?b ?h w] =>
    assert (Hbody :
      (∃ res, truthy res = true ∧
              snd (try_except b h w)
              = Ret (if no_result then RPath js_file else RRecord res, log)) ∨
      (∃ e, snd (try_except b h w)
            = if 1 <? verbose then Raise e
              else Ret (RNone, log ++ ["Failed " +:+ file +:+ " msg: " +:+ str_exn e])))
  end.
  { assert (Hhandler : ∀ e w0,
      snd ((let log0 := log ++ ["Failed " +:+ file +:+ " msg: " +:+ str_exn e] in
            if 1 <? verbose then bindM (print log0) (fun _ => @raise world _ e)
            else retM (RNone, log0)) w0)
      = if 1 <? verbose then Raise e
        else Ret (RNone, log ++ ["Failed " +:+ file +:+ " msg: " +:+ str_exn e])).
    { intros e w0. cbv zeta. by destruct (1 <? verbose). }
    match goal with |- context [try_except ?b ?h w] =>
      remember (try_except b h w) as R eqn:HR end.
    unfold try_except, bindM in HR.
    destruct (read_gz_js js_file w) as [w1 [res0|e]];
      [|right; exists e; rewrite HR; apply Hhandler].
    destruct (lift (ensure_f_type t res0) w1) as [w2 [st|e]] eqn:Hft;
      [|right; exists e; rewrite HR; apply Hhandler].
    destruct (lift (ensure_cfg cfg st) w2) as [w3 [st'|e]] eqn:Hcfg;
      [|right; exists e; rewrite HR; apply Hhandler].
    destruct (ensure_capa capa_analyze capa file verbose st' w3)
      as [w4 [st''|e]] eqn:Hcapa;
      [|right; exists e; rewrite HR; apply Hhandler].
    destruct ((if snd st'' then gz_write js_file (fst st'') else retM ()) w4)
      as [w5 [[]|e]]; [|right; exists e; rewrite HR; apply Hhandler].
    left. exists (fst st''). unfold lift in Hft, Hcfg.
    injection Hft as <- Hft. injection Hcfg as <- Hcfg.
    apply ensure_f_type_truthy in Hft.
    apply (ensure_cfg_truthy _ _ _ Hcfg) in Hft.
    apply (ensure_capa_truthy _ _ _ _ _ _ _ Hcapa) in Hft.
    split; [exact Hft|].
    rewrite HR. destruct no_result; unfold retM; cbn [snd]; by rewrite ?Hft. }
  match goal with |- context [try_except ?b ?h w] =>
    destruct (try_except b h w) as [w1 o] end.
  destruct (cleanup_finally cleanup_flag file w1) as [fs' ->].
  exact Hbody.
Qed.

(** The tagging step leaves the files alone. *)
Lemma ensure_capa_fs capa file verbose st w w' o :
  ensure_capa capa_analyze capa file verbose st w = (w', o) → w_fs w' = w_fs w.
Proof.
  intros H. unfold ensure_capa in H. destruct capa; [|by injection H as <- _].
  unfold run_capa, bindM, lift, emit, retM in H.
  destruct (py_in "capa" (fst st)) as [[|]|e]; try (by injection H as <- _).
  cbn [w_fs w_trace] in H.
  destruct (capa_analyze (fst st) file verbose (w_fs w)) as [tags|e];
    [|by injection H as <- _].
  destruct (py_setitem (fst st) "capa" tags); by injection H as <- _.
Qed.

(** When the workspace block returns, it returns [None] from its handler:
    the log is the old log with the error message, and [verbose <= 1]. *)
Lemma workspace_return file js_file t ext decompile verbose log w w' r :
  workspace _process file js_file t ext decompile verbose log w
  = (w', Ret (Return r)) →
  verbose ≤ 1 ∧ ∃ e, r = (RNone, log ++ [str_exn e]).
Proof.
  unfold workspace, try_finally. intros Hws.
  match type of Hws with context [try_except ?b ?h w] =>
    assert (Hbody : match try_except b h w with
                    | (_, Ret (Return r0)) =>
                        verbose ≤ 1 ∧ ∃ e, r0 = (RNone, log ++ [str_exn e])
                    | _ => True
                    end) end.
  { assert (Hhandler : ∀ e w0,
      match (let log0 := log ++ [str_exn e] in
             if 1 <? verbose then @raise world flow e
             else retM (Return (RNone, log0))) w0 with
      | (_, Ret (Return r0)) =>
          verbose ≤ 1 ∧ ∃ e, r0 = (RNone, log ++ [str_exn e])
      | _ => True
      end).
    { intros e w0. cbv zeta. destruct (1 <? verbose) eqn:Hv; [done|].
      apply Z.ltb_ge in Hv. unfold retM. eauto. }
    unfold try_except, bindM.
    destruct (os_mkdir _ w) as [w1 [[]|e]]; [|apply Hhandler].
    destruct (copyfile file _ w1) as [w2 [[]|e]]; [|apply Hhandler].
    destruct (run_process _ _ _ _ _ w2) as [w3 [out_log|e]]; [|apply Hhandler].
    destruct (copyfile _ js_file w3) as [w4 [[]|e]]; [|apply Hhandler].
    done. }
  match type of Hws with context [try_except ?b ?h w] =>
    destruct (try_except b h w) as [w0 [[l|r0]|e]] end;
    destruct (rmtree _ w0) as [w1 [[]|e1]]; try discriminate Hws.
  by injection Hws as _ <-.
Qed.

(** A record that goes through the three augmentation steps is handed
    back, or the cache path in its place, with the log the block was
    entered with. *)
Lemma read_and_augment_success file js_file t cleanup_flag cfg no_result capa
    verbose log w res0 st1 st2 st3 w3 :
  w_fs w !! js_file = Some (File (GzJson res0)) →
  ensure_f_type t res0 = Ret st1 →
  ensure_cfg cfg st1 = Ret st2 →
  ensure_capa capa_analyze capa file verbose st2 w = (w3, Ret st3) →
  snd (read_and_augment capa_analyze file js_file t cleanup_flag cfg no_result
         capa verbose log w)
  = Ret (if no_result then RPath js_file else RRecord (fst st3), log).
Proof.
  intros Hfile Hft Hcfg Hcapa.
  assert (Htruthy : truthy (fst st3) = true).
  { apply (ensure_capa_truthy _ _ _ _ _ _ _ Hcapa).
    apply (ensure_cfg_truthy _ _ _ Hcfg).
    by apply (ensure_f_type_truthy _ _ _ Hft). }
  unfold read_and_augment, try_finally.
  match goal with |- context [try_except ?b ?h w] =>
    assert (Hbody : ∃ w4, try_except b h w
      = (w4, Ret (if no_result then RPath js_file else RRecord (fst st3), log)))
  end.
  { unfold try_except, bindM at 1, read_gz_js. rewrite Hfile.
    unfold bindM at 1, lift. rewrite Hft.
    unfold bindM at 1. rewrite Hcfg.
    unfold bindM at 1. rewrite Hcapa.
    unfold bindM at 1.
    assert (Hfile3 : w_fs w3 !! js_file = Some (File (GzJson res0))).
    { by rewrite (ensure_capa_fs _ _ _ _ _ _ _ Hcapa). }
    destruct (snd st3).
    - rewrite (gz_write_file js_file _ w3 _ Hfile3).
      unfold retM. rewrite Htruthy. eexists. by destruct no_result.
    - unfold retM. rewrite Htruthy. eexists. by destruct no_result. }
  destruct Hbody as [w4 ->].
  by destruct (cleanup_finally cleanup_flag file w4) as [fs' ->].
Qed.

(** X5. What [disassemble] hands back first follows [no_result]. A path
    is handed back only with [no_result], and it is the cache path
    [file + suffix + ".asm.json.gz"]; a record only without it, and it is
    never a false value; [None] only from one of the two handlers, at
    [verbose <= 1], with the error message as the last log entry. And the
    [else None] of line 87 is never taken: when the record in the cache
    file goes through the three augmentation steps, the call hands back
    the cache path, or the record those steps produced; this on a cache
    hit, with the one-line log, and after a cache miss whose workspace
    block went through, with the empty log. *)
Theorem result_follows_no_result
    (file : string) (decompile cleanup_flag cfg no_result : bool)
    (file_type : option string) (capa : bool) (verbose : Z)
    (additional_ext : string) (w : world) :
  let js_file := file +:+ additional_ext +:+ ".asm.json.gz" in
  let hit := "directly reading the generated json file" in
  let r := disassemble get_file_type _process capa_analyze file decompile
             cleanup_flag cfg no_result file_type capa verbose additional_ext w in
  (∀ res log, snd r = Ret (res, log) →
     match res with
     | RNone =>
         verbose ≤ 1 ∧
         ∃ e, (path_exists (w_fs w) js_file = false ∧ log = [str_exn e]) ∨
              log = (if path_exists (w_fs w) js_file then [hit] else [])
                    ++ ["Failed " +:+ file +:+ " msg: " +:+ str_exn e]
     | RPath p => no_result = true ∧ p = js_file
     | RRecord rec => no_result = false ∧ truthy rec = true
     end) ∧
  (∀ t res0 st1 st2 st3 w3,
     resolve_file_type get_file_type file_type file (w_fs w) = Ret t →
     w_fs w !! js_file = Some (File (GzJson res0)) →
     ensure_f_type t res0 = Ret st1 →
     ensure_cfg cfg st1 = Ret st2 →
     ensure_capa capa_analyze capa file verbose st2 w = (w3, Ret st3) →
     snd r = Ret (if no_result then RPath js_file else RRecord (fst st3), [hit])) ∧
  (∀ t w1 log1 res0 st1 st2 st3 w3,
     resolve_file_type get_file_type file_type file (w_fs w) = Ret t →
     path_exists (w_fs w) js_file = false →
     workspace _process file js_file t additional_ext decompile verbose [] w
     = (w1, Ret (Continue log1)) →
     w_fs w1 !! js_file = Some (File (GzJson res0)) →
     ensure_f_type t res0 = Ret st1 →
     ensure_cfg cfg st1 = Ret st2 →
     ensure_capa capa_analyze capa file verbose st2 w1 = (w3, Ret st3) →
     snd r = Ret (if no_result then RPath js_file else RRecord (fst st3), [])).
Proof.
  intros js_file hit r. split; [|split].
  - intros res log Hret.
    assert (Hsecond : ∀ log0 w0 t,
      snd (read_and_augment capa_analyze file js_file t cleanup_flag cfg
             no_result capa verbose log0 w0) = Ret (res, log) →
      match res with
      | RNone =>
          verbose ≤ 1 ∧
          ∃ e, log = log0 ++ ["Failed " +:+ file +:+ " msg: " +:+ str_exn e]
      | RPath p => no_result = true ∧ p = js_file
      | RRecord rec => no_result = false ∧ truthy rec = true
      end).
    { intros log0 w0 t Hr.
      destruct (read_and_augment_ends file js_file t cleanup_flag cfg no_result
                  capa verbose log0 w0) as [(res0 & Htruthy & Hok)|[e Hfail]].
      - rewrite Hok in Hr. destruct no_result; by injection Hr as <- _.
      - rewrite Hfail in Hr. destruct (1 <? verbose) eqn:Hv; [done|].
        apply Z.ltb_ge in Hv. injection Hr as <- <-. eauto. }
    unfold r, disassemble, bindM, os_path_exists in Hret. fold js_file in Hret.
    destruct (resolve_file_type _ _ _ _) as [t|e]; [|done].
    destruct (path_exists (w_fs w) js_file) eqn:Hhit.
    + unfold retM in Hret. cbv beta iota in Hret.
      apply Hsecond in Hret. destruct res; [|done|done].
      destruct Hret as (Hv & e & ->). split; [done|]. exists e. by right.
    + pose proof (workspace_outcome _process file additional_ext t decompile
                    verbose [] w) as Hws.
      fold js_file in Hws.
      destruct (workspace _ _ _ _ _ _ _ _ w) as [w1 [[log1|r1]|e]] eqn:Hrun.
      * destruct Hws as [-> _]. cbv beta iota in Hret.
        apply Hsecond in Hret. destruct res; [|done|done].
        destruct Hret as (Hv & e & ->). split; [done|]. exists e. by right.
      * apply workspace_return in Hrun as (Hv & e & ->).
        unfold retM in Hret. cbn [snd] in Hret. injection Hret as <- <-.
        split; [done|]. exists e. by left.
      * discriminate Hret.
  - intros t res0 st1 st2 st3 w3 Ht Hfile Hft Hcfg Hcapa.
    assert (Hexists : path_exists (w_fs w) js_file = true).
    { unfold path_exists. rewrite Hfile. by apply bool_decide_eq_true_2. }
    unfold r. rewrite disassemble_on_hit by exact Hexists. rewrite Ht.
    fold js_file. by eapply read_and_augment_success.
  - intros t w1 log1 res0 st1 st2 st3 w3 Ht Hmiss Hws Hfile Hft Hcfg Hcapa.
    pose proof (workspace_outcome _process file additional_ext t decompile
                  verbose [] w) as Hlog.
    fold js_file in Hlog. rewrite Hws in Hlog. destruct Hlog as [-> _].
    unfold r, disassemble, bindM, os_path_exists. fold js_file.
    rewrite Ht, Hmiss, Hws. cbn [app].
    by eapply read_and_augment_success.
Qed.

(** X6. On a cache hit that hands back a result, the log is the single
    line that reports the hit. *)
Theorem hit_log_is_one_line
    (file : string) (decompile cleanup_flag cfg no_result : bool)
    (file_type : option string) (capa : bool) (verbose : Z)
    (additional_ext : string) (w : world) (res : result) (log : list string) :
  path_exists (w_fs w) (file +:+ additional_ext +:+ ".asm.json.gz") = true →
  snd (disassemble get_file_type _process capa_analyze file decompile
         cleanup_flag cfg no_result file_type capa verbose additional_ext w)
  = Ret (res, log) →
  res ≠ RNone →
  log = ["directly reading the generated json file"].
Proof.
  intros Hhit Hret Hres. rewrite disassemble_on_hit in Hret by done.
  destruct (resolve_file_type _ _ _ _) as [t|e]; [|done].
  by apply (read_and_augment_log capa_analyze) in Hret.
Qed.

(** X7. On a cache hit with a known file type and [verbose <= 1] the call
    never raises: it hands back the path or the record with the one-line
    log, or [None] with a second line ["Failed <file> msg: <error>"]. *)
Theorem hit_never_raises
    (file : string) (decompile cleanup_flag cfg no_result : bool)
    (file_type : option string) (capa : bool) (verbose : Z)
    (additional_ext : string) (w : world) (t : string) :
  let hit := "directly reading the generated json file" in
  let r := disassemble get_file_type _process capa_analyze file decompile
             cleanup_flag cfg no_result file_type capa verbose additional_ext w in
  resolve_file_type get_file_type file_type file (w_fs w) = Ret t →
  path_exists (w_fs w) (file +:+ additional_ext +:+ ".asm.json.gz") = true →
  verbose ≤ 1 →
  (∃ res, snd r = Ret (res, [hit]) ∧ res ≠ RNone) ∨
  (∃ e, snd r = Ret (RNone, [hit; "Failed " +:+ file +:+ " msg: " +:+ str_exn e])).
Proof.
  cbv zeta. intros Ht Hhit Hv. apply Z.ltb_ge in Hv.
  rewrite disassemble_on_hit by done. rewrite Ht.
  destruct (read_and_augment_ends file (file +:+ additional_ext +:+ ".asm.json.gz")
              t cleanup_flag cfg no_result capa verbose
              ["directly reading the generated json file"] w)
    as [(res & _ & Hok)|[e Hfail]].
  - left. eexists. split; [exact Hok|]. by destruct no_result.
  - right. exists e. by rewrite Hfail, Hv.
Qed.

(** X8. File-type sniffing is outside both [try] blocks: when no file type
    is given and the sniffer raises, the exception leaves [disassemble] at
    every verbosity and nothing else happens (no cleanup, no backend call);
    when a non-empty file type is given, the sniffer is not consulted. *)
Theorem sniffing_is_unguarded
    (file : string) (decompile cleanup_flag cfg no_result : bool)
    (file_type : option string) (capa : bool) (verbose : Z)
    (additional_ext : string) (w : world) :
  (∀ e, given file_type = None → get_file_type file (w_fs w) = Raise e →
        disassemble get_file_type _process capa_analyze file decompile
          cleanup_flag cfg no_result file_type capa verbose additional_ext w
        = (w, Raise e)) ∧
  (∀ t other_sniffer, given file_type = Some t →
        disassemble other_sniffer _process capa_analyze file decompile
          cleanup_flag cfg no_result file_type capa verbose additional_ext w
        = disassemble get_file_type _process capa_analyze file decompile
            cleanup_flag cfg no_result file_type capa verbose additional_ext w).
Proof.
  split.
  - intros e Hgiven Hsniff. unfold disassemble, bindM, resolve_file_type.
    by rewrite Hgiven, Hsniff.
  - intros t other Hgiven. unfold disassemble, bindM, resolve_file_type.
    by rewrite Hgiven.
Qed.

End SecondBlock.

Lemma result_follows_no_result_witness :
  snd (disassemble sniff backend_ok no_capa "a.bin" false false true true None
         false (-1) "" (world_with unsettled_record))
  = Ret (RPath ("a.bin" +:+ "" +:+ ".asm.json.gz"),
         ["directly reading the generated json file"]).
Proof.
  destruct (result_follows_no_result sniff backend_ok no_capa "a.bin" false
              false true true None false (-1) "" (world_with unsettled_record))
    as (_ & Hhit & _).
  apply (Hhit "elf" unsettled_record (unsettled_record, false)
              (settled_record, true) (settled_record, true)
              (world_with unsettled_record)); reflexivity.
Defined.

Lemma hit_log_is_one_line_witness :
  ["directly reading the generated json file"]
  = ["directly reading the generated json file"].
Proof.
  apply (hit_log_is_one_line sniff backend_ok no_capa "a.bin" false false false
           false None false (-1) "" world_cached (RRecord cached_record)).
  - reflexivity.
  - vm_compute. reflexivity.
  - discriminate.
Defined.

Lemma hit_never_raises_witness :
  let r := disassemble sniff backend_ok no_capa "a.bin" false false false false
             None false (-1) "" (world_with bare_record) in
  (∃ res, snd r = Ret (res, ["directly reading the generated json file"]) ∧
          res ≠ RNone) ∨
  (∃ e, snd r = Ret (RNone, ["directly reading the generated json file";
                             "Failed " +:+ "a.bin" +:+ " msg: " +:+ str_exn e])).
Proof.
  apply (hit_never_raises sniff backend_ok no_capa "a.bin" false false false
           false None false (-1) "" (world_with bare_record) "elf").
  - reflexivity.
  - reflexivity.
  - lia.
Defined.

Section FirstBlock.

Variable get_file_type : string → gmap string node → outcome string.
Variable _process :
  string → string → string → bool → gmap string node →
  gmap string node * outcome (list string).
Variable capa_analyze : json → string → Z → gmap string node → outcome json.

(** X9. A workspace directory that is already there is not respected: on
    a cache miss the call does not invoke the backend, removes that
    directory with everything below it, and hands back [None] with the
    [FileExistsError] message (at [verbose > 1] it raises the error). *)
Theorem stale_workspace_is_removed
    (file : string) (decompile cleanup_flag cfg no_result : bool)
    (file_type : option string) (capa : bool) (verbose : Z)
    (additional_ext : string) (w : world) (t : string) :
  let tmp_folder := file +:+ additional_ext +:+ ".tmp" in
  resolve_file_type get_file_type file_type file (w_fs w) = Ret t →
  path_exists (w_fs w) (file +:+ additional_ext +:+ ".asm.json.gz") = false →
  w_fs w !! tmp_folder = Some Dir →
  disassemble get_file_type _process capa_analyze file decompile cleanup_flag
    cfg no_result file_type capa verbose additional_ext w
  = (World (remove_tree (w_fs w) tmp_folder) (w_trace w),
     if 1 <? verbose then Raise (FileExistsError tmp_folder)
     else Ret (RNone, [str_exn (FileExistsError tmp_folder)])).
Proof.
  intros tmp_folder Ht Hmiss Htmp.
  unfold disassemble, bindM at 1 2 3, os_path_exists. rewrite Ht, Hmiss.
  unfold workspace, try_finally, try_except, bindM at 1.
  fold tmp_folder. unfold os_mkdir, fs_op at 1, mkdir. rewrite Htmp.
  cbv zeta. unfold rmtree, fs_op, rmtree_fs.
  destruct (1 <? verbose); unfold raise, retM; cbn [w_fs w_trace];
    by rewrite Htmp.
Qed.

(** When the workspace block ends without raising, the workspace path and
    everything below it are gone. *)
Lemma workspace_is_removed file js_file t ext decompile verbose log w w1 fl p :
  workspace _process file js_file t ext decompile verbose log w = (w1, Ret fl) →
  p = file +:+ ext +:+ ".tmp" ∨ below (file +:+ ext +:+ ".tmp") p = true →
  w_fs w1 !! p = None.
Proof.
  unfold workspace, try_finally. intros Hws Hp.
  match type of Hws with context [try_except ?b ?h w] =>
    destruct (try_except b h w) as [w0 r] end.
  unfold rmtree, fs_op, rmtree_fs in Hws.
  destruct (w_fs w0 !! (file +:+ ext +:+ ".tmp")) as [[c|]|]; try done.
  injection Hws as <- _. cbn [w_fs]. unfold remove_tree.
  apply map_lookup_filter_None. destruct Hp as [->|Hbelow].
  - left. apply lookup_delete_eq.
  - right. intros x _. cbn [fst]. by rewrite Hbelow.
Qed.

(** X10. The workspace never outlives a call that returns: after a cache
    miss, whatever the call hands back, neither the workspace path
    [file + suffix + ".tmp"] nor anything below it exists. *)
Theorem workspace_never_outlives_call
    (file : string) (decompile cleanup_flag cfg no_result : bool)
    (file_type : option string) (capa : bool) (verbose : Z)
    (additional_ext : string) (w : world) (x : result * list string)
    (p : string) :
  let tmp_folder := file +:+ additional_ext +:+ ".tmp" in
  let r := disassemble get_file_type _process capa_analyze file decompile
             cleanup_flag cfg no_result file_type capa verbose additional_ext w in
  path_exists (w_fs w) (file +:+ additional_ext +:+ ".asm.json.gz") = false →
  snd r = Ret x →
  p = tmp_folder ∨ below tmp_folder p = true →
  w_fs (fst r) !! p = None.
Proof.
  cbv zeta. intros Hmiss Hret Hp.
  unfold disassemble, bindM, os_path_exists in *.
  destruct (resolve_file_type _ _ _ _) as [t|e]; [|done].
  rewrite Hmiss in *.
  destruct (workspace _ _ _ _ _ _ _ _ w) as [w1 [fl|e]] eqn:Hws; [|done].
  pose proof (workspace_is_removed _ _ _ _ _ _ _ _ _ _ p Hws Hp) as Hgone.
  destruct fl as [log1|r1]; [|done].
  apply (preserves_read_and_augment capa_analyze
           (fun w' => w_fs w' !! p = None)); [done| | |done].
  - intros w' res Hw'. cbn [w_fs]. rewrite lookup_insert_ne; [done|].
    intros <-. destruct Hp as [Heq|Hbelow].
    + by apply cache_path_ne_workspace in Heq.
    + by rewrite cache_path_not_below_workspace in Hbelow.
  - intros w' Hw'. cbn [w_fs]. apply lookup_delete_None. by right.
Qed.

End FirstBlock.

Lemma sniffing_is_unguarded_witness :
  disassemble (fun _ _ => Raise (Exn "OSError" "cannot sniff")) backend_ok
    no_capa "a.bin" false true false false None false (-1) "" world_cached
  = (world_cached, Raise (Exn "OSError" "cannot sniff")) ∧
  disassemble (fun _ _ => Raise (Exn "OSError" "cannot sniff")) backend_ok
    no_capa "a.bin" false true false false (Some "pe") false (-1) "" world_cached
  = disassemble sniff backend_ok no_capa "a.bin" false true false false
      (Some "pe") false (-1) "" world_cached.
Proof.
  split.
  - apply (sniffing_is_unguarded
             (fun _ _ => Raise (Exn "OSError" "cannot sniff")) backend_ok no_capa
             "a.bin" false true false false None false (-1) "" world_cached);
      reflexivity.
  - apply (sniffing_is_unguarded sniff backend_ok no_capa "a.bin" false true
             false false (Some "pe") false (-1) "" world_cached) with (t := "pe").
    reflexivity.
Defined.

Lemma stale_workspace_is_removed_witness :
  let r := disassemble sniff backend_ok no_capa "a.bin" false false false false
             None false (-1) "" world_stale in
  r = (World (remove_tree (w_fs world_stale) ("a.bin" +:+ "" +:+ ".tmp")) [],
       Ret (RNone, [str_exn (FileExistsError ("a.bin" +:+ "" +:+ ".tmp"))])) ∧
  w_fs (fst r) !! "a.bin.tmp/a.bin" = None.
Proof.
  split.
  - apply (stale_workspace_is_removed sniff backend_ok no_capa "a.bin" false
             false false false None false (-1) "" world_stale "elf");
      reflexivity.
  - vm_compute. reflexivity.
Defined.

Lemma workspace_never_outlives_call_witness :
  w_fs (fst (disassemble sniff backend_ok no_capa "a.bin" false false false
               false None false (-1) "" world_fresh))
  !! "a.bin.tmp/a.bin" = None.
Proof.
  apply (workspace_never_outlives_call sniff backend_ok no_capa "a.bin" false
           false false false None false (-1) "" world_fresh
           (RRecord processed_record, [])).
  - reflexivity.
  - vm_compute. reflexivity.
  - right. reflexivity.
Defined.

Lemma backend_failure_is_logged_witness :
  disassemble sniff backend_crash no_capa "a.bin" false false false false
    None false (-1) "" world_fresh
  = (World (remove_tree
              (<["a.bin.tmp/a.bin" := File (Bytes "MZ")]>
                 (<["a.bin.tmp" := Dir]> (w_fs world_fresh)))
              "a.bin.tmp")
           [EvProcess "a.bin.tmp/a.bin" "elf" "a.bin.tmp/a.bin.asm.json.gz"
              false],
     Ret (RNone, ["backend crashed"])).
Proof.
  apply (backend_failure_is_logged sniff backend_crash no_capa "a.bin" false
           false false false None "elf" false (-1) "" world_fresh
           (<["a.bin.tmp" := Dir]> (w_fs world_fresh))
           (<["a.bin.tmp/a.bin" := File (Bytes "MZ")]>
              (<["a.bin.tmp" := Dir]> (w_fs world_fresh)))
           (<["a.bin.tmp/a.bin" := File (Bytes "MZ")]>
              (<["a.bin.tmp" := Dir]> (w_fs world_fresh)))
           (Exn "RuntimeError" "backend crashed")).
  - reflexivity.
  - reflexivity.
  - reflexivity.
  - reflexivity.
  - reflexivity.
  - reflexivity.
Defined.

Section CachedRecords.

Variable get_file_type : string → gmap string node → outcome string.
Variable _process :
  string → string → string → bool → gmap string node →
  gmap string node * outcome (list string).
Variable capa_analyze : json → string → Z → gmap string node → outcome json.

(** X12. A cached record that has neither a top-level ['f_type'] nor a
    ['bin'] entry cannot be augmented: at [verbose <= 1] and without
    cleanup the call hands back [None] with the [KeyError] of ['bin'] in
    its log and leaves the world, the cache file included, as it was. *)
Theorem record_without_bin_is_refused
    (file : string) (decompile cfg no_result : bool)
    (file_type : option string) (capa : bool) (verbose : Z)
    (additional_ext : string) (w : world) (t : string)
    (kv : list (string * json)) :
  let js_file := file +:+ additional_ext +:+ ".asm.json.gz" in
  resolve_file_type get_file_type file_type file (w_fs w) = Ret t →
  w_fs w !! js_file = Some (File (GzJson (JObj kv))) →
  dict_get "f_type" kv = None →
  dict_get "bin" kv = None →
  verbose ≤ 1 →
  disassemble get_file_type _process capa_analyze file decompile false cfg
    no_result file_type capa verbose additional_ext w
  = (w, Ret (RNone, ["directly reading the generated json file";
                     "Failed " +:+ file +:+ " msg: 'bin'"])).
Proof.
  intros js_file Ht Hfile Htop Hbin Hv. apply Z.ltb_ge in Hv.
  assert (Hexists : path_exists (w_fs w) js_file = true).
  { unfold path_exists. rewrite Hfile. by apply bool_decide_eq_true_2. }
  rewrite disassemble_on_hit by exact Hexists. rewrite Ht. fold js_file.
  unfold read_and_augment, try_finally, try_except, bindM at 1, read_gz_js.
  rewrite Hfile. unfold bindM at 1, lift, ensure_f_type. simpl py_in.
  rewrite Htop. simpl. rewrite Hbin. simpl. rewrite Hv.
  unfold retM. by destruct w.
Qed.

(** A record with a top-level ['f_type'] key that has what the flags ask
    for goes through the second block untouched. *)
Lemma settled_record_is_read file js_file t cfg no_result capa verbose log w kv :
  w_fs w !! js_file = Some (File (GzJson (JObj kv))) →
  is_Some (dict_get "f_type" kv) →
  (cfg = true → is_Some (dict_get "cfg" kv)) →
  (capa = true → is_Some (dict_get "capa" kv)) →
  read_and_augment capa_analyze file js_file t false cfg no_result capa
    verbose log w
  = (w, Ret (if no_result then RPath js_file else RRecord (JObj kv), log)).
Proof.
  intros Hfile Htop Hcfg Hcapa.
  unfold read_and_augment, try_finally, try_except, bindM at 1, read_gz_js.
  rewrite Hfile. unfold bindM at 1, lift, ensure_f_type. simpl py_in.
  rewrite bool_decide_eq_true_2 by done. simpl.
  unfold bindM at 1. rewrite ensure_cfg_present by done.
  unfold bindM at 1. rewrite ensure_capa_present by done.
  unfold bindM at 1. cbn [fst snd]. unfold retM.
  destruct Htop as [v Hv]. destruct kv as [|kv0 kv]; [done|].
  simpl. destruct w. by destruct no_result.
Qed.

(** X13. The call is a pure cache read exactly in this case: when the
    cached record has a top-level ['f_type'] key, and ['cfg'] and ['capa']
    where they are asked for, a call without cleanup changes nothing (no
    write, no backend or tagging call) and hands back the path or the
    record as stored, with the one-line log. *)
Theorem settled_record_is_pure_read
    (file : string) (decompile cfg no_result : bool)
    (file_type : option string) (capa : bool) (verbose : Z)
    (additional_ext : string) (w : world) (t : string)
    (kv : list (string * json)) :
  let js_file := file +:+ additional_ext +:+ ".asm.json.gz" in
  resolve_file_type get_file_type file_type file (w_fs w) = Ret t →
  w_fs w !! js_file = Some (File (GzJson (JObj kv))) →
  is_Some (dict_get "f_type" kv) →
  (cfg = true → is_Some (dict_get "cfg" kv)) →
  (capa = true → is_Some (dict_get "capa" kv)) →
  disassemble get_file_type _process capa_analyze file decompile false cfg
    no_result file_type capa verbose additional_ext w
  = (w, Ret (if no_result then RPath js_file else RRecord (JObj kv),
             ["directly reading the generated json file"])).
Proof.
  intros js_file Ht Hfile Htop Hcfg Hcapa.
  assert (Hexists : path_exists (w_fs w) js_file = true).
  { unfold path_exists. rewrite Hfile. by apply bool_decide_eq_true_2. }
  rewrite disassemble_on_hit by exact Hexists. rewrite Ht. fold js_file.
  by apply settled_record_is_read.
Qed.

(** X14. A CFG that is asked for and missing is derived once and
    persisted. The call writes the record with its ['cfg'] entry, the
    edges as two-element arrays, to the cache file, changes nothing else,
    and hands back the path or a record with the one-line log. The same
    call repeated on the world it leaves is a pure read: it writes nothing
    and hands back exactly the record the file holds. (The record the
    first call hands back holds the edges as the pairs [_cfg] built; only
    what is stored and read again is compared here.) *)
Theorem derived_cfg_is_persisted
    (file : string) (decompile no_result : bool)
    (file_type : option string) (verbose : Z)
    (additional_ext : string) (w : world) (t t' : string)
    (kv : list (string * json)) (res' : json) :
  let js_file := file +:+ additional_ext +:+ ".asm.json.gz" in
  let call := disassemble get_file_type _process capa_analyze file decompile
                false true no_result file_type false verbose additional_ext in
  let hit := ["directly reading the generated json file"] in
  let w' := World (<[js_file := File (GzJson res')]> (w_fs w))
                  (w_trace w ++ [EvGzWrite js_file res']) in
  resolve_file_type get_file_type file_type file (w_fs w) = Ret t →
  resolve_file_type get_file_type file_type file (w_fs w') = Ret t' →
  w_fs w !! js_file = Some (File (GzJson (JObj kv))) →
  is_Some (dict_get "f_type" kv) →
  dict_get "cfg" kv = None →
  _cfg (JObj kv) = Ret res' →
  fst (call w) = w' ∧
  (∃ rec, snd (call w)
          = Ret (if no_result then RPath js_file else RRecord rec, hit)) ∧
  call w' = (w', Ret (if no_result then RPath js_file else RRecord res', hit)).
Proof.
  intros js_file call hit w' Ht Ht' Hfile Htop Hnocfg Hcfg.
  assert (Hres' : ∃ es, res' = JObj (dict_set "cfg" (JArr (map edge_json es)) kv)).
  { unfold _cfg in Hcfg. destruct (adj_sp (JObj kv)) as [es|e]; [|done].
    simpl in Hcfg. injection Hcfg as <-. by exists es. }
  destruct Hres' as [es ->].
  assert (Hfirst : call w
    = (w', Ret (if no_result then RPath js_file
                else RRecord (JObj (dict_set "cfg" (JArr (map edge_json es)) kv)),
                hit))).
  { assert (Hexists : path_exists (w_fs w) js_file = true).
    { unfold path_exists. rewrite Hfile. by apply bool_decide_eq_true_2. }
    unfold call. rewrite disassemble_on_hit by exact Hexists. rewrite Ht.
    fold js_file.
    unfold read_and_augment, try_finally, try_except, bindM at 1, read_gz_js.
    rewrite Hfile. unfold bindM at 1, lift, ensure_f_type. simpl py_in.
    rewrite bool_decide_eq_true_2 by done. simpl.
    unfold bindM at 1, ensure_cfg. cbn [fst]. simpl py_in.
    rewrite Hnocfg. rewrite bool_decide_eq_false_2 by (by intros [? ?]).
    simpl. rewrite Hcfg. simpl.
    unfold bindM at 1, ensure_capa, retM. unfold bindM at 1. cbn [fst snd].
    rewrite (gz_write_file js_file _ w _ Hfile).
    unfold truthy. rewrite bool_decide_eq_false_2 by apply dict_set_nonempty.
    unfold hit, w'. by destruct no_result. }
  split; [by rewrite Hfirst|]. split; [rewrite Hfirst; by eexists|].
  assert (Hfile' : w_fs w' !! js_file
                   = Some (File (GzJson (JObj (dict_set "cfg"
                             (JArr (map edge_json es)) kv))))).
  { unfold w'. cbn [w_fs]. apply lookup_insert_eq. }
  assert (Hexists : path_exists (w_fs w') js_file = true).
  { unfold path_exists. rewrite Hfile'. by apply bool_decide_eq_true_2. }
  unfold call. rewrite disassemble_on_hit by exact Hexists. rewrite Ht'.
  fold js_file. apply settled_record_is_read.
  - exact Hfile'.
  - rewrite dict_get_set_ne by done. exact Htop.
  - intros _. rewrite dict_get_set_eq. by eexists.
  - intros Hcapa. discriminate Hcapa.
Qed.

End CachedRecords.

Lemma record_without_bin_is_refused_witness :
  disassemble sniff backend_ok no_capa "a.bin" false false false false None
    false (-1) "" (world_with bare_record)
  = (world_with bare_record,
     Ret (RNone, ["directly reading the generated json file";
                  "Failed " +:+ "a.bin" +:+ " msg: 'bin'"])).
Proof.
  apply (record_without_bin_is_refused sniff backend_ok no_capa "a.bin" false
           false false None false (-1) "" (world_with bare_record) "elf"
           [("blocks", JArr [])]).
  - reflexivity.
  - reflexivity.
  - reflexivity.
  - reflexivity.
  - lia.
Defined.

Lemma settled_record_is_pure_read_witness :
  disassemble sniff backend_ok no_capa "a.bin" false false true false None
    false (-1) "" (world_with settled_record)
  = (world_with settled_record,
     Ret (RRecord settled_record, ["directly reading the generated json file"])).
Proof.
  apply (settled_record_is_pure_read sniff backend_ok no_capa "a.bin" false
           true false None false (-1) "" (world_with settled_record) "elf"
           [("f_type", JStr "elf"); ("bin", JObj []);
            ("blocks", JArr (map block_json example_blocks));
            ("cfg", JArr [JArr [JNum 0; JNum 1]])]).
  - reflexivity.
  - reflexivity.
  - by eexists.
  - intros _. by eexists.
  - intros Hcapa. discriminate Hcapa.
Defined.

Lemma derived_cfg_is_persisted_witness :
  let call := disassemble sniff backend_ok no_capa "a.bin" false false true
                false None false (-1) "" in
  let w' := World (<["a.bin" +:+ "" +:+ ".asm.json.gz"
                     := File (GzJson settled_record)]>
                     (w_fs (world_with unsettled_record)))
                  [EvGzWrite ("a.bin" +:+ "" +:+ ".asm.json.gz") settled_record] in
  fst (call (world_with unsettled_record)) = w' ∧
  (∃ rec, snd (call (world_with unsettled_record))
          = Ret (RRecord rec, ["directly reading the generated json file"])) ∧
  call w'
  = (w', Ret (RRecord settled_record,
              ["directly reading the generated json file"])).
Proof.
  apply (derived_cfg_is_persisted sniff backend_ok no_capa "a.bin" false false
           None (-1) "" (world_with unsettled_record) "elf" "elf"
           [("f_type", JStr "elf"); ("bin", JObj []);
            ("blocks", JArr (map block_json example_blocks))]
           settled_record).
  - reflexivity.
  - reflexivity.
  - reflexivity.
  - by eexists.
  - reflexivity.
  - reflexivity.
Defined.

Section CleanupFacts.

Variable get_file_type : string → gmap string node → outcome string.
Variable _process :
  string → string → string → bool → gmap string node →
  gmap string node * outcome (list string).
Variable capa_analyze : json → string → Z → gmap string node → outcome json.

(** What [cleanup] does, by what sits on the cache path. *)
Lemma cleanup_cases file w :
  match w_fs w !! (file +:+ ".asm.json.gz") with
  | Some (File _) =>
      cleanup file w
      = (World (delete (file +:+ ".asm.json.gz") (w_fs w)) (w_trace w), Ret ())
  | Some Dir =>
      cleanup file w = (w, Raise (IsADirectoryError (file +:+ ".asm.json.gz")))
  | None => cleanup file w = (w, Ret ())
  end.
Proof.
  unfold cleanup, bindM, os_path_exists, os_remove, fs_op, remove_fs, path_exists.
  cbv zeta.
  destruct (w_fs w !! (file +:+ ".asm.json.gz")) as [[c|]|] eqn:Hjs;
    cbn [w_fs w_trace].
  - rewrite bool_decide_eq_true_2 by eauto. by rewrite Hjs.
  - rewrite bool_decide_eq_true_2 by eauto. by rewrite Hjs.
  - rewrite bool_decide_eq_false_2 by (by intros [? ?]). done.
Qed.

(** X15. [cleanup] removes the regular file [file + ".asm.json.gz"] and
    touches nothing else: no other path and no event; it raises only when
    that path is a directory; and running it twice is running it once. *)
Theorem cleanup_is_exact_and_idempotent (file : string) (w : world) :
  let js_file := file +:+ ".asm.json.gz" in
  bindM (cleanup file) (fun _ => cleanup file) w = cleanup file w ∧
  w_trace (fst (cleanup file w)) = w_trace w ∧
  (∀ p, p ≠ js_file → w_fs (fst (cleanup file w)) !! p = w_fs w !! p) ∧
  (∀ c, w_fs w !! js_file = Some (File c) →
        snd (cleanup file w) = Ret () ∧ w_fs (fst (cleanup file w)) !! js_file = None) ∧
  (∀ e, snd (cleanup file w) = Raise e → w_fs w !! js_file = Some Dir).
Proof.
  cbv zeta. pose proof (cleanup_cases file w) as Hc.
  destruct (w_fs w !! (file +:+ ".asm.json.gz")) as [[c|]|] eqn:Hjs.
  - unfold bindM. rewrite Hc. cbn [fst snd w_fs w_trace].
    pose proof (cleanup_cases file
      (World (delete (file +:+ ".asm.json.gz") (w_fs w)) (w_trace w))) as Hc2.
    cbn [w_fs w_trace] in Hc2. rewrite lookup_delete_eq in Hc2.
    rewrite Hc2. repeat split; try done.
    + intros p Hp. by rewrite lookup_delete_ne.
    + apply lookup_delete_eq.
  - unfold bindM. rewrite Hc. cbn [fst snd]. repeat split; try done.
  - unfold bindM. rewrite Hc. cbn [fst snd]. rewrite Hc.
    repeat split; try done.
Qed.

(** After the second block has run with [cleanup=True], no regular file
    sits on the path [cleanup] names. *)
Lemma cleanup_runs_last file js_file t cfg no_result capa verbose log w c :
  w_fs (fst (read_and_augment capa_analyze file js_file t true cfg no_result
               capa verbose log w))
  !! (file +:+ ".asm.json.gz") ≠ Some (File c).
Proof.
  unfold read_and_augment, try_finally.
  match goal with |- context [try_except ?b ?h w] =>
    destruct (try_except b h w) as [w1 r] end.
  unfold try_except. pose proof (cleanup_cases file w1) as Hc.
  destruct (w_fs w1 !! (file +:+ ".asm.json.gz")) as [[c1|]|] eqn:Hjs;
    rewrite Hc; unfold retM; cbn [fst w_fs].
  - by rewrite lookup_delete_eq.
  - by rewrite Hjs.
  - by rewrite Hjs.
Qed.

(** X16. Without a suffix, [cleanup=True] does what it says: once the
    file type is known, if the cache file was there before the call or
    the call hands back a result, no regular file is left on the cache
    path [file + ".asm.json.gz"]. *)
Theorem cleanup_removes_unsuffixed_cache
    (file : string) (decompile cfg no_result : bool)
    (file_type : option string) (capa : bool) (verbose : Z)
    (w : world) (t : string) (c : content) :
  let js_file := file +:+ "" +:+ ".asm.json.gz" in
  let r := disassemble get_file_type _process capa_analyze file decompile true
             cfg no_result file_type capa verbose "" w in
  resolve_file_type get_file_type file_type file (w_fs w) = Ret t →
  (path_exists (w_fs w) js_file = true ∨
   ∃ res log, snd r = Ret (res, log) ∧ res ≠ RNone) →
  w_fs (fst r) !! js_file ≠ Some (File c).
Proof.
  cbv zeta. intros Ht Hcases.
  destruct (path_exists (w_fs w) (file +:+ "" +:+ ".asm.json.gz")) eqn:Hbefore.
  - rewrite disassemble_on_hit by exact Hbefore. rewrite Ht.
    apply cleanup_runs_last.
  - destruct Hcases as [Hhit|(res & log & Hret & Hres)]; [done|].
    unfold disassemble, bindM, os_path_exists in *. rewrite Ht in *.
    rewrite Hbefore in *.
    pose proof (workspace_outcome _process file "" t decompile verbose [] w)
      as Hws.
    destruct (workspace _ _ _ _ _ _ _ _ w) as [w1 [[log1|r1]|e]].
    + apply cleanup_runs_last.
    + unfold retM in Hret. cbn [snd] in Hret. injection Hret as ->.
      by cbn [fst] in Hws.
    + discriminate Hret.
Qed.

End CleanupFacts.

Lemma cleanup_removes_unsuffixed_cache_witness :
  w_fs (fst (disassemble sniff backend_ok no_capa "a.bin" false true false
               false None false (-1) "" world_cached))
  !! ("a.bin" +:+ "" +:+ ".asm.json.gz") ≠ Some (File (GzJson cached_record)).
Proof.
  apply (cleanup_removes_unsuffixed_cache sniff backend_ok no_capa "a.bin"
           false false false None false (-1) world_cached "elf").
  - reflexivity.
  - left. reflexivity.
Defined.

Section SequentialBatch.

Variable get_file_type : string → gmap string node → outcome string.
Variable _process :
  string → string → string → bool → gmap string node →
  gmap string node * outcome (list string).
Variable capa_analyze : json → string → Z → gmap string node → outcome json.
Variable grep_ext : string → string → gmap string node → outcome (list string).
Variable m_map :
  (string → M world (result * list string)) → list string →
  M world (list (nat * (result * list string))).



End SequentialBatch.

(* ===================================================================== *)
(** ** Further properties of the resource cache *)
(* ===================================================================== *)

Section Downloads.

Variables (online : bool) (now : Z) (home : string).
Variable lower : string → string.
Variable fn_from_url : option string → outcome string.
Variable last_modified : option string → outcome Z.
Variable download_file :
  option string → string → bool → gmap string rnode → outcome (gmap string rnode).
Variables unpack_archive unzip_with_permission :
  string → string → gmap string rnode → outcome (gmap string rnode).

(** X18. The first download asks the server nothing: when the target file
    is absent, [_download] behaves the same whatever [online] and the
    server's metadata are, and it is settled by what sits on the unpack
    path. Nothing there: [download_file] is run at once. A directory
    there: it is removed with what is below it, then [download_file] is
    run. A regular file there: the call stops with [NotADirectoryError]
    before any transfer. [os.remove] is not called and no update message
    is logged; after the transfer the unpack step follows. *)
Theorem first_download_skips_update_check (d : descriptor) (url : option string)
    (show_progress unpack_if_needed : bool) (home_arg file_arg : option string)
    (name : string) (w : rworld) :
  let folder := join (match home_arg with None => home | Some h => h end)
                     (lower (cls_name d)) in
  let file := join folder name in
  let file_unpack := file +:+ "_unpacked" in
  let run := _download online now home lower fn_from_url last_modified
               download_file unpack_archive unzip_with_permission d url
               show_progress unpack_if_needed home_arg file_arg w in
  let w0 := with_folder now folder w in
  let transfer_and_finish :=
    bindM (rfs_op (download_file url file show_progress))
          (fun _ => unpack_or_file unpack_archive unzip_with_permission d file
                      file_unpack unpack_if_needed) in
  file_name fn_from_url url file_arg = Ret name →
  file ≠ folder →
  r_fs w !! file = None →
  (∀ other_online other_metadata,
     _download other_online now home lower fn_from_url other_metadata
       download_file unpack_archive unzip_with_permission d url show_progress
       unpack_if_needed home_arg file_arg w = run) ∧
  match r_fs w0 !! file_unpack with
  | Some (RFile _) =>
      run = (RWorld (r_fs w0) (r_trace w0 ++ [RvRmtree file_unpack]),
             Raise (NotADirectoryError file_unpack))
  | Some (RDir _) =>
      run = transfer_and_finish
              (RWorld (remove_tree (r_fs w0) file_unpack)
                 (r_trace w0 ++ [RvRmtree file_unpack;
                                 RvDownload url file show_progress]))
  | None =>
      run = transfer_and_finish
              (RWorld (r_fs w0) (r_trace w0 ++ [RvDownload url file show_progress]))
  end.
Proof.
  intros folder file file_unpack run w0 transfer_and_finish Hname Hne Hfile.
  assert (Hfile0 : r_fs w0 !! file = None).
  { unfold w0. by rewrite with_folder_lookup. }
  assert (Hrun : ∀ on lm,
    _download on now home lower fn_from_url lm download_file unpack_archive
      unzip_with_permission d url show_progress unpack_if_needed home_arg
      file_arg w
    = match r_fs w0 !! file_unpack with
      | Some (RFile _) =>
          (RWorld (r_fs w0) (r_trace w0 ++ [RvRmtree file_unpack]),
           Raise (NotADirectoryError file_unpack))
      | Some (RDir _) =>
          transfer_and_finish
            (RWorld (remove_tree (r_fs w0) file_unpack)
               (r_trace w0 ++ [RvRmtree file_unpack;
                               RvDownload url file show_progress]))
      | None =>
          transfer_and_finish
            (RWorld (r_fs w0)
               (r_trace w0 ++ [RvDownload url file show_progress]))
      end).
  { intros on lm.
    exact (download_absent on now home lower fn_from_url lm download_file
             unpack_archive unzip_with_permission d url show_progress
             unpack_if_needed home_arg file_arg name w Hname Hfile0). }
  split.
  { intros on lm. unfold run. by rewrite !Hrun. }
  unfold run. rewrite Hrun.
  by destruct (r_fs w0 !! file_unpack) as [[t|t]|].
Qed.

(** X19. A resource that is already in place is handed back without any
    effect: when folder and file exist, no update check applies
    ([check_update] unset or [online] false) and nothing is left to unpack,
    [_download] leaves the world as it is (no server request, no transfer,
    no extraction) and returns the unpacked directory when unpacking is
    asked for and the file otherwise. *)
Theorem cached_resource_is_untouched (d : descriptor) (url : option string)
    (show_progress unpack_if_needed : bool) (home_arg file_arg : option string)
    (name : string) (w : rworld) :
  let folder := join (match home_arg with None => home | Some h => h end)
                     (lower (cls_name d)) in
  let file := join folder name in
  let file_unpack := file +:+ "_unpacked" in
  file_name fn_from_url url file_arg = Ret name →
  path_exists (r_fs w) folder = true →
  path_exists (r_fs w) file = true →
  check_update d && online = false →
  (unpack d && unpack_if_needed = true → path_exists (r_fs w) file_unpack = true) →
  _download online now home lower fn_from_url last_modified download_file
    unpack_archive unzip_with_permission d url show_progress unpack_if_needed
    home_arg file_arg w
  = (w, Ret (if unpack d && unpack_if_needed then file_unpack else file)).
Proof.
  intros folder file file_unpack Hname Hfolder Hfile Hcheck Hunpacked.
  unfold _download. fold folder.
  unfold bindM at 1, exists_. rewrite Hfolder.
  unfold bindM at 1, retM. unfold bindM at 1, lift. rewrite Hname.
  fold file. fold file_unpack.
  unfold bindM at 1. rewrite Hfile.
  unfold bindM at 1, check_for_update. cbn [negb]. rewrite andb_true_l, Hcheck.
  unfold retM. unfold bindM at 1.
  unfold unpack_or_file.
  destruct (unpack d && unpack_if_needed); [|done].
  unfold bindM, exists_. by rewrite Hunpacked.
Qed.

(** X20. What [_download] returns is the target path: the file
    [<home>/<kind>/<name>], or that path with [_unpacked] appended when
    the kind unpacks and unpacking is asked for. *)
Theorem download_returns_target (d : descriptor) (url : option string)
    (show_progress unpack_if_needed : bool) (home_arg file_arg : option string)
    (w : rworld) (p : string) :
  let folder := join (match home_arg with None => home | Some h => h end)
                     (lower (cls_name d)) in
  snd (_download online now home lower fn_from_url last_modified download_file
         unpack_archive unzip_with_permission d url show_progress
         unpack_if_needed home_arg file_arg w) = Ret p →
  ∃ name, file_name fn_from_url url file_arg = Ret name ∧
          p = if unpack d && unpack_if_needed
              then join folder name +:+ "_unpacked" else join folder name.
Proof.
  intros folder. unfold _download. fold folder. intros Hret.
  unfold bindM at 1 in Hret.
  destruct (exists_ folder w) as [w0 [b|e]]; [|done].
  unfold bindM at 1 in Hret.
  destruct ((if b then retM () else makedirs now folder) w0) as [w1 [[]|e]];
    [|done].
  unfold bindM at 1, lift in Hret.
  destruct (file_name fn_from_url url file_arg) as [name|e]; [|done].
  exists name. split; [done|].
  unfold bindM at 1 in Hret.
  destruct (exists_ (join folder name) w1) as [w2 [b2|e]]; [|done].
  unfold bindM at 1 in Hret.
  destruct (check_for_update online last_modified d url (join folder name)
              (negb b2) w2) as [w3 [dl|e]]; [|done].
  unfold bindM at 1 in Hret.
  destruct ((if dl
             then fetch download_file url (join folder name)
                    (join folder name +:+ "_unpacked") show_progress
             else retM ()) w3) as [w4 [[]|e]]; [|done].
  unfold unpack_or_file in Hret.
  destruct (unpack d && unpack_if_needed).
  - unfold bindM at 1 in Hret.
    destruct (exists_ (join folder name +:+ "_unpacked") w4) as [w5 [b5|e]];
      [|done].
    unfold bindM at 1 in Hret.
    match type of Hret with context [match ?m w5 with _ => _ end] =>
      destruct (m w5) as [w6 [[]|e]] end; [|done].
    by injection Hret as <-.
  - by injection Hret as <-.
Qed.

End Downloads.

Lemma first_download_skips_update_check_witness :
  let file := "/deps/ghidra/ghidra.zip" in
  _download true 5000 "/deps" ascii_lower url_basename (server_at 2000) transfer
    extract extract Ghidra (default Ghidra) true true None None world_unpacked
  = (RWorld (<[file := RFile 5000]>
               (remove_tree (r_fs world_unpacked) (file +:+ "_unpacked")))
            [RvRmtree (file +:+ "_unpacked");
             RvDownload (default Ghidra) file true],
     Ret file).
Proof.
  destruct (first_download_skips_update_check true 5000 "/deps" ascii_lower
              url_basename (server_at 2000) transfer extract extract Ghidra
              (default Ghidra) true true None None "ghidra.zip" world_unpacked)
    as [_ Hrun].
  - reflexivity.
  - discriminate.
  - reflexivity.
  - exact Hrun.
Defined.

Lemma cached_resource_is_untouched_witness :
  _download false 5000 "/deps" ascii_lower url_basename (server_at 2000)
    transfer extract extract Ghidra (default Ghidra) true true None None
    world_downloaded
  = (world_downloaded,
     Ret (join (join "/deps" (ascii_lower (cls_name Ghidra))) "ghidra.zip")).
Proof.
  apply (cached_resource_is_untouched false 5000 "/deps" ascii_lower
           url_basename (server_at 2000) transfer extract extract Ghidra
           (default Ghidra) true true None None "ghidra.zip" world_downloaded).
  - reflexivity.
  - reflexivity.
  - reflexivity.
  - reflexivity.
  - intros Hunpack. discriminate Hunpack.
Defined.

Lemma download_returns_target_witness :
  ∃ name, file_name url_basename (default Ghidra) None = Ret name ∧
          "/deps/ghidra/ghidra.zip"
          = if unpack Ghidra && true
            then join (join "/deps" (ascii_lower (cls_name Ghidra))) name
                 +:+ "_unpacked"
            else join (join "/deps" (ascii_lower (cls_name Ghidra))) name.
Proof.
  apply (download_returns_target true 5000 "/deps" ascii_lower url_basename
           (server_at 2000) transfer extract extract Ghidra (default Ghidra)
           true true None None world_downloaded "/deps/ghidra/ghidra.zip").
  vm_compute. reflexivity.
Defined.

Section RegistryFacts.

Variables (online : bool) (now : Z) (home platform_system : string).
Variable lower : string → string.
Variable fn_from_url : option string → outcome string.
Variable last_modified : option string → outcome Z.
Variable download_file :
  option string → string → bool → gmap string rnode → outcome (gmap string rnode).
Variables unpack_archive unzip_with_permission :
  string → string → gmap string rnode → outcome (gmap string rnode).

(** X21. [require] does not tell apart two names that agree once put in
    lower case: it does the same for both. *)
Theorem require_ignores_case (subclasses : list descriptor)
    (library library' : string) (w : rworld) :
  lower library = lower library' →
  require online now home platform_system lower fn_from_url last_modified
    download_file unpack_archive unzip_with_permission subclasses library w
  = require online now home platform_system lower fn_from_url last_modified
      download_file unpack_archive unzip_with_permission subclasses library' w.
Proof.
  intros Hsame. induction subclasses as [|res rest IH]; [done|].
  cbn [require]. rewrite Hsame.
  destruct (String.eqb (lower (cls_name res)) (lower library')); [done|apply IH].
Qed.


End RegistryFacts.

Lemma require_ignores_case_witness :
  require true 5000 "/deps" "Linux" ascii_lower url_basename (server_at 2000)
    transfer extract extract [Ghidra; CapaRules] "GHIDRA" world_downloaded
  = require true 5000 "/deps" "Linux" ascii_lower url_basename (server_at 2000)
      transfer extract extract [Ghidra; CapaRules] "ghidra" world_downloaded.
Proof.
  apply (require_ignores_case true 5000 "/deps" "Linux" ascii_lower
           url_basename (server_at 2000) transfer extract extract
           [Ghidra; CapaRules] "GHIDRA" "ghidra" world_downloaded).
  reflexivity.
Defined.

Section PlatformUrl.

Variables (online : bool) (now : Z) (home platform_system : string).
Variable lower : string → string.
Variable fn_from_url : option string → outcome string.
Variable last_modified : option string → outcome Z.
Variable download_file :
  option string → string → bool → gmap string rnode → outcome (gmap string rnode).
Variables unpack_archive unzip_with_permission :
  string → string → gmap string rnode → outcome (gmap string rnode).



End PlatformUrl.

